(** * SCION TRC parser ([lib/crypto/trc.py]): a shallow embedding

    The development follows the Python module top to bottom:
    - Python text, bytes, exceptions and the JSON-shaped values held in
      the attributes of a [TRC] object;
    - the parts of the [json] package that [trc.py] calls
      ([json.dumps] with [sort_keys] and [indent], [json.load]);
    - the class [TRC] itself, written in a small state and exception
      monad (the state holds the object under construction, the
      [logging] output and the calls made to the signature primitive);
    - the properties of [verify], [get_public_key], [parse] and of the
      canonical serialization. *)

From Stdlib Require Import String Ascii.
From Stdlib Require Import Strings.Byte.
From Stdlib Require Import List NArith ZArith Bool Lia.
From Stdlib Require Import Permutation Sorted.
From Stdlib Require DecimalFacts DecimalPos DecimalN.
Import ListNotations.

Set Implicit Arguments.
Local Open Scope N_scope.

(* ================================================================= *)
(** * Python text and bytes *)

(** A Python [str] is a sequence of code points, a [bytes] object a
    sequence of bytes. *)
Definition pystr := list N.
Definition pybytes := list byte.

(** A string literal of the source, as code points. *)
Definition str (s : string) : pystr := map N_of_ascii (list_ascii_of_string s).

(** Comparison of two [str] objects: lexicographic, by code point. *)
Fixpoint pystr_compare (a b : pystr) : comparison :=
  match a, b with
  | [], [] => Eq
  | [], _ :: _ => Lt
  | _ :: _, [] => Gt
  | x :: a', y :: b' =>
      match x ?= y with
      | Eq => pystr_compare a' b'
      | c => c
      end
  end.

Definition pystr_eqb (a b : pystr) : bool :=
  match pystr_compare a b with Eq => true | _ => false end.

Definition pystr_leb (a b : pystr) : bool :=
  match pystr_compare a b with Gt => false | _ => true end.

(* ================================================================= *)
(** * Values *)

(** The values that [json.load] produces and that the attributes of a
    [TRC] hold: [None], [bool], [int], [str], [list] and [dict] with
    [str] keys.  A [dict] keeps its items in insertion order, which is
    the order in which it is iterated.  (Python [float]s are outside
    the model.) *)
Unset Elimination Schemes.
Inductive json : Type :=
| JNull
| JBool (b : bool)
| JInt (z : Z)
| JStr (s : pystr)
| JList (l : list json)
| JDict (d : list (pystr * json)).
Set Elimination Schemes.

(** [d.get(k)]-style lookup in a dict's items. *)
Fixpoint dict_lookup (k : pystr) (d : list (pystr * json)) : option json :=
  match d with
  | [] => None
  | (k', v) :: d' => if pystr_eqb k k' then Some v else dict_lookup k d'
  end.

Definition dict_keys (d : list (pystr * json)) : list pystr := map fst d.

(** [d[k] = v]: replaces the value of an existing key in place, appends
    a new key at the end. *)
Fixpoint dict_set (k : pystr) (v : json) (d : list (pystr * json)) :
  list (pystr * json) :=
  match d with
  | [] => [(k, v)]
  | (k', v') :: d' =>
      if pystr_eqb k k' then (k', v) :: d' else (k', v') :: dict_set k v d'
  end.

(* ================================================================= *)
(** * Exceptions *)

(** The exceptions that the code of [trc.py] and the library functions
    it calls can raise.  [UnicodeEncodeError], [UnicodeDecodeError],
    [BinasciiError] ([binascii.Error]) and [JSONDecodeError] are
    subclasses of [ValueError] in Python.  [OtherError] stands for the
    exceptions of the external collaborators that the code does not
    tell apart.  [OutOfModel] is not an exception of Python: it marks
    an input that leads outside this model (a [float] literal in a
    JSON text). *)
Inductive exn : Type :=
| ValueError
| JSONDecodeError
| UnicodeEncodeError
| UnicodeDecodeError
| BinasciiError
| KeyError (key : json)
| IndexError
| TypeError
| AttributeError
| OSError
| RecursionError
| OtherError (tag : N)
| OutOfModel.

Inductive exn_class : Type := CValueError | CKeyError | CTypeError.

(** [isinstance e c] for the classes named in an [except] clause. *)
Definition isinstance (e : exn) (c : exn_class) : bool :=
  match c, e with
  | CValueError, (ValueError | JSONDecodeError | UnicodeEncodeError
                 | UnicodeDecodeError | BinasciiError) => true
  | CKeyError, KeyError _ => true
  | CTypeError, TypeError => true
  | _, _ => false
  end.

Inductive result (A : Type) : Type :=
| Ok (a : A)
| Raise (e : exn).
Arguments Raise {A} e.

Definition is_raise {A} (r : result A) : Prop :=
  match r with Raise _ => True | Ok _ => False end.

(** [s.encode('ascii')] *)
Fixpoint encode_ascii (s : pystr) : result pybytes :=
  match s with
  | [] => Ok []
  | c :: s' =>
      if c <? 128 then
        match Byte.of_N c, encode_ascii s' with
        | Some b, Ok bs => Ok (b :: bs)
        | _, Raise e => Raise e
        | None, _ => Raise UnicodeEncodeError
        end
      else Raise UnicodeEncodeError
  end.

(** [b.decode('ascii')] *)
Fixpoint decode_ascii (b : pybytes) : result pystr :=
  match b with
  | [] => Ok []
  | x :: b' =>
      if Byte.to_N x <? 128 then
        match decode_ascii b' with
        | Ok s => Ok (Byte.to_N x :: s)
        | Raise e => Raise e
        end
      else Raise UnicodeDecodeError
  end.


(* ================================================================= *)
(** * Operations on values *)

(** Equality of two values.  With [coerce] it is Python's [==], for
    which [True] and [False] are the integers 1 and 0; without, the
    two values also have the same types throughout.  Two dicts are
    equal when they have the same number of items and every key of the
    first has an equal value in the second, whatever the order of the
    items; two lists when they are equal item by item. *)
Fixpoint value_eqb (coerce : bool) (a b : json) {struct a} : bool :=
  match a, b with
  | JNull, JNull => true
  | JBool x, JBool y => Bool.eqb x y
  | JBool x, JInt z => coerce && (Z.b2z x =? z)%Z
  | JInt z, JBool x => coerce && (z =? Z.b2z x)%Z
  | JInt x, JInt y => (x =? y)%Z
  | JStr x, JStr y => pystr_eqb x y
  | JList x, JList y =>
      (fix items (x y : list json) {struct x} : bool :=
         match x, y with
         | [], [] => true
         | a :: x', b :: y' => value_eqb coerce a b && items x' y'
         | _, _ => false
         end) x y
  | JDict x, JDict y =>
      (length x =? length y)%nat &&
      (fix items (x : list (pystr * json)) {struct x} : bool :=
         match x with
         | [] => true
         | (k, v) :: x' =>
             match dict_lookup k y with
             | Some v' => value_eqb coerce v v' && items x'
             | None => false
             end
         end) x
  | _, _ => false
  end.

(** [a == b] *)
Definition py_eq : json -> json -> bool := value_eqb true.

(** Two values with the same types and the same contents. *)
Definition same_value : json -> json -> bool := value_eqb false.

Fixpoint is_prefix (p s : pystr) : bool :=
  match p, s with
  | [], _ => true
  | _ :: _, [] => false
  | x :: p', y :: s' => (x =? y) && is_prefix p' s'
  end.

Fixpoint is_substring (p s : pystr) : bool :=
  is_prefix p s || match s with [] => false | _ :: s' => is_substring p s' end.

(** [x in c] *)
Definition py_contains (c x : json) : result bool :=
  match c with
  | JDict d =>
      match x with
      | JStr k => Ok (match dict_lookup k d with Some _ => true | None => false end)
      | JList _ | JDict _ => Raise TypeError        (* unhashable *)
      | _ => Ok false
      end
  | JList l => Ok (existsb (py_eq x) l)
  | JStr s =>
      match x with
      | JStr p => Ok (is_substring p s)
      | _ => Raise TypeError
      end
  | _ => Raise TypeError                            (* not iterable *)
  end.

(** The position that a sequence of length [n] gives to the index [i]:
    a negative index counts from the end. *)
Definition seq_index (n : nat) (i : Z) : option nat :=
  let i' := if (i <? 0)%Z then (i + Z.of_nat n)%Z else i in
  if ((0 <=? i') && (i' <? Z.of_nat n))%Z then Some (Z.to_nat i') else None.

(** [c[k]] *)
Definition py_getitem (c k : json) : result json :=
  let at_index (i : Z) :=
    match c with
    | JList l =>
        match seq_index (length l) i with
        | Some n => match nth_error l n with Some v => Ok v | None => Raise IndexError end
        | None => Raise IndexError
        end
    | JStr s =>
        match seq_index (length s) i with
        | Some n => match nth_error s n with Some x => Ok (JStr [x]) | None => Raise IndexError end
        | None => Raise IndexError
        end
    | _ => Raise TypeError
    end in
  match c with
  | JDict d =>
      match k with
      | JStr s => match dict_lookup s d with Some v => Ok v | None => Raise (KeyError k) end
      | JList _ | JDict _ => Raise TypeError        (* unhashable *)
      | _ => Raise (KeyError k)
      end
  | JList _ | JStr _ =>
      match k with
      | JInt i => at_index i
      | JBool b => at_index (Z.b2z b)
      | _ => Raise TypeError
      end
  | _ => Raise TypeError                            (* not subscriptable *)
  end.

(** The items that [for x in c] goes through. *)
Definition py_iter (c : json) : result (list json) :=
  match c with
  | JDict d => Ok (map JStr (dict_keys d))
  | JList l => Ok l
  | JStr s => Ok (map (fun x => JStr [x]) s)
  | _ => Raise TypeError
  end.

(** [x.encode('ascii')]: only a [str] has the method. *)
Definition py_encode_ascii (x : json) : result pybytes :=
  match x with
  | JStr s => encode_ascii s
  | _ => Raise AttributeError
  end.

(** Truth value of an object, as [if x:] tests it. *)
Definition py_truth (x : json) : bool :=
  match x with
  | JNull => false
  | JBool b => b
  | JInt z => negb (z =? 0)%Z
  | JStr s => match s with [] => false | _ => true end
  | JList l => match l with [] => false | _ => true end
  | JDict d => match d with [] => false | _ => true end
  end.

(* ================================================================= *)
(** * The encoder of the [json] package *)

(** Code points of the characters the encoder and the decoder name. *)
Definition QUOTE : N := 34.
Definition BACKSLASH : N := 92.
Definition SPACE : N := 32.
Definition NEWLINE : N := 10.
Definition COMMA : N := 44.
Definition COLON : N := 58.
Definition MINUS : N := 45.
Definition LBRACKET : N := 91.
Definition RBRACKET : N := 93.
Definition LBRACE : N := 123.
Definition RBRACE : N := 125.

(** ['{0:04x}'.format(n)], for [n < 0x10000]. *)
Definition hex_digit (n : N) : N := if n <? 10 then 48 + n else 87 + n.

Definition hex4 (n : N) : pystr :=
  [hex_digit (n / 4096 mod 16); hex_digit (n / 256 mod 16);
   hex_digit (n / 16 mod 16); hex_digit (n mod 16)].

(** The replacement of one character in [py_encode_basestring_ascii]:
    the short escapes of [ESCAPE_DCT], the printable ASCII characters
    as they are, [\uXXXX] for the rest, with a surrogate pair above the
    basic plane. *)
Definition escape_char (c : N) : pystr :=
  if c =? QUOTE then [BACKSLASH; QUOTE]
  else if c =? BACKSLASH then [BACKSLASH; BACKSLASH]
  else if c =? 10 then [BACKSLASH; 110]          (* \n *)
  else if c =? 13 then [BACKSLASH; 114]          (* \r *)
  else if c =? 9 then [BACKSLASH; 116]           (* \t *)
  else if c =? 8 then [BACKSLASH; 98]            (* \b *)
  else if c =? 12 then [BACKSLASH; 102]          (* \f *)
  else if (32 <=? c) && (c <=? 126) then [c]
  else if c <? 0x10000 then BACKSLASH :: 117 :: hex4 c
  else
    let n := c - 0x10000 in
    let s1 := N.lor 0xd800 (N.land (N.shiftr n 10) 0x3ff) in
    let s2 := N.lor 0xdc00 (N.land n 0x3ff) in
    (BACKSLASH :: 117 :: hex4 s1) ++ (BACKSLASH :: 117 :: hex4 s2).

(** The two halves of the surrogate pair that the encoder writes for a
    character above the basic plane. *)
Definition high_surrogate (c : N) : N :=
  N.lor 0xd800 (N.land (N.shiftr (c - 0x10000) 10) 0x3ff).

Definition low_surrogate (c : N) : N :=
  N.lor 0xdc00 (N.land (c - 0x10000) 0x3ff).

Definition encode_basestring_ascii (s : pystr) : pystr :=
  QUOTE :: flat_map escape_char s ++ [QUOTE].

(** [str(n)] for an [int]. *)
Fixpoint uint_digits (d : Decimal.uint) : pystr :=
  match d with
  | Decimal.Nil => []
  | Decimal.D0 d' => 48 :: uint_digits d'
  | Decimal.D1 d' => 49 :: uint_digits d'
  | Decimal.D2 d' => 50 :: uint_digits d'
  | Decimal.D3 d' => 51 :: uint_digits d'
  | Decimal.D4 d' => 52 :: uint_digits d'
  | Decimal.D5 d' => 53 :: uint_digits d'
  | Decimal.D6 d' => 54 :: uint_digits d'
  | Decimal.D7 d' => 55 :: uint_digits d'
  | Decimal.D8 d' => 56 :: uint_digits d'
  | Decimal.D9 d' => 57 :: uint_digits d'
  end.

Definition int_repr (z : Z) : pystr :=
  if (z <? 0)%Z then MINUS :: uint_digits (N.to_uint (Z.abs_N z))
  else uint_digits (N.to_uint (Z.abs_N z)).

(** [sep.join(items)] *)
Fixpoint join (sep : pystr) (items : list pystr) : pystr :=
  match items with
  | [] => []
  | [x] => x
  | x :: items' => x ++ sep ++ join sep items'
  end.

(** [sorted(dct.items())], for items whose keys differ: by key. *)
Fixpoint insert_item {A} (kv : pystr * A) (l : list (pystr * A)) :
  list (pystr * A) :=
  match l with
  | [] => [kv]
  | kv' :: l' =>
      if pystr_leb (fst kv) (fst kv') then kv :: l
      else kv' :: insert_item kv l'
  end.

Definition sorted_items {A} (l : list (pystr * A)) : list (pystr * A) :=
  fold_right insert_item [] l.

(** The order of two items in a sorted dict. *)
Definition key_le {A} (a b : pystr * A) : Prop :=
  pystr_leb (fst a) (fst b) = true.

Section Encoder.

(** The keyword arguments of [json.dumps] that [trc.py] sets. *)
Variable sort_keys : bool.
Variable indent : option nat.

(** With an indent the items are separated by a comma alone. *)
Definition item_separator : pystr :=
  match indent with Some _ => [COMMA] | None => [COMMA; SPACE] end.

Definition key_separator : pystr := [COLON; SPACE].

Definition newline_indent (level : nat) : pystr :=
  match indent with
  | Some n => NEWLINE :: repeat SPACE (n * level)
  | None => []
  end.

(** [_iterencode], with the pieces it yields joined. *)
Fixpoint iterencode (level : nat) (o : json) {struct o} : pystr :=
  match o with
  | JNull => str "null"
  | JBool true => str "true"
  | JBool false => str "false"
  | JInt z => int_repr z
  | JStr s => encode_basestring_ascii s
  | JList [] => str "[]"
  | JList l =>
      [LBRACKET] ++ newline_indent (S level)
      ++ join (item_separator ++ newline_indent (S level))
              (map (iterencode (S level)) l)
      ++ newline_indent level ++ [RBRACKET]
  | JDict [] => str "{}"
  | JDict d =>
      let encoded :=
        map (fun kv => (fst kv, iterencode (S level) (snd kv))) d in
      let items := if sort_keys then sorted_items encoded else encoded in
      [LBRACE] ++ newline_indent (S level)
      ++ join (item_separator ++ newline_indent (S level))
              (map (fun kr => encode_basestring_ascii (fst kr)
                              ++ key_separator ++ snd kr) items)
      ++ newline_indent level ++ [RBRACE]
  end.

End Encoder.

(** [json.dumps(obj, sort_keys=..., indent=...)] *)
Definition json_dumps (sort_keys : bool) (indent : option nat) (obj : json) : pystr :=
  iterencode sort_keys indent 0 obj.

(* ================================================================= *)
(** * The decoder of the [json] package *)

Definition is_ws (c : N) : bool :=
  (c =? SPACE) || (c =? 9) || (c =? NEWLINE) || (c =? 13).

Fixpoint skip_ws (s : pystr) : pystr :=
  match s with
  | c :: s' => if is_ws c then skip_ws s' else s
  | [] => []
  end.

Definition is_digit (c : N) : bool := (48 <=? c) && (c <=? 57).

Definition hex_value (c : N) : option N :=
  if (48 <=? c) && (c <=? 57) then Some (c - 48)
  else if (97 <=? c) && (c <=? 102) then Some (c - 87)
  else if (65 <=? c) && (c <=? 70) then Some (c - 55)
  else None.

(** [_decode_uXXXX]: the value of four hexadecimal digits. *)
Definition decode_uXXXX (a b c d : N) : option N :=
  match hex_value a, hex_value b, hex_value c, hex_value d with
  | Some x, Some y, Some z, Some t => Some (((x * 16 + y) * 16 + z) * 16 + t)
  | _, _, _, _ => None
  end.

(** The table [BACKSLASH] of the decoder: the character behind a short
    escape. *)
Definition unescape (e : N) : option N :=
  if e =? QUOTE then Some QUOTE
  else if e =? BACKSLASH then Some BACKSLASH
  else if e =? 47 then Some 47                 (* / *)
  else if e =? 98 then Some 8                  (* b *)
  else if e =? 102 then Some 12                (* f *)
  else if e =? 110 then Some 10                (* n *)
  else if e =? 114 then Some 13                (* r *)
  else if e =? 116 then Some 9                 (* t *)
  else None.

Definition prepend {A B} (x : A) (r : result (list A * B)) : result (list A * B) :=
  match r with
  | Ok (l, rest) => Ok (x :: l, rest)
  | Raise e => Raise e
  end.

(** [scanstring], strict: reads a string literal after its opening
    quote and returns its value with the text that follows the closing
    quote. *)
Fixpoint scanstring (s : pystr) : result (pystr * pystr) :=
  match s with
  | [] => Raise JSONDecodeError                       (* unterminated *)
  | c :: s1 =>
      if c =? QUOTE then Ok ([], s1)
      else if c =? BACKSLASH then
        match s1 with
        | [] => Raise JSONDecodeError
        | e :: s2 =>
            if e =? 117 then                          (* u: four hex digits *)
              match s2 with
              | h1 :: h2 :: h3 :: h4 :: s6 =>
                  match decode_uXXXX h1 h2 h3 h4 with
                  | None => Raise JSONDecodeError
                  | Some uni =>
                      if (0xd800 <=? uni) && (uni <=? 0xdbff) then
                        match s6 with
                        | b :: u :: g1 :: g2 :: g3 :: g4 :: s12 =>
                            if (b =? BACKSLASH) && (u =? 117) then
                              match decode_uXXXX g1 g2 g3 g4 with
                              | None => Raise JSONDecodeError
                              | Some uni2 =>
                                  if (0xdc00 <=? uni2) && (uni2 <=? 0xdfff) then
                                    prepend
                                      (0x10000 + N.lor (N.shiftl (uni - 0xd800) 10)
                                                       (uni2 - 0xdc00))
                                      (scanstring s12)
                                  else prepend uni (scanstring s6)
                              end
                            else prepend uni (scanstring s6)
                        | _ => prepend uni (scanstring s6)
                        end
                      else prepend uni (scanstring s6)
                  end
              | _ => Raise JSONDecodeError
              end
            else
              match unescape e with
              | Some x => prepend x (scanstring s2)
              | None => Raise JSONDecodeError         (* invalid escape *)
              end
        end
      else if c <? 32 then Raise JSONDecodeError      (* control character *)
      else prepend c (scanstring s1)
  end.

(** The digits at the head of a text. *)
Fixpoint scan_digits (s : pystr) : Decimal.uint * pystr :=
  match s with
  | c :: s' =>
      if is_digit c then
        let (d, rest) := scan_digits s' in
        ((if c =? 48 then Decimal.D0 else if c =? 49 then Decimal.D1
          else if c =? 50 then Decimal.D2 else if c =? 51 then Decimal.D3
          else if c =? 52 then Decimal.D4 else if c =? 53 then Decimal.D5
          else if c =? 54 then Decimal.D6 else if c =? 55 then Decimal.D7
          else if c =? 56 then Decimal.D8 else Decimal.D9) d, rest)
      else (Decimal.Nil, s)
  | [] => (Decimal.Nil, [])
  end.

(** Whether a fraction or an exponent follows the integer part of a
    number: a point and a digit, or [e] or [E], an optional sign and a
    digit (the second and third groups of [NUMBER_RE]). *)
Definition float_follows (s : pystr) : bool :=
  match s with
  | c :: d :: s' =>
      ((c =? 46) && is_digit d)
      || (((c =? 101) || (c =? 69))
          && (is_digit d
              || (((d =? 43) || (d =? MINUS))
                  && match s' with x :: _ => is_digit x | [] => false end)))
  | _ => false
  end.

(** The integer part of [NUMBER_RE], after the sign: a zero alone, or
    a digit from 1 to 9 and the digits that follow it. *)
Definition match_natural (s : pystr) : option (N * pystr) :=
  match s with
  | c :: s' =>
      if c =? 48 then Some (0, s')
      else if is_digit c then
        let (d, rest) := scan_digits s in Some (N.of_uint d, rest)
      else None
  | [] => None
  end.

Definition match_number (s : pystr) : result (json * pystr) :=
  let sign_rest :=
    match s with
    | c :: s' => if c =? MINUS then (true, s') else (false, s)
    | [] => (false, s)
    end in
  match match_natural (snd sign_rest) with
  | Some (n, rest) =>
      if float_follows rest then Raise OutOfModel
      else Ok (JInt (if fst sign_rest then - Z.of_N n else Z.of_N n)%Z, rest)
  | None =>
      if is_prefix (str "NaN") s || is_prefix (str "Infinity") s
         || is_prefix (str "-Infinity") s
      then Raise OutOfModel
      else Raise JSONDecodeError                      (* expecting value *)
  end.

(** [dict(pairs)]: a key read twice keeps its first place and its last
    value. *)
Definition dict_of_pairs (pairs : list (pystr * json)) : list (pystr * json) :=
  fold_left (fun d kv => dict_set (fst kv) (snd kv) d) pairs [].

Definition expect (c : N) (s : pystr) : result pystr :=
  match s with
  | x :: s' => if x =? c then Ok s' else Raise JSONDecodeError
  | [] => Raise JSONDecodeError
  end.

Section Containers.

(** The scanner of values, which [JSONObject] and [JSONArray] receive
    as an argument. *)
Variable scan_once : pystr -> result (json * pystr).

(** The loop of [JSONArray]: the items of a list, up to the closing
    bracket.  It runs at most [n] times. *)
Fixpoint array_items (n : nat) (s : pystr) {struct n} : result (list json * pystr) :=
  match n with
  | O => Raise RecursionError
  | S n' =>
      match scan_once s with
      | Raise e => Raise e
      | Ok (value, s2) =>
          match skip_ws s2 with
          | [] => Raise JSONDecodeError
          | d :: s3 =>
              if d =? RBRACKET then Ok ([value], s3)
              else if d =? COMMA then prepend value (array_items n' (skip_ws s3))
              else Raise JSONDecodeError
          end
      end
  end.

(** [JSONArray], on the text after the opening bracket. *)
Definition JSONArray (s : pystr) : result (json * pystr) :=
  match skip_ws s with
  | [] => Raise JSONDecodeError
  | c :: s1 =>
      if c =? RBRACKET then Ok (JList [], s1)
      else
        match array_items (length s) (c :: s1) with
        | Ok (l, rest) => Ok (JList l, rest)
        | Raise e => Raise e
        end
  end.

(** The loop of [JSONObject]: the pairs of a dict, up to the closing
    brace.  It runs at most [n] times. *)
Fixpoint object_members (n : nat) (s : pystr) {struct n} :
  result (list (pystr * json) * pystr) :=
  match n with
  | O => Raise RecursionError
  | S n' =>
      match expect QUOTE s with
      | Raise e => Raise e
      | Ok s2 =>
          match scanstring s2 with
          | Raise e => Raise e
          | Ok (key, s3) =>
              match expect COLON (skip_ws s3) with
              | Raise e => Raise e
              | Ok s4 =>
                  match scan_once (skip_ws s4) with
                  | Raise e => Raise e
                  | Ok (value, s5) =>
                      match skip_ws s5 with
                      | [] => Raise JSONDecodeError
                      | d :: s6 =>
                          if d =? RBRACE then Ok ([(key, value)], s6)
                          else if d =? COMMA then
                            prepend (key, value) (object_members n' (skip_ws s6))
                          else Raise JSONDecodeError
                      end
                  end
              end
          end
      end
  end.

(** [JSONObject], on the text after the opening brace. *)
Definition JSONObject (s : pystr) : result (json * pystr) :=
  match skip_ws s with
  | [] => Raise JSONDecodeError
  | c :: s1 =>
      if c =? RBRACE then Ok (JDict [], s1)
      else
        match object_members (length s) (c :: s1) with
        | Ok (pairs, rest) => Ok (JDict (dict_of_pairs pairs), rest)
        | Raise e => Raise e
        end
  end.

End Containers.

(** [scan_once]: one value at the head of the text, with the text that
    follows it.  [depth] bounds the nesting of lists and dicts, as the
    recursion limit of the interpreter does. *)
Fixpoint scan_once (depth : nat) (s : pystr) {struct depth} : result (json * pystr) :=
  match depth with
  | O => Raise RecursionError
  | S depth' =>
      match s with
      | [] => Raise JSONDecodeError                   (* expecting value *)
      | c :: s' =>
          if c =? QUOTE then
            match scanstring s' with
            | Ok (x, rest) => Ok (JStr x, rest)
            | Raise e => Raise e
            end
          else if c =? LBRACE then JSONObject (scan_once depth') s'
          else if c =? LBRACKET then JSONArray (scan_once depth') s'
          else if is_prefix (str "null") s then Ok (JNull, skipn 4 s)
          else if is_prefix (str "true") s then Ok (JBool true, skipn 4 s)
          else if is_prefix (str "false") s then Ok (JBool false, skipn 5 s)
          else match_number s
      end
  end.

(** A text that can follow a number: it starts with no digit, point or
    exponent mark. *)
Definition ends_number (rest : pystr) : bool :=
  match rest with
  | [] => true
  | c :: _ =>
      negb (is_digit c) && negb (c =? 46) && negb (c =? 101) && negb (c =? 69)
  end.

(** A text that starts with a character which is not white space. *)
Definition starts_token (s : pystr) : bool :=
  match s with
  | [] => false
  | c :: _ => negb (is_ws c) && negb (c =? RBRACKET) && negb (c =? RBRACE)
  end.

(** [json.loads(s)]: one value, with white space around it and nothing
    else. *)
Definition json_loads (s : pystr) : result json :=
  match scan_once (S (length s)) (skip_ws s) with
  | Ok (obj, rest) =>
      match skip_ws rest with
      | [] => Ok obj
      | _ :: _ => Raise JSONDecodeError               (* extra data *)
      end
  | Raise e => Raise e
  end.

(* ================================================================= *)
(** * The class [TRC] *)

(** The attributes of an instance.  Python does not type them: each
    holds whatever value was assigned to it. *)
Record TRC : Type := mkTRC {
  isd_id : json;
  version : json;
  time : json;
  core_quorum : json;
  trc_quorum : json;
  core_isps : json;
  root_cas : json;
  core_ads : json;
  policies : json;
  registry_server_addr : json;
  registry_server_cert : json;
  root_dns_server_addr : json;
  root_dns_server_cert : json;
  trc_server_addr : json;
  signatures : json
}.

(** [t.f = v], one function per attribute. *)
Definition set_isd_id (v : json) (t : TRC) : TRC :=
  mkTRC v (version t) (time t) (core_quorum t) (trc_quorum t)
    (core_isps t) (root_cas t) (core_ads t) (policies t)
    (registry_server_addr t) (registry_server_cert t)
    (root_dns_server_addr t) (root_dns_server_cert t)
    (trc_server_addr t) (signatures t).

Definition set_version (v : json) (t : TRC) : TRC :=
  mkTRC (isd_id t) v (time t) (core_quorum t) (trc_quorum t)
    (core_isps t) (root_cas t) (core_ads t) (policies t)
    (registry_server_addr t) (registry_server_cert t)
    (root_dns_server_addr t) (root_dns_server_cert t)
    (trc_server_addr t) (signatures t).

Definition set_time (v : json) (t : TRC) : TRC :=
  mkTRC (isd_id t) (version t) v (core_quorum t) (trc_quorum t)
    (core_isps t) (root_cas t) (core_ads t) (policies t)
    (registry_server_addr t) (registry_server_cert t)
    (root_dns_server_addr t) (root_dns_server_cert t)
    (trc_server_addr t) (signatures t).

Definition set_core_quorum (v : json) (t : TRC) : TRC :=
  mkTRC (isd_id t) (version t) (time t) v (trc_quorum t) (core_isps t)
    (root_cas t) (core_ads t) (policies t) (registry_server_addr t)
    (registry_server_cert t) (root_dns_server_addr t)
    (root_dns_server_cert t) (trc_server_addr t) (signatures t).

Definition set_trc_quorum (v : json) (t : TRC) : TRC :=
  mkTRC (isd_id t) (version t) (time t) (core_quorum t) v (core_isps t)
    (root_cas t) (core_ads t) (policies t) (registry_server_addr t)
    (registry_server_cert t) (root_dns_server_addr t)
    (root_dns_server_cert t) (trc_server_addr t) (signatures t).

Definition set_core_isps (v : json) (t : TRC) : TRC :=
  mkTRC (isd_id t) (version t) (time t) (core_quorum t) (trc_quorum t) v
    (root_cas t) (core_ads t) (policies t) (registry_server_addr t)
    (registry_server_cert t) (root_dns_server_addr t)
    (root_dns_server_cert t) (trc_server_addr t) (signatures t).

Definition set_root_cas (v : json) (t : TRC) : TRC :=
  mkTRC (isd_id t) (version t) (time t) (core_quorum t) (trc_quorum t)
    (core_isps t) v (core_ads t) (policies t) (registry_server_addr t)
    (registry_server_cert t) (root_dns_server_addr t)
    (root_dns_server_cert t) (trc_server_addr t) (signatures t).

Definition set_core_ads (v : json) (t : TRC) : TRC :=
  mkTRC (isd_id t) (version t) (time t) (core_quorum t) (trc_quorum t)
    (core_isps t) (root_cas t) v (policies t) (registry_server_addr t)
    (registry_server_cert t) (root_dns_server_addr t)
    (root_dns_server_cert t) (trc_server_addr t) (signatures t).

Definition set_policies (v : json) (t : TRC) : TRC :=
  mkTRC (isd_id t) (version t) (time t) (core_quorum t) (trc_quorum t)
    (core_isps t) (root_cas t) (core_ads t) v (registry_server_addr t)
    (registry_server_cert t) (root_dns_server_addr t)
    (root_dns_server_cert t) (trc_server_addr t) (signatures t).

Definition set_registry_server_addr (v : json) (t : TRC) : TRC :=
  mkTRC (isd_id t) (version t) (time t) (core_quorum t) (trc_quorum t)
    (core_isps t) (root_cas t) (core_ads t) (policies t) v
    (registry_server_cert t) (root_dns_server_addr t)
    (root_dns_server_cert t) (trc_server_addr t) (signatures t).

Definition set_registry_server_cert (v : json) (t : TRC) : TRC :=
  mkTRC (isd_id t) (version t) (time t) (core_quorum t) (trc_quorum t)
    (core_isps t) (root_cas t) (core_ads t) (policies t)
    (registry_server_addr t) v (root_dns_server_addr t)
    (root_dns_server_cert t) (trc_server_addr t) (signatures t).

Definition set_root_dns_server_addr (v : json) (t : TRC) : TRC :=
  mkTRC (isd_id t) (version t) (time t) (core_quorum t) (trc_quorum t)
    (core_isps t) (root_cas t) (core_ads t) (policies t)
    (registry_server_addr t) (registry_server_cert t) v
    (root_dns_server_cert t) (trc_server_addr t) (signatures t).

Definition set_root_dns_server_cert (v : json) (t : TRC) : TRC :=
  mkTRC (isd_id t) (version t) (time t) (core_quorum t) (trc_quorum t)
    (core_isps t) (root_cas t) (core_ads t) (policies t)
    (registry_server_addr t) (registry_server_cert t)
    (root_dns_server_addr t) v (trc_server_addr t) (signatures t).

Definition set_trc_server_addr (v : json) (t : TRC) : TRC :=
  mkTRC (isd_id t) (version t) (time t) (core_quorum t) (trc_quorum t)
    (core_isps t) (root_cas t) (core_ads t) (policies t)
    (registry_server_addr t) (registry_server_cert t)
    (root_dns_server_addr t) (root_dns_server_cert t) v (signatures t).

Definition set_signatures (v : json) (t : TRC) : TRC :=
  mkTRC (isd_id t) (version t) (time t) (core_quorum t) (trc_quorum t)
    (core_isps t) (root_cas t) (core_ads t) (policies t)
    (registry_server_addr t) (registry_server_cert t)
    (root_dns_server_addr t) (root_dns_server_cert t)
    (trc_server_addr t) v.

(* ================================================================= *)
(** * State and exceptions *)

Inductive log_level : Type := ERROR | WARNING.

(** What [get_public_key] returns: the [str] [''] or a [bytes] key. *)
Inductive str_or_bytes : Type :=
| IsStr (s : pystr)
| IsBytes (b : pybytes).

(** The state that the methods of [TRC] act on: the instance [self],
    the records handed to [logging], and the arguments of the calls
    made to [crypto_sign_ed25519_open], oldest first. *)
Record state : Type := mkState {
  self : TRC;
  logged : list (log_level * pystr);
  opened : list (pybytes * str_or_bytes)
}.

(** A computation returns a value or raises, and leaves a state in
    both cases. *)
Definition M (A : Type) : Type := state -> result A * state.

Definition ret {A} (a : A) : M A := fun st => (Ok a, st).

Definition bind {A B} (m : M A) (k : A -> M B) : M B :=
  fun st =>
    match m st with
    | (Ok a, st') => k a st'
    | (Raise e, st') => (Raise e, st')
    end.

Notation "x <- m ;; k" := (bind m (fun x => k))
  (at level 61, m at next level, right associativity).
Notation "m ;; k" := (bind m (fun _ => k))
  (at level 61, right associativity).

(** The result of a call that has no effect on the state. *)
Definition lift {A} (r : result A) : M A := fun st => (r, st).

Definition get_self : M TRC := fun st => (Ok (self st), st).

(** [self.f = v] *)
Definition assign (setter : json -> TRC -> TRC) (v : json) : M unit :=
  fun st => (Ok tt, mkState (setter v (self st)) (logged st) (opened st)).

(** [logging.error(msg)] and [logging.warning(msg)] *)
Definition add_log (l : log_level) (msg : pystr) (st : state) : state :=
  mkState (self st) (logged st ++ [(l, msg)]) (opened st).

Definition logging (l : log_level) (msg : pystr) : M unit :=
  fun st => (Ok tt, add_log l msg st).

Definition add_call (signature : pybytes) (public_key : str_or_bytes)
  (st : state) : state :=
  mkState (self st) (logged st) (opened st ++ [(signature, public_key)]).

(** [try: m except (classes): handler] *)
Definition try_except {A} (m : M A) (classes : list exn_class) (handler : M A) : M A :=
  fun st =>
    match m st with
    | (Ok a, st') => (Ok a, st')
    | (Raise e, st') =>
        if existsb (isinstance e) classes then handler st' else (Raise e, st')
    end.

(** [try: m except: handler], which catches every exception. *)
Definition try_except_all {A} (m : M A) (handler : M A) : M A :=
  fun st =>
    match m st with
    | (Ok a, st') => (Ok a, st')
    | (Raise _, st') => handler st'
    end.

(** [for x in l: body], where the body either goes on to the next item
    ([None]) or returns from the enclosing function ([Some r]); [after]
    is the code that follows the loop. *)
Fixpoint for_each {A R} (l : list A) (body : A -> M (option R)) (after : M R) : M R :=
  match l with
  | [] => after
  | x :: l' =>
      r <- body x ;;
      match r with
      | Some v => ret v
      | None => for_each l' body after
      end
  end.

(* ================================================================= *)
(** * The methods of [TRC] *)

Section Methods.

(** The collaborators of the module: [lib.crypto.nacl], [base64],
    the file system and the clock. *)

(** [crypto_sign_ed25519_open(signature, public_key)]: the message
    behind a valid signature, or an exception. *)
Variable crypto_sign_ed25519_open : pybytes -> str_or_bytes -> result pybytes.

(** [base64.standard_b64decode(s)] *)
Variable standard_b64decode : pybytes -> result pybytes.

(** [open(trc_file)] and the text read from the file. *)
Variable open_read : json -> result pystr.

(** [int(time.time())] *)
Variable now : Z.

(** The call of the signature primitive, recorded in the state. *)
Definition call_crypto_sign_ed25519_open (signature : pybytes)
  (public_key : str_or_bytes) : M pybytes :=
  fun st =>
    (crypto_sign_ed25519_open signature public_key,
     add_call signature public_key st).

(** [json.load(fh)] *)
Definition json_load (text : pystr) : result json := json_loads text.

Definition get_trc_dict (t : TRC) (with_signatures : bool) : json :=
  let trc_dict :=
    [ (str "isd_id", isd_id t);
      (str "version", version t);
      (str "time", time t);
      (str "core_quorum", core_quorum t);
      (str "trc_quorum", trc_quorum t);
      (str "core_isps", core_isps t);
      (str "root_cas", root_cas t);
      (str "core_ads", core_ads t);
      (str "policies", policies t);
      (str "registry_server_addr", registry_server_addr t);
      (str "registry_server_cert", registry_server_cert t);
      (str "root_dns_server_addr", root_dns_server_addr t);
      (str "root_dns_server_cert", root_dns_server_cert t);
      (str "trc_server_addr", trc_server_addr t) ] in
  if with_signatures then
    JDict (dict_set (str "signatures") (signatures t) trc_dict)
  else JDict trc_dict.

Definition parse (trc_file : json) : M unit :=
  loaded <-
    try_except
      (text <- lift (open_read trc_file) ;;
       trc <- lift (json_load text) ;;
       ret (Some trc))
      [CValueError; CKeyError; CTypeError]
      (logging ERROR (str "TRC: JSON format error.") ;;
       ret None) ;;
  match loaded with
  | None => ret tt
  | Some trc =>
      v <- lift (py_getitem trc (JStr (str "isd_id"))) ;;
      assign set_isd_id v ;;
      v <- lift (py_getitem trc (JStr (str "version"))) ;;
      assign set_version v ;;
      v <- lift (py_getitem trc (JStr (str "time"))) ;;
      assign set_time v ;;
      v <- lift (py_getitem trc (JStr (str "core_quorum"))) ;;
      assign set_core_quorum v ;;
      v <- lift (py_getitem trc (JStr (str "trc_quorum"))) ;;
      assign set_trc_quorum v ;;
      v <- lift (py_getitem trc (JStr (str "core_isps"))) ;;
      assign set_core_isps v ;;
      v <- lift (py_getitem trc (JStr (str "root_cas"))) ;;
      assign set_root_cas v ;;
      v <- lift (py_getitem trc (JStr (str "core_ads"))) ;;
      assign set_core_ads v ;;
      v <- lift (py_getitem trc (JStr (str "policies"))) ;;
      assign set_policies v ;;
      v <- lift (py_getitem trc (JStr (str "registry_server_addr"))) ;;
      assign set_registry_server_addr v ;;
      v <- lift (py_getitem trc (JStr (str "registry_server_cert"))) ;;
      assign set_registry_server_cert v ;;
      v <- lift (py_getitem trc (JStr (str "root_dns_server_addr"))) ;;
      assign set_root_dns_server_addr v ;;
      v <- lift (py_getitem trc (JStr (str "root_dns_server_cert"))) ;;
      assign set_root_dns_server_cert v ;;
      v <- lift (py_getitem trc (JStr (str "trc_server_addr"))) ;;
      assign set_trc_server_addr v ;;
      v <- lift (py_getitem trc (JStr (str "signatures"))) ;;
      assign set_signatures v
  end.

(** [TRC(trc_file)]: the default of [trc_file] is [None]. *)
Definition __init__ (trc_file : json) : M unit :=
  assign set_isd_id (JInt 0) ;;
  assign set_version (JInt 0) ;;
  assign set_time (JInt 0) ;;
  assign set_core_quorum (JInt 0) ;;
  assign set_trc_quorum (JInt 0) ;;
  assign set_core_isps (JDict []) ;;
  assign set_root_cas (JDict []) ;;
  assign set_core_ads (JDict []) ;;
  assign set_policies (JDict []) ;;
  assign set_registry_server_addr (JStr []) ;;
  assign set_registry_server_cert (JStr []) ;;
  assign set_root_dns_server_addr (JStr []) ;;
  assign set_root_dns_server_cert (JStr []) ;;
  assign set_trc_server_addr (JStr []) ;;
  assign set_signatures (JDict []) ;;
  if py_truth trc_file then parse trc_file else ret tt.

(** [TRC.from_values(...)]: the new instance is the [self] of the
    state when the method returns. *)
Definition from_values (isd_id version core_quorum trc_quorum core_isps
  root_cas core_ads policies registry_server_addr registry_server_cert
  root_dns_server_addr root_dns_server_cert trc_server_addr
  signatures : json) : M unit :=
  __init__ JNull ;;
  assign set_isd_id isd_id ;;
  assign set_version version ;;
  assign set_time (JInt now) ;;
  assign set_core_quorum core_quorum ;;
  assign set_trc_quorum trc_quorum ;;
  assign set_core_isps core_isps ;;
  assign set_root_cas root_cas ;;
  assign set_core_ads core_ads ;;
  assign set_policies policies ;;
  assign set_registry_server_addr registry_server_addr ;;
  assign set_registry_server_cert registry_server_cert ;;
  assign set_root_dns_server_addr root_dns_server_addr ;;
  assign set_root_dns_server_cert root_dns_server_cert ;;
  assign set_trc_server_addr trc_server_addr ;;
  assign set_signatures signatures.

Definition get_public_key (subject : json) : M str_or_bytes :=
  t <- get_self ;;
  present <- lift (py_contains (core_ads t) subject) ;;
  if negb present then
    logging WARNING (str "The public key could not be found.") ;;
    ret (IsStr [])
  else
    subject_cert <- lift (py_getitem (core_ads t) subject) ;;
    subject_cert <- lift (py_encode_ascii subject_cert) ;;
    subject_cert <- lift (standard_b64decode subject_cert) ;;
    subject_cert <- lift (decode_ascii subject_cert) ;;
    subject_cert <- lift (json_loads subject_cert) ;;
    public_key <- lift (py_getitem subject_cert (JStr (str "subject_pub_key"))) ;;
    public_key <- lift (py_encode_ascii public_key) ;;
    public_key <- lift (standard_b64decode public_key) ;;
    ret (IsBytes public_key).

(** The body of the loop of [verify], for one signer. *)
Definition verify_signer (data_to_verify : pybytes) (signer : json) :
  M (option bool) :=
  t <- get_self ;;
  present <- lift (py_contains (core_ads t) signer) ;;
  if negb present then
    logging WARNING (str "A signature could not be verified.") ;;
    ret (Some false)
  else
    public_key <- get_public_key signer ;;
    sig_to_verify <- lift (py_getitem (signatures t) signer) ;;
    sig_to_verify <- lift (py_encode_ascii sig_to_verify) ;;
    sig_to_verify <- lift (standard_b64decode sig_to_verify) ;;
    let signature := sig_to_verify ++ data_to_verify in
    try_except_all
      (call_crypto_sign_ed25519_open signature public_key ;;
       ret None)
      (logging WARNING (str "A signature is not valid.") ;;
       ret (Some false)).

Definition verify : M bool :=
  t <- get_self ;;
  let data_to_verify := get_trc_dict t false in
  let data_to_verify := json_dumps true (Some 4%nat) data_to_verify in
  data_to_verify <- lift (encode_ascii data_to_verify) ;;
  signers <- lift (py_iter (signatures t)) ;;
  for_each signers (verify_signer data_to_verify) (ret true).

Definition __str__ (t : TRC) : pystr :=
  let trc_dict := get_trc_dict t true in
  let trc_str := json_dumps true (Some 4%nat) trc_dict in
  trc_str.

End Methods.

(* ================================================================= *)
(** * The outcomes of [get_public_key] and [verify] *)

Definition and_then {A B} (r : result A) (k : A -> result B) : result B :=
  match r with
  | Ok a => k a
  | Raise e => Raise e
  end.

Definition ascii_only (s : pystr) : Prop := Forall (fun c => c < 128) s.

Section Outcomes.

Variable crypto_sign_ed25519_open : pybytes -> str_or_bytes -> result pybytes.
Variable standard_b64decode : pybytes -> result pybytes.

(** What [get_public_key] computes for a subject of [core_ads]: the
    statements after its first test. *)
Definition certificate_key (t : TRC) (subject : json) : result pybytes :=
  and_then (py_getitem (core_ads t) subject) (fun subject_cert =>
  and_then (py_encode_ascii subject_cert) (fun subject_cert =>
  and_then (standard_b64decode subject_cert) (fun subject_cert =>
  and_then (decode_ascii subject_cert) (fun subject_cert =>
  and_then (json_loads subject_cert) (fun subject_cert =>
  and_then (py_getitem subject_cert (JStr (str "subject_pub_key"))) (fun public_key =>
  and_then (py_encode_ascii public_key) (fun public_key =>
  standard_b64decode public_key))))))).

(** What [verify] computes as [sig_to_verify] for a signer. *)
Definition signature_bytes (t : TRC) (signer : json) : result pybytes :=
  and_then (py_getitem (signatures t) signer) (fun sig_to_verify =>
  and_then (py_encode_ascii sig_to_verify) (fun sig_to_verify =>
  standard_b64decode sig_to_verify)).

(** The messages that [verify] logs. *)
Definition could_not_be_verified : log_level * pystr :=
  (WARNING, str "A signature could not be verified.").
Definition is_not_valid : log_level * pystr :=
  (WARNING, str "A signature is not valid.").

(** A run of the loop of [verify] over the signers still to check:
    its outcome, the calls it makes to the signature primitive and
    the records it logs. *)
Inductive loop_run (t : TRC) (data : pybytes) :
  list json -> result bool -> list (pybytes * str_or_bytes) ->
  list (log_level * pystr) -> Prop :=
| run_end :
    loop_run t data [] (Ok true) [] []
| run_unhashable signer rest e :
    py_contains (core_ads t) signer = Raise e ->
    loop_run t data (signer :: rest) (Raise e) [] []
| run_absent signer rest :
    py_contains (core_ads t) signer = Ok false ->
    loop_run t data (signer :: rest) (Ok false) [] [could_not_be_verified]
| run_bad_certificate signer rest e :
    py_contains (core_ads t) signer = Ok true ->
    certificate_key t signer = Raise e ->
    loop_run t data (signer :: rest) (Raise e) [] []
| run_bad_signature signer rest public_key e :
    py_contains (core_ads t) signer = Ok true ->
    certificate_key t signer = Ok public_key ->
    signature_bytes t signer = Raise e ->
    loop_run t data (signer :: rest) (Raise e) [] []
| run_rejected signer rest public_key sig_to_verify e :
    py_contains (core_ads t) signer = Ok true ->
    certificate_key t signer = Ok public_key ->
    signature_bytes t signer = Ok sig_to_verify ->
    crypto_sign_ed25519_open (sig_to_verify ++ data) (IsBytes public_key) = Raise e ->
    loop_run t data (signer :: rest) (Ok false)
      [(sig_to_verify ++ data, IsBytes public_key)] [is_not_valid]
| run_accepted signer rest public_key sig_to_verify message r calls logs :
    py_contains (core_ads t) signer = Ok true ->
    certificate_key t signer = Ok public_key ->
    signature_bytes t signer = Ok sig_to_verify ->
    crypto_sign_ed25519_open (sig_to_verify ++ data) (IsBytes public_key) = Ok message ->
    loop_run t data rest r calls logs ->
    loop_run t data (signer :: rest) r
      ((sig_to_verify ++ data, IsBytes public_key) :: calls) logs.

(** The message that [get_public_key] logs. *)
Definition could_not_be_found : log_level * pystr :=
  (WARNING, str "The public key could not be found.").

(** A signer whose signature [verify] accepts: the signer is in
    [core_ads], its certificate yields a key, its signature decodes,
    and the primitive opens the signature followed by the message. *)
Definition signature_valid (t : TRC) (data : pybytes) (signer : json) : Prop :=
  py_contains (core_ads t) signer = Ok true /\
  exists public_key sig_to_verify message,
    certificate_key t signer = Ok public_key /\
    signature_bytes t signer = Ok sig_to_verify /\
    crypto_sign_ed25519_open (sig_to_verify ++ data) (IsBytes public_key)
    = Ok message.

(** A signer whose check raises no error before the primitive is
    called. *)
Definition checks_without_error (t : TRC) (signer : json) : Prop :=
  py_contains (core_ads t) signer = Ok false \/
  (py_contains (core_ads t) signer = Ok true /\
   (exists public_key, certificate_key t signer = Ok public_key) /\
   (exists sig_to_verify, signature_bytes t signer = Ok sig_to_verify)).

End Outcomes.

(* ================================================================= *)
(** * Well-formed values and canonical form *)

Fixpoint distinct (l : list pystr) : bool :=
  match l with
  | [] => true
  | k :: l' => negb (existsb (pystr_eqb k) l') && distinct l'
  end.

(** The keys of every dict of a value are distinct, as the keys of a
    Python dict are. *)
Fixpoint unique_keys (v : json) : bool :=
  match v with
  | JList l => forallb unique_keys l
  | JDict d =>
      distinct (dict_keys d) && forallb (fun kv => unique_keys (snd kv)) d
  | _ => true
  end.

(** A code point that is a Unicode scalar value: below 0x110000 and not
    a surrogate. *)
Definition is_scalar (c : N) : bool :=
  (c <? 0xd800) || ((0xdfff <? c) && (c <? 0x110000)).

(** Every string of a value, key or item, is made of scalar values. *)
Fixpoint scalar_strings (v : json) : bool :=
  match v with
  | JStr s => forallb is_scalar s
  | JList l => forallb scalar_strings l
  | JDict d =>
      forallb (fun kv => forallb is_scalar (fst kv) && scalar_strings (snd kv)) d
  | _ => true
  end.

(** The value with the items of every dict in the order of their keys. *)
Fixpoint canonical (v : json) : json :=
  match v with
  | JList l => JList (map canonical l)
  | JDict d => JDict (sorted_items (map (fun kv => (fst kv, canonical (snd kv))) d))
  | _ => v
  end.

Fixpoint ordered (l : list pystr) : bool :=
  match l with
  | k :: l' =>
      match l' with
      | k' :: _ => pystr_leb k k' && ordered l'
      | [] => true
      end
  | [] => true
  end.

(** The keys of every dict of a value come in lexicographic order. *)
Fixpoint keys_ordered (v : json) : bool :=
  match v with
  | JList l => forallb keys_ordered l
  | JDict d =>
      ordered (dict_keys d) && forallb (fun kv => keys_ordered (snd kv)) d
  | _ => true
  end.

(** The values of the attributes of an instance, in the order of
    [__init__]. *)
Definition fields (t : TRC) : list json :=
  [isd_id t; version t; time t; core_quorum t; trc_quorum t; core_isps t;
   root_cas t; core_ads t; policies t; registry_server_addr t;
   registry_server_cert t; root_dns_server_addr t; root_dns_server_cert t;
   trc_server_addr t; signatures t].

(** Two documents with the same value in every field. *)
Definition same_document (t1 t2 : TRC) : bool :=
  same_value (JList (fields t1)) (JList (fields t2)).

(* ================================================================= *)
(** * The attributes in the order of [parse] *)

(** The keys that [parse] reads, in its order, each with the attribute
    it assigns. *)
Definition attribute_order : list (pystr * (json -> TRC -> TRC)) :=
  [ (str "isd_id", set_isd_id);
    (str "version", set_version);
    (str "time", set_time);
    (str "core_quorum", set_core_quorum);
    (str "trc_quorum", set_trc_quorum);
    (str "core_isps", set_core_isps);
    (str "root_cas", set_root_cas);
    (str "core_ads", set_core_ads);
    (str "policies", set_policies);
    (str "registry_server_addr", set_registry_server_addr);
    (str "registry_server_cert", set_registry_server_cert);
    (str "root_dns_server_addr", set_root_dns_server_addr);
    (str "root_dns_server_cert", set_root_dns_server_cert);
    (str "trc_server_addr", set_trc_server_addr);
    (str "signatures", set_signatures) ].

(** The statements [self.name = trc['name']] for a list of attributes,
    one after the other. *)
Fixpoint assign_items (trc : json) (l : list (pystr * (json -> TRC -> TRC))) :
  M unit :=
  match l with
  | [] => ret tt
  | (name, setter) :: l' =>
      v <- lift (py_getitem trc (JStr name)) ;;
      match l' with
      | [] => assign setter v
      | _ :: _ => assign setter v ;; assign_items trc l'
      end
  end.

(** The attributes of a list assigned from the items of a dict, for
    the keys that the dict has. *)
Definition assigned (items : list (pystr * json))
  (l : list (pystr * (json -> TRC -> TRC))) (t : TRC) : TRC :=
  fold_left
    (fun t a =>
       match dict_lookup (fst a) items with
       | Some v => snd a v t
       | None => t
       end) l t.

(** The document with every attribute in canonical form. *)
Definition canonical_document (t : TRC) : TRC :=
  mkTRC (canonical (isd_id t)) (canonical (version t)) (canonical (time t))
    (canonical (core_quorum t)) (canonical (trc_quorum t))
    (canonical (core_isps t)) (canonical (root_cas t))
    (canonical (core_ads t)) (canonical (policies t))
    (canonical (registry_server_addr t)) (canonical (registry_server_cert t))
    (canonical (root_dns_server_addr t)) (canonical (root_dns_server_cert t))
    (canonical (trc_server_addr t)) (canonical (signatures t)).

(** The document that [__init__] sets up before it reads a file. *)
Definition defaults : TRC :=
  mkTRC (JInt 0) (JInt 0) (JInt 0) (JInt 0) (JInt 0) (JDict []) (JDict [])
    (JDict []) (JDict []) (JStr []) (JStr []) (JStr []) (JStr []) (JStr [])
    (JDict []).

(* ================================================================= *)
(** * A sample environment *)

(** Concrete collaborators, on which the model runs: the base64
    decoder of the standard library, which skips the characters that
    are not of the alphabet of RFC 4648, and a toy signature scheme in
    which the signature of a message under a key is the key itself. *)
Module Sample.

Definition b64_value (c : N) : option N :=
  if (65 <=? c) && (c <=? 90) then Some (c - 65)
  else if (97 <=? c) && (c <=? 122) then Some (c - 71)
  else if (48 <=? c) && (c <=? 57) then Some (c + 4)
  else if c =? 43 then Some 62
  else if c =? 47 then Some 63
  else None.

Definition to_byte (n : N) : byte :=
  match Byte.of_N (n mod 256) with Some b => b | None => x00 end.

(** The loop of [binascii.a2b_base64] without strict mode, which
    [base64.standard_b64decode] calls: a character outside the
    alphabet is skipped; a pad character that completes a group ends
    the decoding, whatever follows it, and any other pad character is
    skipped; a text that ends inside a group is an error.  [quad_pos]
    is the position in the group of four characters, [pads] the pad
    characters met since the last character of the alphabet, and
    [leftchar] the bits of the group not yet written. *)
Fixpoint a2b_base64 (s : list N) (quad_pos pads leftchar : N) {struct s} :
  result pybytes :=
  match s with
  | [] => if quad_pos =? 0 then Ok [] else Raise BinasciiError
  | c :: s' =>
      if c =? 61 then
        if 2 <=? quad_pos then
          if 4 <=? quad_pos + (pads + 1) then Ok []
          else a2b_base64 s' quad_pos (pads + 1) leftchar
        else a2b_base64 s' quad_pos pads leftchar
      else
        match b64_value c with
        | None => a2b_base64 s' quad_pos pads leftchar
        | Some this_ch =>
            let emit (b : N) (r : result pybytes) : result pybytes :=
              match r with
              | Ok bs => Ok (to_byte b :: bs)
              | Raise e => Raise e
              end in
            if quad_pos =? 0 then a2b_base64 s' 1 0 this_ch
            else if quad_pos =? 1 then
              emit (N.lor (N.shiftl leftchar 2) (N.shiftr this_ch 4))
                (a2b_base64 s' 2 0 (N.land this_ch 0x0f))
            else if quad_pos =? 2 then
              emit (N.lor (N.shiftl leftchar 4) (N.shiftr this_ch 2))
                (a2b_base64 s' 3 0 (N.land this_ch 0x03))
            else
              emit (N.lor (N.shiftl leftchar 6) this_ch) (a2b_base64 s' 0 0 0)
        end
  end.

(** [base64.standard_b64decode(s)], for [bytes]. *)
Definition standard_b64decode (s : pybytes) : result pybytes :=
  a2b_base64 (map Byte.to_N s) 0 0 0.

Fixpoint starts_with (k blob : pybytes) : option pybytes :=
  match k, blob with
  | [], _ => Some blob
  | _ :: _, [] => None
  | x :: k', y :: blob' =>
      if Byte.to_N x =? Byte.to_N y then starts_with k' blob' else None
  end.

Definition crypto_sign_ed25519_open (signature : pybytes)
  (public_key : str_or_bytes) : result pybytes :=
  match public_key with
  | IsBytes (x :: k) =>
      match starts_with (x :: k) signature with
      | Some message => Ok message
      | None => Raise ValueError
      end
  | _ => Raise ValueError
  end.

(** No file exists. *)
Definition open_read (trc_file : json) : result pystr := Raise OSError.

(** An instance before [__init__] has run on it. *)
Definition blank : TRC :=
  mkTRC JNull JNull JNull JNull JNull JNull JNull JNull JNull JNull JNull
    JNull JNull JNull JNull.

Definition initial (t : TRC) : state := mkState t [] [].

(** [TRC()] *)
Definition empty : TRC :=
  self (snd (__init__ open_read JNull (initial blank))).

(** The certificates of two core ADs whose keys are the bytes [KEY1]
    and [KEY2], and the signatures of these keys. *)
Definition cert1 : json := JStr (str "eyJzdWJqZWN0X3B1Yl9rZXkiOiAiUzBWWk1RPT0ifQ==").
Definition cert2 : json := JStr (str "eyJzdWJqZWN0X3B1Yl9rZXkiOiAiUzBWWk1nPT0ifQ==").
Definition sig1 : json := JStr (str "S0VZMQ==").
Definition sig2 : json := JStr (str "S0VZMg==").

(** A document with two core ADs, signed by the first one only, whose
    [core_quorum] asks for two signers. *)
Definition signed_by_one : TRC :=
  set_signatures (JDict [(str "AD1", sig1)])
    (set_core_ads (JDict [(str "AD1", cert1); (str "AD2", cert2)])
       (set_core_quorum (JInt 2) empty)).

(** The same, signed by both. *)
Definition signed_by_two : TRC :=
  set_signatures (JDict [(str "AD1", sig1); (str "AD2", sig2)]) signed_by_one.

(** A document whose second signer is not a core AD, and whose first
    signer has a certificate that is not ASCII text. *)
Definition unknown_second_signer : TRC :=
  set_signatures (JDict [(str "AD1", sig1); (str "AD9", sig2)])
    (set_core_ads (JDict [(str "AD1", JStr [233])]) empty).

(** A document whose only signature has lost its padding. *)
Definition unpadded_signature : TRC :=
  set_signatures (JDict [(str "AD1", JStr (str "S0VZMQ"))])
    (set_core_ads (JDict [(str "AD1", cert1)]) empty).

(** A document whose only core AD has a certificate of three base64
    characters, a group that lacks its padding. *)
Definition unpadded_certificate : TRC :=
  set_core_ads (JDict [(str "AD1", JStr (str "abc"))]) empty.

(** The text of a TRC file that has the key [isd_id] and no other. *)
Definition isd_id_only : pystr :=
  json_dumps false None (JDict [(str "isd_id", JInt 5)]).

(** A file system whose every file holds a given text. *)
Definition always (text : pystr) (trc_file : json) : result pystr := Ok text.



(** [signed_by_two] with the items of [core_ads] and of [signatures] in
    the other order. *)
Definition signed_by_two_reordered : TRC :=
  set_signatures (JDict [(str "AD2", sig2); (str "AD1", sig1)])
    (set_core_ads (JDict [(str "AD2", cert2); (str "AD1", cert1)])
       signed_by_two).

(** The document that [from_values] builds at time 1400000000 from
    sample values, among them dicts that are not in the order of their
    keys and a string that is not ASCII; its rendering; and a file
    system in which every file holds that rendering. *)
Definition construct (files : json -> result pystr) : result unit * state :=
  from_values files 1400000000
    (JInt 1) (JInt 2) (JInt 2) (JInt 1) (JDict []) (JDict [])
    (JDict [(str "AD2", cert2); (str "AD1", cert1)])
    (JDict [(str "b", JList [JInt (-1); JBool true; JNull]);
            (str "a", JStr [233; 0x1F600; 10])])
    (JStr (str "192.0.2.1")) (JStr []) (JStr (str "192.0.2.2")) (JStr [])
    (JStr (str "192.0.2.3"))
    (JDict [(str "AD1", sig1)])
    (initial blank).

Definition rendered : pystr := __str__ (self (snd (construct open_read))).

Definition files : json -> result pystr := always rendered.

Abbreviation verify := (verify crypto_sign_ed25519_open standard_b64decode).
Abbreviation get_public_key := (get_public_key standard_b64decode).

End Sample.

(* ================================================================= *)
(** * Induction over values *)

(** Induction over values that reaches into lists and dicts. *)
Lemma json_induction (P : json -> Prop)
  (HNull : P JNull)
  (HBool : forall b, P (JBool b))
  (HInt : forall z, P (JInt z))
  (HStr : forall s, P (JStr s))
  (HList : forall l, Forall P l -> P (JList l))
  (HDict : forall d, Forall (fun kv => P (snd kv)) d -> P (JDict d)) :
  forall v, P v.
Proof.
  fix IH 1. intros [ | b | z | s | l | d ].
  - exact HNull.
  - apply HBool.
  - apply HInt.
  - apply HStr.
  - apply HList. induction l as [ | x l IHl ]; constructor; [ apply IH | exact IHl ].
  - apply HDict. induction d as [ | [k x] d IHd ]; constructor; [ apply IH | exact IHd ].
Qed.

(* ================================================================= *)
(** * The output of the encoder is ASCII *)

Lemma ascii_only_app (a b : pystr) :
  ascii_only a -> ascii_only b -> ascii_only (a ++ b).
Proof. intros Ha Hb. apply Forall_app. split; assumption. Qed.

Lemma ascii_only_cons (c : N) (s : pystr) :
  c < 128 -> ascii_only s -> ascii_only (c :: s).
Proof. intros Hc Hs. constructor; assumption. Qed.

Lemma encode_ascii_total (s : pystr) :
  ascii_only s -> exists b, encode_ascii s = Ok b /\ map Byte.to_N b = s.
Proof.
  induction 1 as [ | c s Hc _ IH ]; simpl.
  - exists []. split; reflexivity.
  - destruct IH as [bs [Hbs Hmap]].
    apply N.ltb_lt in Hc as Hc'. rewrite Hc'.
    destruct (Byte.of_N c) as [b | ] eqn:Hb.
    + rewrite Hbs. exists (b :: bs). split; [ reflexivity | ].
      simpl. rewrite Hmap. f_equal. apply Byte.to_of_N. exact Hb.
    + apply Byte.of_N_None_iff in Hb. lia.
Qed.

Lemma encode_ascii_bytes (s : pystr) (b : pybytes) :
  encode_ascii s = Ok b -> map Byte.to_N b = s /\ ascii_only s.
Proof.
  revert b. induction s as [ | c s IH ]; simpl; intros b H.
  - inversion H. split; [ reflexivity | constructor ].
  - destruct (c <? 128) eqn:Hc; [ | discriminate ].
    apply N.ltb_lt in Hc.
    destruct (Byte.of_N c) as [x | ] eqn:Hx;
      destruct (encode_ascii s) as [bs | e]; try discriminate.
    inversion H; subst b. destruct (IH bs eq_refl) as [Hm Ha].
    split.
    + simpl. rewrite Hm. f_equal. apply Byte.to_of_N. exact Hx.
    + constructor; assumption.
Qed.

Lemma hex_digit_ascii (n : N) : n < 16 -> hex_digit n < 128.
Proof. intros H. unfold hex_digit. destruct (n <? 10); lia. Qed.

Lemma hex4_ascii (n : N) : ascii_only (hex4 n).
Proof.
  unfold hex4. repeat apply ascii_only_cons; try constructor;
    apply hex_digit_ascii; apply N.mod_lt; discriminate.
Qed.

Lemma escape_char_ascii (c : N) : ascii_only (escape_char c).
Proof.
  unfold escape_char, QUOTE, BACKSLASH.
  repeat match goal with
         | |- context [if ?b then _ else _] => destruct b eqn:?
         end;
    repeat (apply hex4_ascii || apply ascii_only_app || apply ascii_only_cons);
    try constructor; try reflexivity.
  match goal with
  | Hc : _ && _ = true |- _ =>
      apply andb_true_iff in Hc; destruct Hc as [_ Hc]; apply N.leb_le in Hc; lia
  end.
Qed.

Lemma encode_basestring_ascii_ascii (s : pystr) :
  ascii_only (encode_basestring_ascii s).
Proof.
  unfold encode_basestring_ascii. apply ascii_only_cons; [ reflexivity | ].
  apply ascii_only_app.
  - induction s as [ | c s IH ]; simpl; [ constructor | ].
    apply ascii_only_app; [ apply escape_char_ascii | exact IH ].
  - apply ascii_only_cons; [ reflexivity | constructor ].
Qed.

Lemma uint_digits_ascii (d : Decimal.uint) : ascii_only (uint_digits d).
Proof.
  induction d; simpl; try constructor; try reflexivity; assumption.
Qed.

Lemma int_repr_ascii (z : Z) : ascii_only (int_repr z).
Proof.
  unfold int_repr. destruct (z <? 0)%Z.
  - apply ascii_only_cons; [ reflexivity | apply uint_digits_ascii ].
  - apply uint_digits_ascii.
Qed.

Lemma join_ascii (sep : pystr) (items : list pystr) :
  ascii_only sep -> Forall ascii_only items -> ascii_only (join sep items).
Proof.
  intros Hsep. induction 1 as [ | x items Hx Hitems IH ]; simpl.
  - constructor.
  - destruct items as [ | y items ]; [ exact Hx | ].
    apply ascii_only_app; [ exact Hx | ].
    apply ascii_only_app; [ exact Hsep | exact IH ].
Qed.

Lemma newline_indent_ascii (indent : option nat) (level : nat) :
  ascii_only (newline_indent indent level).
Proof.
  unfold newline_indent. destruct indent as [n | ]; [ | constructor ].
  apply ascii_only_cons; [ reflexivity | ].
  induction (n * level)%nat; simpl; constructor; [ reflexivity | assumption ].
Qed.

Lemma item_separator_ascii (indent : option nat) : ascii_only (item_separator indent).
Proof.
  unfold item_separator. destruct indent; repeat constructor.
Qed.

(** Sorting the items of a dict rearranges them. *)
Lemma insert_item_perm {A} (kv : pystr * A) (l : list (pystr * A)) :
  Permutation (insert_item kv l) (kv :: l).
Proof.
  induction l as [ | kv' l IH ]; simpl.
  - apply Permutation_refl.
  - destruct (pystr_leb (fst kv) (fst kv')).
    + apply Permutation_refl.
    + eapply Permutation_trans; [ apply perm_skip, IH | apply perm_swap ].
Qed.

Lemma sorted_items_perm {A} (l : list (pystr * A)) :
  Permutation (sorted_items l) l.
Proof.
  induction l as [ | kv l IH ]; simpl.
  - apply Permutation_refl.
  - eapply Permutation_trans; [ apply insert_item_perm | apply perm_skip, IH ].
Qed.

Lemma iterencode_ascii (sort_keys : bool) (indent : option nat) (o : json) :
  forall level, ascii_only (iterencode sort_keys indent level o).
Proof.
  induction o as [ | b | z | s | l IH | d IH ] using json_induction; intros level.
  - repeat constructor.
  - destruct b; repeat constructor.
  - apply int_repr_ascii.
  - apply encode_basestring_ascii_ascii.
  - destruct l as [ | x l ]; [ repeat constructor | ].
    cbn [iterencode].
    apply ascii_only_app; [ repeat constructor | ].
    apply ascii_only_app; [ apply newline_indent_ascii | ].
    apply ascii_only_app;
      [ | apply ascii_only_app; [ apply newline_indent_ascii | repeat constructor ] ].
    apply join_ascii.
    + apply ascii_only_app; [ apply item_separator_ascii | apply newline_indent_ascii ].
    + apply Forall_map. eapply Forall_impl; [ | exact IH ].
      intros v Hv. apply Hv.
  - destruct d as [ | kv d ]; [ repeat constructor | ].
    cbn [iterencode].
    apply ascii_only_app; [ repeat constructor | ].
    apply ascii_only_app; [ apply newline_indent_ascii | ].
    apply ascii_only_app;
      [ | apply ascii_only_app; [ apply newline_indent_ascii | repeat constructor ] ].
    apply join_ascii.
    + apply ascii_only_app; [ apply item_separator_ascii | apply newline_indent_ascii ].
    + apply Forall_map.
      assert (Henc : Forall (fun kr : pystr * pystr => ascii_only (snd kr))
                (map (fun kv0 => (fst kv0, iterencode sort_keys indent (S level) (snd kv0)))
                     (kv :: d))).
      { apply Forall_map. eapply Forall_impl; [ | exact IH ].
        intros v Hv. cbn [snd]. apply Hv. }
      assert (Hitems : Forall (fun kr : pystr * pystr => ascii_only (snd kr))
                (if sort_keys
                 then sorted_items
                        (map (fun kv0 => (fst kv0, iterencode sort_keys indent (S level) (snd kv0)))
                             (kv :: d))
                 else map (fun kv0 => (fst kv0, iterencode sort_keys indent (S level) (snd kv0)))
                          (kv :: d))).
      { destruct sort_keys; [ | exact Henc ].
        eapply Permutation_Forall; [ apply Permutation_sym, sorted_items_perm | exact Henc ]. }
      eapply Forall_impl; [ | exact Hitems ].
      intros kr Hkr. cbv beta in Hkr |- *.
      apply ascii_only_app; [ apply encode_basestring_ascii_ascii | ].
      apply ascii_only_app; [ repeat constructor | exact Hkr ].
Qed.

Lemma json_dumps_ascii (sort_keys : bool) (indent : option nat) (obj : json) :
  ascii_only (json_dumps sort_keys indent obj).
Proof. apply iterencode_ascii. Qed.

(* ================================================================= *)
(** * How [get_public_key] and [verify] run *)

Section Runs.

Variable crypto_sign_ed25519_open : pybytes -> str_or_bytes -> result pybytes.
Variable standard_b64decode : pybytes -> result pybytes.

Local Abbreviation certificate_key := (certificate_key standard_b64decode).
Local Abbreviation signature_bytes := (signature_bytes standard_b64decode).
Local Abbreviation loop_run := (loop_run crypto_sign_ed25519_open standard_b64decode).
Local Abbreviation get_public_key := (get_public_key standard_b64decode).
Local Abbreviation verify_signer :=
  (verify_signer crypto_sign_ed25519_open standard_b64decode).
Local Abbreviation verify := (verify crypto_sign_ed25519_open standard_b64decode).

Lemma get_public_key_absent (subject : json) (st : state) :
  py_contains (core_ads (self st)) subject = Ok false ->
  get_public_key subject st =
    (Ok (IsStr []),
     add_log WARNING (str "The public key could not be found.") st).
Proof.
  intros H. unfold get_public_key, bind, get_self, lift. rewrite H. reflexivity.
Qed.

Lemma get_public_key_present (subject : json) (st : state) :
  py_contains (core_ads (self st)) subject = Ok true ->
  get_public_key subject st =
    (and_then (certificate_key (self st) subject) (fun k => Ok (IsBytes k)), st).
Proof.
  intros H. unfold get_public_key, certificate_key, bind, get_self, lift, ret.
  rewrite H. cbn [negb].
  destruct (py_getitem (core_ads (self st)) subject) as [c | e];
    cbn [and_then]; [ | reflexivity ].
  destruct (py_encode_ascii c) as [a | e]; cbn [and_then]; [ | reflexivity ].
  destruct (standard_b64decode a) as [b | e]; cbn [and_then]; [ | reflexivity ].
  destruct (decode_ascii b) as [text | e]; cbn [and_then]; [ | reflexivity ].
  destruct (json_loads text) as [cert | e]; cbn [and_then]; [ | reflexivity ].
  destruct (py_getitem cert (JStr (str "subject_pub_key"))) as [k | e];
    cbn [and_then]; [ | reflexivity ].
  destruct (py_encode_ascii k) as [k' | e]; cbn [and_then]; [ | reflexivity ].
  destruct (standard_b64decode k'); reflexivity.
Qed.

Lemma get_public_key_raises_contains (subject : json) (st : state) (e : exn) :
  py_contains (core_ads (self st)) subject = Raise e ->
  get_public_key subject st = (Raise e, st).
Proof.
  intros H. unfold get_public_key, bind, get_self, lift. rewrite H. reflexivity.
Qed.

(** The loop body of [verify], outcome by outcome. *)
Lemma verify_signer_run (data : pybytes) (signer : json) (st : state) :
  verify_signer data signer st =
    match py_contains (core_ads (self st)) signer with
    | Raise e => (Raise e, st)
    | Ok false =>
        (Ok (Some false),
         add_log WARNING (str "A signature could not be verified.") st)
    | Ok true =>
        match certificate_key (self st) signer with
        | Raise e => (Raise e, st)
        | Ok public_key =>
            match signature_bytes (self st) signer with
            | Raise e => (Raise e, st)
            | Ok sig_to_verify =>
                let signature := sig_to_verify ++ data in
                let st' := add_call signature (IsBytes public_key) st in
                match crypto_sign_ed25519_open signature (IsBytes public_key) with
                | Ok _ => (Ok None, st')
                | Raise _ =>
                    (Ok (Some false),
                     add_log WARNING (str "A signature is not valid.") st')
                end
            end
        end
    end.
Proof.
  unfold verify_signer. unfold bind at 1. unfold get_self at 1.
  unfold bind at 1. unfold lift at 1.
  destruct (py_contains (core_ads (self st)) signer) as [[ | ] | e] eqn:Hc;
    cbn [negb]; try reflexivity.
  unfold bind at 1. rewrite (get_public_key_present _ _ Hc).
  destruct (certificate_key (self st) signer) as [pk | e]; cbn [and_then];
    [ | reflexivity ].
  unfold signature_bytes, bind, lift, ret, try_except_all,
    call_crypto_sign_ed25519_open, logging.
  destruct (py_getitem (signatures (self st)) signer) as [s | e];
    cbn [and_then]; [ | reflexivity ].
  destruct (py_encode_ascii s) as [a | e]; cbn [and_then]; [ | reflexivity ].
  destruct (standard_b64decode a) as [raw | e]; cbn [and_then]; [ | reflexivity ].
  destruct (crypto_sign_ed25519_open (raw ++ data) (IsBytes pk)); reflexivity.
Qed.

Lemma state_eta (st : state) : mkState (self st) (logged st) (opened st) = st.
Proof. destruct st; reflexivity. Qed.

Lemma for_each_verify_signer (data : pybytes) (signers : list json) :
  forall st, exists r calls logs,
    for_each signers (verify_signer data) (ret true) st
    = (r, mkState (self st) (logged st ++ logs) (opened st ++ calls))
    /\ loop_run (self st) data signers r calls logs.
Proof.
  induction signers as [ | signer rest IH ]; intros st.
  - exists (Ok true), [], []. cbn. rewrite !app_nil_r, state_eta.
    split; [ reflexivity | constructor ].
  - cbn [for_each]. unfold bind at 1. rewrite verify_signer_run.
    destruct (py_contains (core_ads (self st)) signer) as [[ | ] | e] eqn:Hc.
    + destruct (certificate_key (self st) signer) as [pk | e] eqn:Hk.
      * destruct (signature_bytes (self st) signer) as [raw | e] eqn:Hs.
        -- cbv zeta.
           destruct (crypto_sign_ed25519_open (raw ++ data) (IsBytes pk))
             as [m | e] eqn:Hv.
           ++ destruct (IH (add_call (raw ++ data) (IsBytes pk) st))
                as (r & calls & logs & Hrun & Hloop).
              exists r, ((raw ++ data, IsBytes pk) :: calls), logs.
              rewrite Hrun. cbn [add_call self logged opened].
              rewrite <- app_assoc. split; [ reflexivity | ].
              eapply run_accepted; eassumption.
           ++ exists (Ok false), [(raw ++ data, IsBytes pk)], [is_not_valid].
              split; [ reflexivity | eapply run_rejected; eassumption ].
        -- exists (Raise e), [], []. rewrite !app_nil_r, state_eta.
           split; [ reflexivity | eapply run_bad_signature; eassumption ].
      * exists (Raise e), [], []. rewrite !app_nil_r, state_eta.
        split; [ reflexivity | eapply run_bad_certificate; eassumption ].
    + exists (Ok false), [], [could_not_be_verified]. rewrite app_nil_r.
      split; [ reflexivity | apply run_absent; assumption ].
    + exists (Raise e), [], []. rewrite !app_nil_r, state_eta.
      split; [ reflexivity | apply run_unhashable; assumption ].
Qed.

(** The whole of [verify]: the canonical message always encodes, the
    signers are the items of [signatures], and the loop runs over
    them. *)
Lemma verify_run (st : state) :
  exists data,
    encode_ascii (json_dumps true (Some 4%nat) (get_trc_dict (self st) false))
    = Ok data /\
    match py_iter (signatures (self st)) with
    | Raise e =>
        verify st = (Raise e, st)
    | Ok signers =>
        exists r calls logs,
          verify st
          = (r, mkState (self st) (logged st ++ logs) (opened st ++ calls))
          /\ loop_run (self st) data signers r calls logs
    end.
Proof.
  destruct (encode_ascii_total
              (json_dumps_ascii true (Some 4%nat) (get_trc_dict (self st) false)))
    as [data [Hdata _]].
  exists data. split; [ exact Hdata | ].
  unfold verify, bind, get_self, lift. rewrite Hdata.
  destruct (py_iter (signatures (self st))) as [signers | e]; [ | reflexivity ].
  apply for_each_verify_signer.
Qed.

End Runs.

(* ================================================================= *)
(** * Properties of [verify] *)

Section VerifyProperties.

Variable crypto_sign_ed25519_open : pybytes -> str_or_bytes -> result pybytes.
Variable standard_b64decode : pybytes -> result pybytes.

Local Abbreviation certificate_key := (certificate_key standard_b64decode).
Local Abbreviation signature_bytes := (signature_bytes standard_b64decode).
Local Abbreviation loop_run := (loop_run crypto_sign_ed25519_open standard_b64decode).
Local Abbreviation get_public_key := (get_public_key standard_b64decode).
Local Abbreviation verify := (verify crypto_sign_ed25519_open standard_b64decode).
Local Abbreviation signature_valid :=
  (signature_valid crypto_sign_ed25519_open standard_b64decode).
Local Abbreviation checks_without_error :=
  (checks_without_error standard_b64decode).

(** The calls of a run are those of a prefix of the signers, one call
    per signer, each made of the signer's decoded signature followed by
    the message, with the key of the signer's certificate. *)
Lemma loop_run_calls (t : TRC) (data : pybytes) signers r calls logs :
  loop_run t data signers r calls logs ->
  exists checked rest,
    signers = checked ++ rest /\
    Forall2
      (fun signer call =>
         py_contains (core_ads t) signer = Ok true /\
         exists public_key sig_to_verify,
           certificate_key t signer = Ok public_key /\
           signature_bytes t signer = Ok sig_to_verify /\
           call = (sig_to_verify ++ data, IsBytes public_key))
      checked calls.
Proof.
  induction 1 as [ | signer rest e Hc | signer rest Hc | signer rest e Hc Hk
                 | signer rest pk e Hc Hk Hs | signer rest pk raw e Hc Hk Hs Hv
                 | signer rest pk raw m r calls logs Hc Hk Hs Hv Hrun IH ].
  - exists [], []. split; [ reflexivity | constructor ].
  - exists [], (signer :: rest). split; [ reflexivity | constructor ].
  - exists [], (signer :: rest). split; [ reflexivity | constructor ].
  - exists [], (signer :: rest). split; [ reflexivity | constructor ].
  - exists [], (signer :: rest). split; [ reflexivity | constructor ].
  - exists [signer], rest. split; [ reflexivity | ].
    constructor; [ | constructor ].
    split; [ exact Hc | ]. exists pk, raw. repeat split; assumption.
  - destruct IH as (checked & rest' & Heq & Hall).
    exists (signer :: checked), rest'. split; [ rewrite Heq; reflexivity | ].
    constructor; [ | exact Hall ].
    split; [ exact Hc | ]. exists pk, raw. repeat split; assumption.
Qed.

(** A run logs nothing but the two warnings of [verify]. *)
Lemma loop_run_logs (t : TRC) (data : pybytes) signers r calls logs :
  loop_run t data signers r calls logs ->
  Forall (fun record => record = could_not_be_verified \/ record = is_not_valid) logs.
Proof.
  induction 1; try assumption; try apply Forall_nil.
  - apply Forall_cons; [ left; reflexivity | apply Forall_nil ].
  - apply Forall_cons; [ right; reflexivity | apply Forall_nil ].
Qed.

(** A run returns [True] exactly when every signer is valid. *)
Lemma loop_run_true (t : TRC) (data : pybytes) signers r calls logs :
  loop_run t data signers r calls logs ->
  r = Ok true <-> Forall (signature_valid t data) signers.
Proof.
  induction 1 as [ | signer rest e Hc | signer rest Hc | signer rest e Hc Hk
                 | signer rest pk e Hc Hk Hs | signer rest pk raw e Hc Hk Hs Hv
                 | signer rest pk raw m r calls logs Hc Hk Hs Hv Hrun IH ].
  - split; [ constructor | reflexivity ].
  - split; [ discriminate | ].
    intros Hall. inversion Hall as [ | ? ? [Hc' _] _ ]; subst. congruence.
  - split; [ discriminate | ].
    intros Hall. inversion Hall as [ | ? ? [Hc' _] _ ]; subst. congruence.
  - split; [ discriminate | ].
    intros Hall. inversion Hall as [ | ? ? [_ (pk & raw & m & Hk' & _)] _ ]; subst.
    congruence.
  - split; [ discriminate | ].
    intros Hall.
    inversion Hall as [ | ? ? [_ (pk' & raw & m & _ & Hs' & _)] _ ]; subst.
    congruence.
  - split; [ discriminate | ].
    intros Hall.
    inversion Hall as [ | ? ? [_ (pk' & raw' & m & Hk' & Hs' & Hv')] _ ]; subst.
    congruence.
  - rewrite IH. split.
    + intros Hall. constructor; [ | exact Hall ].
      split; [ exact Hc | ]. exists pk, raw, m. repeat split; assumption.
    + intros Hall. inversion Hall; assumption.
Qed.



(** An error raised by a run comes from the check of one signer: the
    membership test, the decoding of the certificate or the decoding of
    the signature, and not from the primitive. *)
Lemma loop_run_raises (t : TRC) (data : pybytes) signers r calls logs :
  loop_run t data signers r calls logs ->
  forall e, r = Raise e ->
  exists signer,
    In signer signers /\
    (py_contains (core_ads t) signer = Raise e \/
     certificate_key t signer = Raise e \/
     signature_bytes t signer = Raise e).
Proof.
  induction 1 as [ | s rest e Hc | s rest Hc | s rest e Hc Hk
                 | s rest pk e Hc Hk Hs | s rest pk raw e Hc Hk Hs Hv
                 | s rest pk raw m r calls logs Hc Hk Hs Hv Hrun IH ];
    intros e' Hr; try discriminate; try (inversion Hr; subst e').
  - exists s. split; [ left; reflexivity | auto ].
  - exists s. split; [ left; reflexivity | auto ].
  - exists s. split; [ left; reflexivity | auto ].
  - destruct (IH e' Hr) as (signer & Hin & Hcase).
    exists signer. split; [ right; exact Hin | exact Hcase ].
Qed.

(** What [verify] returns and the state it leaves, from a run of its loop. *)
Lemma verify_outcome (st : state) :
  exists data,
    encode_ascii (json_dumps true (Some 4%nat) (get_trc_dict (self st) false))
    = Ok data /\
    ((exists e, py_iter (signatures (self st)) = Raise e /\
                verify st = (Raise e, st)) \/
     (exists signers r calls logs,
        py_iter (signatures (self st)) = Ok signers /\
        verify st = (r, mkState (self st) (logged st ++ logs) (opened st ++ calls)) /\
        loop_run (self st) data signers r calls logs)).
Proof.
  destruct (verify_run crypto_sign_ed25519_open standard_b64decode st)
    as [data [Hdata Hrun]].
  exists data. split; [ exact Hdata | ].
  destruct (py_iter (signatures (self st))) as [signers | e].
  - right. destruct Hrun as (r & calls & logs & Hv & Hloop).
    exists signers, r, calls, logs. repeat split; assumption.
  - left. exists e. split; [ reflexivity | exact Hrun ].
Qed.

(** C7: a document whose [signatures] map is empty verifies: [verify]
    returns [True] and leaves the state as it was. *)
Theorem verify_empty_signatures (st : state) :
  signatures (self st) = JDict [] ->
  verify st = (Ok true, st).
Proof.
  intros Hempty.
  destruct (verify_outcome st) as [data [_ [(e & Hiter & _) | Hrun]]].
  - rewrite Hempty in Hiter. discriminate.
  - destruct Hrun as (signers & r & calls & logs & Hiter & Hv & Hloop).
    rewrite Hempty in Hiter. inversion Hiter; subst signers.
    inversion Hloop; subst. rewrite Hv, !app_nil_r. f_equal. apply state_eta.
Qed.

(** C6: [verify] returns [True] exactly when every signer of the
    [signatures] map is valid.  Validity of a signer compares nothing
    with [core_quorum] or [trc_quorum], and neither does the number of
    signers enter. *)
Theorem verify_true_iff_all_signatures_valid (st : state) :
  fst (verify st) = Ok true <->
  exists data signers,
    encode_ascii (json_dumps true (Some 4%nat) (get_trc_dict (self st) false))
    = Ok data /\
    py_iter (signatures (self st)) = Ok signers /\
    Forall (signature_valid (self st) data) signers.
Proof.
  destruct (verify_outcome st) as [data [Hdata [(e & Hiter & Hv) | Hrun]]].
  - rewrite Hv. cbn [fst]. split; [ discriminate | ].
    intros (data' & signers & _ & Hiter' & _). congruence.
  - destruct Hrun as (signers & r & calls & logs & Hiter & Hv & Hloop).
    rewrite Hv. cbn [fst].
    pose proof (loop_run_true Hloop) as Htrue. split.
    + intros Hr. exists data, signers. repeat split; try assumption.
      apply Htrue. exact Hr.
    + intros (data' & signers' & Hdata' & Hiter' & Hall).
      apply Htrue. congruence.
Qed.

(** C10: [verify] tests that a signer is in [core_ads] before it calls
    [get_public_key], so the branch of [get_public_key] for an absent
    subject, which logs its own warning whenever it is taken, is never
    taken within [verify]: the records logged by [verify] are its own
    two warnings only. *)
Theorem verify_never_looks_up_absent_subject (st : state) :
  (forall subject st0,
     py_contains (core_ads (self st0)) subject = Ok false ->
     logged (snd (get_public_key subject st0)) = logged st0 ++ [could_not_be_found]) /\
  exists logs,
    logged (snd (verify st)) = logged st ++ logs /\
    Forall (fun record => record = could_not_be_verified \/ record = is_not_valid) logs /\
    ~ In could_not_be_found logs.
Proof.
  split.
  - intros subject st0 Habs. rewrite (get_public_key_absent _ _ _ Habs). reflexivity.
  - destruct (verify_outcome st) as [data [_ [(e & _ & Hv) | Hrun]]].
    + exists []. rewrite Hv, app_nil_r. repeat split; [ constructor | intros [] ].
    + destruct Hrun as (signers & r & calls & logs & _ & Hv & Hloop).
      exists logs. rewrite Hv. cbn [snd logged]. split; [ reflexivity | ].
      pose proof (loop_run_logs Hloop) as Hlogs. split; [ exact Hlogs | ].
      intros Hin. rewrite Forall_forall in Hlogs.
      destruct (Hlogs _ Hin) as [Heq | Heq]; discriminate Heq.
Qed.



End VerifyProperties.

(* ================================================================= *)
(** * Properties of [get_public_key] *)

Section KeyProperties.

Variable standard_b64decode : pybytes -> result pybytes.

Local Abbreviation get_public_key := (get_public_key standard_b64decode).

(** C4, as the code has it: for a subject that is not in [core_ads],
    [get_public_key] logs a warning and returns the empty string,
    without raising.  For a subject of [core_ads] it runs its eight
    steps in order -- the lookup of the certificate, its encoding as
    ASCII, the base64 decoding, the decoding as ASCII, [json.loads],
    the lookup of [subject_pub_key], its encoding as ASCII and its
    base64 decoding -- and the error of the first step that fails is
    raised to the caller, with nothing logged and nothing changed;
    when no step fails the decoded key is returned.  A certificate
    that is not a [str] fails with [AttributeError], one with a
    character that is not ASCII with [UnicodeEncodeError], and an
    object without the key [subject_pub_key] with [KeyError]. *)
Theorem get_public_key_outcomes (subject : json) (st : state) :
  (py_contains (core_ads (self st)) subject = Ok false ->
   get_public_key subject st
   = (Ok (IsStr []), add_log WARNING (str "The public key could not be found.") st)) /\
  (py_contains (core_ads (self st)) subject = Ok true ->
   match py_getitem (core_ads (self st)) subject with
   | Raise e => get_public_key subject st = (Raise e, st)
   | Ok blob =>
   match py_encode_ascii blob with
   | Raise e => get_public_key subject st = (Raise e, st)
   | Ok blob_ascii =>
   match standard_b64decode blob_ascii with
   | Raise e => get_public_key subject st = (Raise e, st)
   | Ok decoded =>
   match decode_ascii decoded with
   | Raise e => get_public_key subject st = (Raise e, st)
   | Ok text =>
   match json_loads text with
   | Raise e => get_public_key subject st = (Raise e, st)
   | Ok subject_cert =>
   match py_getitem subject_cert (JStr (str "subject_pub_key")) with
   | Raise e => get_public_key subject st = (Raise e, st)
   | Ok public_key =>
   match py_encode_ascii public_key with
   | Raise e => get_public_key subject st = (Raise e, st)
   | Ok key_ascii =>
   match standard_b64decode key_ascii with
   | Raise e => get_public_key subject st = (Raise e, st)
   | Ok key => get_public_key subject st = (Ok (IsBytes key), st)
   end end end end end end end end) /\
  (forall blob,
     match blob with JStr _ => False | _ => True end ->
     py_encode_ascii blob = Raise AttributeError) /\
  (forall s, Exists (fun c => 128 <= c) s ->
             py_encode_ascii (JStr s) = Raise UnicodeEncodeError) /\
  (forall fields,
     dict_lookup (str "subject_pub_key") fields = None ->
     py_getitem (JDict fields) (JStr (str "subject_pub_key"))
     = Raise (KeyError (JStr (str "subject_pub_key")))).
Proof.
  split; [ apply get_public_key_absent | ].
  split.
  { intros Hc. rewrite (get_public_key_present _ _ _ Hc).
    unfold certificate_key.
    destruct (py_getitem (core_ads (self st)) subject) as [blob | e];
      cbn [and_then]; [ | reflexivity ].
    destruct (py_encode_ascii blob) as [blob_ascii | e]; cbn [and_then];
      [ | reflexivity ].
    destruct (standard_b64decode blob_ascii) as [decoded | e]; cbn [and_then];
      [ | reflexivity ].
    destruct (decode_ascii decoded) as [text | e]; cbn [and_then];
      [ | reflexivity ].
    destruct (json_loads text) as [subject_cert | e]; cbn [and_then];
      [ | reflexivity ].
    destruct (py_getitem subject_cert (JStr (str "subject_pub_key")))
      as [public_key | e]; cbn [and_then]; [ | reflexivity ].
    destruct (py_encode_ascii public_key) as [key_ascii | e]; cbn [and_then];
      [ | reflexivity ].
    destruct (standard_b64decode key_ascii) as [key | e]; reflexivity. }
  split.
  { intros blob Hblob. destruct blob; try reflexivity. contradiction. }
  split.
  { intros s Hs. cbn [py_encode_ascii].
    induction Hs as [c s Hc | c s Hs IH ]; cbn [encode_ascii].
    - replace (c <? 128) with false by (symmetry; apply N.ltb_ge; exact Hc).
      reflexivity.
    - destruct (c <? 128); [ | reflexivity ].
      rewrite IH. destruct (Byte.of_N c); reflexivity. }
  intros fields Hk. cbn [py_getitem]. rewrite Hk. reflexivity.
Qed.

End KeyProperties.

(* ================================================================= *)
(** * Properties of [parse] *)

Lemma bind_run {A B} (m : M A) (k : A -> M B) (st : state) :
  bind m k st =
    match m st with
    | (Ok a, st') => k a st'
    | (Raise e, st') => (Raise e, st')
    end.
Proof. reflexivity. Qed.

Section ParseProperties.

Variable open_read : json -> result pystr.

(** A file whose text is not JSON: [parse] logs an error, raises
    nothing and leaves the instance as it was. *)
Lemma parse_malformed (trc_file : json) (text : pystr) (e : exn) (st : state) :
  open_read trc_file = Ok text ->
  json_load text = Raise e ->
  isinstance e CValueError = true ->
  parse open_read trc_file st = (Ok tt, add_log ERROR (str "TRC: JSON format error.") st).
Proof.
  intros Hopen Hload Hclass.
  unfold parse. rewrite bind_run. unfold try_except.
  rewrite bind_run. unfold lift at 1. rewrite Hopen.
  rewrite bind_run. unfold lift at 1. rewrite Hload.
  cbn [existsb]. rewrite Hclass. reflexivity.
Qed.

(** A file whose text is a JSON object with the key [isd_id] and
    without the key [version]: [parse] assigns [isd_id] and raises the
    [KeyError] of the second lookup, which its [except] clause does not
    cover; nothing is logged. *)
Lemma parse_missing_version (trc_file : json) (text : pystr)
  (fields : list (pystr * json)) (v : json) (st : state) :
  open_read trc_file = Ok text ->
  json_load text = Ok (JDict fields) ->
  dict_lookup (str "isd_id") fields = Some v ->
  dict_lookup (str "version") fields = None ->
  parse open_read trc_file st
  = (Raise (KeyError (JStr (str "version"))),
     mkState (set_isd_id v (self st)) (logged st) (opened st)).
Proof.
  intros Hopen Hload Hid Hversion.
  unfold parse. rewrite bind_run. unfold try_except.
  rewrite bind_run. unfold lift at 1. rewrite Hopen.
  rewrite bind_run. unfold lift at 1. rewrite Hload.
  unfold ret at 1.
  rewrite bind_run. unfold lift at 1. unfold py_getitem at 1. rewrite Hid.
  rewrite bind_run. unfold assign at 1.
  rewrite bind_run. unfold lift at 1. unfold py_getitem at 1. rewrite Hversion.
  reflexivity.
Qed.

End ParseProperties.

(* ================================================================= *)
(** * Runs on the sample environment *)

(** The base64 decoder skips a character that is neither of the
    alphabet nor the pad character, wherever it stands. *)
Lemma a2b_base64_skips (c : N) (s : list N) (quad_pos pads leftchar : N) :
  Sample.b64_value c = None -> c <> 61 ->
  Sample.a2b_base64 (c :: s) quad_pos pads leftchar
  = Sample.a2b_base64 s quad_pos pads leftchar.
Proof.
  intros Hvalue Hpad. cbn [Sample.a2b_base64].
  replace (c =? 61) with false by (symmetry; apply N.eqb_neq; exact Hpad).
  rewrite Hvalue. reflexivity.
Qed.

(** The decoder on a padded text, on the same text followed by a line
    feed or broken by a space, and on the text without its padding:
    only the last is an error. *)
Example standard_b64decode_runs :
  Sample.standard_b64decode (map Sample.to_byte (str "S0VZMQ=="))
  = Ok ["K"; "E"; "Y"; "1"]%byte /\
  Sample.standard_b64decode (map Sample.to_byte (str "S0VZMQ==" ++ [10]))
  = Ok ["K"; "E"; "Y"; "1"]%byte /\
  Sample.standard_b64decode (map Sample.to_byte (str "S0VZ MQ=="))
  = Ok ["K"; "E"; "Y"; "1"]%byte /\
  Sample.standard_b64decode (map Sample.to_byte (str "S0VZMQ"))
  = Raise BinasciiError.
Proof. repeat split; vm_compute; reflexivity. Qed.

Lemma verify_empty_signatures_witness :
  Sample.verify (Sample.initial Sample.empty)
  = (Ok true, Sample.initial Sample.empty).
Proof.
  apply (verify_empty_signatures Sample.crypto_sign_ed25519_open
           Sample.standard_b64decode (Sample.initial Sample.empty)).
  reflexivity.
Defined.

(** A document signed by one of its two core ADs verifies, although
    its [core_quorum] is 2; so does the document signed by both. *)
Example verify_below_quorum :
  core_quorum Sample.signed_by_one = JInt 2 /\
  fst (Sample.verify (Sample.initial Sample.signed_by_one)) = Ok true /\
  fst (Sample.verify (Sample.initial Sample.signed_by_two)) = Ok true.
Proof. repeat split; vm_compute; reflexivity. Qed.





Lemma get_public_key_outcomes_witness :
  Sample.get_public_key (JStr (str "AD1")) (Sample.initial Sample.empty)
  = (Ok (IsStr []),
     add_log WARNING (str "The public key could not be found.")
       (Sample.initial Sample.empty)) /\
  Sample.get_public_key (JStr (str "AD1"))
    (Sample.initial Sample.unpadded_certificate)
  = (Raise BinasciiError, Sample.initial Sample.unpadded_certificate) /\
  Sample.get_public_key (JStr (str "AD1"))
    (Sample.initial Sample.unknown_second_signer)
  = (Raise UnicodeEncodeError, Sample.initial Sample.unknown_second_signer) /\
  Sample.get_public_key (JStr (str "AD1"))
    (Sample.initial Sample.signed_by_one)
  = (Ok (IsBytes ["K"; "E"; "Y"; "1"]%byte), Sample.initial Sample.signed_by_one).
Proof.
  split; [ | split; [ | split ] ].
  - destruct (get_public_key_outcomes Sample.standard_b64decode (JStr (str "AD1"))
                (Sample.initial Sample.empty)) as (Habsent & _).
    apply Habsent. reflexivity.
  - destruct (get_public_key_outcomes Sample.standard_b64decode (JStr (str "AD1"))
                (Sample.initial Sample.unpadded_certificate)) as (_ & Hpresent & _).
    pose proof (Hpresent eq_refl) as Hrun. vm_compute in Hrun.
    vm_compute. exact Hrun.
  - destruct (get_public_key_outcomes Sample.standard_b64decode (JStr (str "AD1"))
                (Sample.initial Sample.unknown_second_signer))
      as (_ & Hpresent & _).
    pose proof (Hpresent eq_refl) as Hrun. vm_compute in Hrun.
    vm_compute. exact Hrun.
  - destruct (get_public_key_outcomes Sample.standard_b64decode (JStr (str "AD1"))
                (Sample.initial Sample.signed_by_one)) as (_ & Hpresent & _).
    pose proof (Hpresent eq_refl) as Hrun. vm_compute in Hrun.
    vm_compute. exact Hrun.
Defined.

(** For a subject that is not in [core_ads], [get_public_key] returns
    a value, the empty string, and raises no error. *)
Lemma get_public_key_absent_counterexample :
  py_contains (core_ads Sample.empty) (JStr (str "AD1")) = Ok false /\
  fst (Sample.get_public_key (JStr (str "AD1")) (Sample.initial Sample.empty))
  = Ok (IsStr []) /\
  ~ is_raise (fst (Sample.get_public_key (JStr (str "AD1"))
                     (Sample.initial Sample.empty))).
Proof. repeat split; vm_compute; auto. Qed.

(** C5 fails on the code for a source that lacks a top-level key: for
    a file that holds the object with the key [isd_id] alone, [parse]
    raises [KeyError] to its caller, logs nothing, and leaves the
    instance with [isd_id] assigned. *)
Theorem parse_missing_key_raises_and_assigns :
  json_load Sample.isd_id_only = Ok (JDict [(str "isd_id", JInt 5)]) /\
  parse (Sample.always Sample.isd_id_only) (JStr (str "trc.json"))
    (Sample.initial Sample.empty)
  = (Raise (KeyError (JStr (str "version"))),
     Sample.initial (set_isd_id (JInt 5) Sample.empty)) /\
  set_isd_id (JInt 5) Sample.empty <> Sample.empty.
Proof.
  repeat split; try (vm_compute; reflexivity).
  vm_compute. discriminate.
Qed.

(* ================================================================= *)
(** * The order of strings *)

Lemma pystr_compare_eq (a b : pystr) : pystr_compare a b = Eq <-> a = b.
Proof.
  revert b. induction a as [ | x a IH ]; intros [ | y b ]; simpl;
    try (split; [ discriminate | discriminate ]); try tauto.
  destruct (N.compare_spec x y) as [Hxy | Hxy | Hxy].
  - subst y. rewrite IH. split; [ intros ->; reflexivity | ].
    intros Heq; inversion Heq; reflexivity.
  - split; [ discriminate | intros Heq; inversion Heq; lia ].
  - split; [ discriminate | intros Heq; inversion Heq; lia ].
Qed.

Lemma pystr_eqb_eq (a b : pystr) : pystr_eqb a b = true <-> a = b.
Proof.
  unfold pystr_eqb. rewrite <- pystr_compare_eq.
  destruct (pystr_compare a b); split; congruence.
Qed.

Lemma pystr_eqb_refl (a : pystr) : pystr_eqb a a = true.
Proof. apply pystr_eqb_eq. reflexivity. Qed.

Lemma pystr_eqb_neq (a b : pystr) : pystr_eqb a b = false <-> a <> b.
Proof.
  rewrite <- pystr_eqb_eq. destruct (pystr_eqb a b); split; congruence.
Qed.

Lemma pystr_compare_antisym (a b : pystr) :
  pystr_compare b a = CompOpp (pystr_compare a b).
Proof.
  revert b. induction a as [ | x a IH ]; intros [ | y b ]; simpl; try reflexivity.
  rewrite (N.compare_antisym x y).
  destruct (x ?= y); simpl; [ apply IH | reflexivity | reflexivity ].
Qed.

Lemma pystr_compare_lt_trans (a b c : pystr) :
  pystr_compare a b = Lt -> pystr_compare b c = Lt -> pystr_compare a c = Lt.
Proof.
  revert b c. induction a as [ | x a IH ]; intros [ | y b ] [ | z c ]; simpl;
    try discriminate; try reflexivity.
  destruct (N.compare_spec x y) as [Hxy | Hxy | Hxy];
    destruct (N.compare_spec y z) as [Hyz | Hyz | Hyz];
    try discriminate; intros H1 H2.
  - subst. rewrite N.compare_refl. eapply IH; eassumption.
  - subst. apply N.compare_lt_iff in Hyz. rewrite Hyz. reflexivity.
  - subst. apply N.compare_lt_iff in Hxy. rewrite Hxy. reflexivity.
  - assert (x < z) as Hxz by lia. apply N.compare_lt_iff in Hxz.
    rewrite Hxz. reflexivity.
Qed.

Lemma pystr_leb_total (a b : pystr) :
  pystr_leb a b = false -> pystr_leb b a = true.
Proof.
  unfold pystr_leb. rewrite (pystr_compare_antisym a b).
  destruct (pystr_compare a b); simpl; congruence.
Qed.

Lemma pystr_leb_antisym (a b : pystr) :
  pystr_leb a b = true -> pystr_leb b a = true -> a = b.
Proof.
  unfold pystr_leb. rewrite (pystr_compare_antisym a b).
  destruct (pystr_compare a b) eqn:Hc; simpl; try discriminate.
  intros _ _. apply pystr_compare_eq. exact Hc.
Qed.

Lemma pystr_leb_trans (a b c : pystr) :
  pystr_leb a b = true -> pystr_leb b c = true -> pystr_leb a c = true.
Proof.
  unfold pystr_leb.
  destruct (pystr_compare a b) eqn:Hab; try discriminate;
    destruct (pystr_compare b c) eqn:Hbc; try discriminate; intros _ _.
  - apply pystr_compare_eq in Hab. subst b. rewrite Hbc. reflexivity.
  - apply pystr_compare_eq in Hab. subst b. rewrite Hbc. reflexivity.
  - apply pystr_compare_eq in Hbc. subst c. rewrite Hab. reflexivity.
  - rewrite (pystr_compare_lt_trans _ _ _ Hab Hbc). reflexivity.
Qed.

(* ================================================================= *)
(** * Sorting the items of a dict *)

Section SortedItems.

Variable A : Type.

Lemma insert_item_sorted (kv : pystr * A) (l : list (pystr * A)) :
  StronglySorted (@key_le A) l -> StronglySorted (@key_le A) (insert_item kv l).
Proof.
  induction 1 as [ | kv' l Hl IH Hall ]; simpl.
  - constructor; constructor.
  - destruct (pystr_leb (fst kv) (fst kv')) eqn:Hle.
    + constructor; [ constructor; assumption | ].
      constructor; [ exact Hle | ].
      eapply Forall_impl; [ | exact Hall ].
      intros c Hc. unfold key_le in *. eapply pystr_leb_trans; eassumption.
    + constructor; [ exact IH | ].
      eapply Permutation_Forall;
        [ apply Permutation_sym, insert_item_perm | ].
      constructor; [ | exact Hall ].
      apply pystr_leb_total. exact Hle.
Qed.

Lemma sorted_items_sorted (l : list (pystr * A)) :
  StronglySorted (@key_le A) (sorted_items l).
Proof.
  induction l as [ | kv l IH ]; simpl.
  - constructor.
  - apply insert_item_sorted. exact IH.
Qed.

(** Two sorted lists of items with distinct keys that hold the same
    items are the same list. *)
Lemma sorted_unique (l1 l2 : list (pystr * A)) :
  StronglySorted (@key_le A) l1 -> StronglySorted (@key_le A) l2 ->
  Permutation l1 l2 -> NoDup (map fst l1) -> l1 = l2.
Proof.
  intros H1. revert l2.
  induction H1 as [ | a l1 Hl1 IH Ha ]; intros l2 H2 Hperm Hnodup.
  - apply Permutation_nil in Hperm. symmetry. exact Hperm.
  - destruct H2 as [ | b l2 Hl2 Hb ].
    + apply Permutation_sym, Permutation_nil in Hperm. discriminate.
    + inversion Hnodup as [ | ? ? Hnotin Hnodup' ]; subst.
      assert (a = b) as Hab.
      { assert (In a (b :: l2)) as Hin
          by (eapply Permutation_in; [ exact Hperm | left; reflexivity ]).
        destruct Hin as [Heq | Hin]; [ symmetry; exact Heq | ].
        assert (In b (a :: l1)) as Hin'
          by (eapply Permutation_in;
              [ apply Permutation_sym; exact Hperm | left; reflexivity ]).
        destruct Hin' as [Heq | Hin']; [ exact Heq | ].
        exfalso. apply Hnotin.
        rewrite Forall_forall in Ha, Hb.
        assert (fst a = fst b) as Hk
          by (apply pystr_leb_antisym; [ apply Ha; exact Hin' | apply Hb; exact Hin ]).
        rewrite Hk. apply in_map. exact Hin'. }
      subst b. f_equal. apply IH; [ exact Hl2 | | exact Hnodup' ].
      eapply Permutation_cons_inv. exact Hperm.
Qed.

Lemma sorted_items_permutation (l1 l2 : list (pystr * A)) :
  Permutation l1 l2 -> NoDup (map fst l1) ->
  sorted_items l1 = sorted_items l2.
Proof.
  intros Hperm Hnodup. apply sorted_unique.
  - apply sorted_items_sorted.
  - apply sorted_items_sorted.
  - eapply Permutation_trans; [ apply sorted_items_perm | ].
    eapply Permutation_trans; [ exact Hperm | ].
    apply Permutation_sym, sorted_items_perm.
  - eapply Permutation_NoDup; [ | exact Hnodup ].
    apply Permutation_map, Permutation_sym, sorted_items_perm.
Qed.

End SortedItems.

(* ================================================================= *)
(** * Dicts with distinct keys *)

Lemma distinct_NoDup (l : list pystr) : distinct l = true -> NoDup l.
Proof.
  induction l as [ | k l IH ]; simpl; intros H.
  - constructor.
  - apply andb_true_iff in H. destruct H as [Hk Hl].
    constructor; [ | apply IH; exact Hl ].
    intros Hin. apply negb_true_iff in Hk.
    assert (existsb (pystr_eqb k) l = true) as Hex.
    { apply existsb_exists. exists k. split; [ exact Hin | apply pystr_eqb_refl ]. }
    congruence.
Qed.

Lemma dict_lookup_In (k : pystr) (d : list (pystr * json)) (v : json) :
  dict_lookup k d = Some v -> In (k, v) d.
Proof.
  induction d as [ | [k' v'] d IH ]; simpl; [ discriminate | ].
  destruct (pystr_eqb k k') eqn:Hk.
  - intros H. inversion H; subst. apply pystr_eqb_eq in Hk. subst. left. reflexivity.
  - intros H. right. apply IH. exact H.
Qed.

Lemma dict_lookup_NoDup (k : pystr) (d : list (pystr * json)) (v : json) :
  NoDup (dict_keys d) -> In (k, v) d -> dict_lookup k d = Some v.
Proof.
  induction d as [ | [k' v'] d IH ]; simpl; intros Hnd Hin; [ contradiction | ].
  inversion Hnd as [ | ? ? Hnotin Hnd' ]; subst.
  destruct Hin as [Heq | Hin].
  - inversion Heq; subst. rewrite pystr_eqb_refl. reflexivity.
  - destruct (pystr_eqb k k') eqn:Hk.
    + apply pystr_eqb_eq in Hk. subst k'. exfalso. apply Hnotin.
      change k with (fst (k, v)). apply in_map. exact Hin.
    + apply IH; assumption.
Qed.

(* ================================================================= *)
(** * The encoder on equal values *)

Lemma iterencode_list (sort_keys : bool) (indent : option nat) (level : nat)
  (l : list json) :
  l <> [] ->
  iterencode sort_keys indent level (JList l)
  = [LBRACKET] ++ newline_indent indent (S level)
    ++ join (item_separator indent ++ newline_indent indent (S level))
            (map (iterencode sort_keys indent (S level)) l)
    ++ newline_indent indent level ++ [RBRACKET].
Proof. destruct l; [ congruence | reflexivity ]. Qed.

Lemma iterencode_dict (sort_keys : bool) (indent : option nat) (level : nat)
  (d : list (pystr * json)) :
  d <> [] ->
  iterencode sort_keys indent level (JDict d)
  = [LBRACE] ++ newline_indent indent (S level)
    ++ join (item_separator indent ++ newline_indent indent (S level))
            (map (fun kr => encode_basestring_ascii (fst kr)
                            ++ key_separator ++ snd kr)
               (let encoded :=
                  map (fun kv => (fst kv, iterencode sort_keys indent (S level) (snd kv))) d in
                if sort_keys then sorted_items encoded else encoded))
    ++ newline_indent indent level ++ [RBRACE].
Proof. destruct d; [ congruence | reflexivity ]. Qed.

Lemma same_value_list (coerce : bool) (x y : list json) :
  value_eqb coerce (JList x) (JList y) = true ->
  Forall2 (fun a b => value_eqb coerce a b = true) x y.
Proof.
  revert y. induction x as [ | a x IH ]; intros [ | b y ]; cbn [value_eqb];
    try discriminate.
  - constructor.
  - intros H. apply andb_true_iff in H. destruct H as [Hab Hxy].
    constructor; [ exact Hab | apply IH; exact Hxy ].
Qed.

Lemma same_value_dict (coerce : bool) (x y : list (pystr * json)) :
  value_eqb coerce (JDict x) (JDict y) = true ->
  length x = length y /\
  Forall (fun kv => exists v', dict_lookup (fst kv) y = Some v' /\
                               value_eqb coerce (snd kv) v' = true) x.
Proof.
  cbn [value_eqb]. intros H. apply andb_true_iff in H. destruct H as [Hlen Hitems].
  split; [ apply Nat.eqb_eq; exact Hlen | ].
  clear Hlen. induction x as [ | [k v] x IH ]; [ constructor | ].
  destruct (dict_lookup k y) as [v' | ] eqn:Hk; [ | discriminate ].
  apply andb_true_iff in Hitems. destruct Hitems as [Hv Hrest].
  constructor; [ exists v'; split; assumption | apply IH; exact Hrest ].
Qed.

(** With sorted keys, two equal values whose dicts have distinct keys
    are encoded to the same text, whatever the order of the items in
    their dicts. *)
Lemma iterencode_same_value (indent : option nat) (v1 : json) :
  forall v2 level,
    same_value v1 v2 = true ->
    unique_keys v1 = true -> unique_keys v2 = true ->
    iterencode true indent level v1 = iterencode true indent level v2.
Proof.
  unfold same_value.
  induction v1 as [ | b | z | s | l IH | d IH ] using json_induction;
    intros v2 level Heq Hu1 Hu2.
  - destruct v2; try discriminate. reflexivity.
  - destruct v2; try discriminate. cbn [value_eqb] in Heq.
    apply eqb_prop in Heq. subst. reflexivity.
  - destruct v2; try discriminate. cbn [value_eqb] in Heq.
    apply Z.eqb_eq in Heq. subst. reflexivity.
  - destruct v2; try discriminate. cbn [value_eqb] in Heq.
    apply pystr_eqb_eq in Heq. subst. reflexivity.
  - destruct v2 as [ | | | | l2 | ]; try discriminate.
    apply same_value_list in Heq.
    assert (map (iterencode true indent (S level)) l
            = map (iterencode true indent (S level)) l2) as Hmap.
    { cbn [unique_keys] in Hu1, Hu2.
      rewrite forallb_forall in Hu1, Hu2.
      revert Hu1 Hu2 IH.
      induction Heq as [ | a b l l2 Hab Hl IHl ]; intros Hu1 Hu2 IH;
        [ reflexivity | ].
      inversion IH as [ | ? ? IHa IHrest ]; subst. cbn [map]. f_equal.
      - apply IHa; [ exact Hab | apply Hu1; left; reflexivity
                   | apply Hu2; left; reflexivity ].
      - apply IHl; [ intros x Hx; apply Hu1; right; exact Hx
                   | intros x Hx; apply Hu2; right; exact Hx | exact IHrest ]. }
    destruct Heq as [ | a b l l2 Hab Hl ]; [ reflexivity | ].
    rewrite !iterencode_list by discriminate. rewrite Hmap. reflexivity.
  - destruct v2 as [ | | | | | d2 ]; try discriminate.
    apply same_value_dict in Heq. destruct Heq as [Hlen Hall].
    destruct d as [ | kv d ].
    + destruct d2; [ reflexivity | discriminate ].
    + destruct d2 as [ | kv2 d2 ]; [ discriminate | ].
      rewrite !iterencode_dict by discriminate. cbv zeta.
      cbn [unique_keys] in Hu1, Hu2.
      apply andb_true_iff in Hu1, Hu2.
      destruct Hu1 as [Hd1 Hu1], Hu2 as [Hd2 Hu2].
      rewrite forallb_forall in Hu1, Hu2.
      apply distinct_NoDup in Hd1, Hd2.
      set (enc := fun kv0 : pystr * json =>
                    (fst kv0, iterencode true indent (S level) (snd kv0))).
      assert (sorted_items (map enc (kv :: d))
              = sorted_items (map enc (kv2 :: d2))) as Hsorted.
      { assert (map fst (map enc (kv :: d)) = dict_keys (kv :: d)) as Hkeys.
        { unfold dict_keys. rewrite map_map. reflexivity. }
        apply sorted_items_permutation; [ | rewrite Hkeys; exact Hd1 ].
        apply NoDup_Permutation_bis.
        - apply (NoDup_map_inv fst). rewrite Hkeys. exact Hd1.
        - rewrite !length_map. rewrite Hlen. apply Nat.le_refl.
        - intros kr Hin. apply in_map_iff in Hin.
          destruct Hin as [[k v] [Hkr Hin]]. subst kr.
          rewrite Forall_forall in Hall, IH.
          destruct (Hall _ Hin) as [v' [Hlookup Hsame]].
          apply dict_lookup_In in Hlookup. cbn [fst snd] in *.
          apply in_map_iff. exists (k, v'). split; [ | exact Hlookup ].
          unfold enc. cbn [fst snd]. f_equal. symmetry.
          apply (IH _ Hin); [ exact Hsame | apply (Hu1 _ Hin) | apply (Hu2 _ Hlookup) ]. }
      rewrite Hsorted. reflexivity.
Qed.

(* ================================================================= *)
(** * The canonical serialization of a document *)

Ltac split_andb :=
  repeat match goal with
         | H : _ && _ = true |- _ =>
             apply andb_true_iff in H; destruct H
         end.

Lemma get_trc_dict_same_value (t1 t2 : TRC) (with_signatures : bool) :
  same_document t1 t2 = true ->
  same_value (get_trc_dict t1 with_signatures) (get_trc_dict t2 with_signatures)
  = true.
Proof.
  unfold same_document, same_value. destruct t1, t2.
  intros H. simpl in H. split_andb.
  destruct with_signatures; simpl;
    repeat match goal with
           | Hv : value_eqb _ _ _ = true |- _ => rewrite Hv; clear Hv
           end;
    reflexivity.
Qed.

Lemma get_trc_dict_unique_keys (t : TRC) (with_signatures : bool) :
  unique_keys (JList (fields t)) = true ->
  unique_keys (get_trc_dict t with_signatures) = true.
Proof.
  destruct t. intros H. simpl in H. split_andb.
  destruct with_signatures; simpl;
    repeat match goal with
           | Hv : unique_keys _ = true |- _ => rewrite Hv; clear Hv
           end;
    reflexivity.
Qed.

(** C8: two documents with the same value in every field have the same
    canonical serialization, byte for byte, whatever the order in which
    their dicts hold their items; with the [signatures] field
    ([__str__]) or without it ([verify]). *)
Theorem canonical_serialization_deterministic (t1 t2 : TRC)
  (with_signatures : bool) :
  same_document t1 t2 = true ->
  unique_keys (JList (fields t1)) = true ->
  unique_keys (JList (fields t2)) = true ->
  json_dumps true (Some 4%nat) (get_trc_dict t1 with_signatures)
  = json_dumps true (Some 4%nat) (get_trc_dict t2 with_signatures) /\
  encode_ascii (json_dumps true (Some 4%nat) (get_trc_dict t1 with_signatures))
  = encode_ascii (json_dumps true (Some 4%nat) (get_trc_dict t2 with_signatures)).
Proof.
  intros Hsame Hu1 Hu2.
  assert (json_dumps true (Some 4%nat) (get_trc_dict t1 with_signatures)
          = json_dumps true (Some 4%nat) (get_trc_dict t2 with_signatures)) as Heq.
  { unfold json_dumps. apply iterencode_same_value.
    - apply get_trc_dict_same_value. exact Hsame.
    - apply get_trc_dict_unique_keys. exact Hu1.
    - apply get_trc_dict_unique_keys. exact Hu2. }
  split; [ exact Heq | rewrite Heq; reflexivity ].
Qed.

Lemma canonical_serialization_deterministic_witness :
  Sample.signed_by_two <> Sample.signed_by_two_reordered /\
  json_dumps true (Some 4%nat) (get_trc_dict Sample.signed_by_two true)
  = json_dumps true (Some 4%nat) (get_trc_dict Sample.signed_by_two_reordered true).
Proof.
  split; [ vm_compute; discriminate | ].
  apply (canonical_serialization_deterministic Sample.signed_by_two
           Sample.signed_by_two_reordered true); reflexivity.
Defined.

(* ================================================================= *)
(** * Reading back an encoded string *)

Lemma hex_value_hex_digit (d : N) : d < 16 -> hex_value (hex_digit d) = Some d.
Proof.
  intros Hd. unfold hex_digit, hex_value.
  destruct (d <? 10) eqn:Hlt.
  - apply N.ltb_lt in Hlt.
    assert ((48 <=? 48 + d) && (48 + d <=? 57) = true) as ->
      by (apply andb_true_iff; split; apply N.leb_le; lia).
    f_equal. lia.
  - apply N.ltb_ge in Hlt.
    assert ((48 <=? 87 + d) && (87 + d <=? 57) = false) as ->
      by (apply andb_false_iff; right; apply N.leb_gt; lia).
    assert ((97 <=? 87 + d) && (87 + d <=? 102) = true) as ->
      by (apply andb_true_iff; split; apply N.leb_le; lia).
    f_equal. lia.
Qed.

Lemma hex4_value (n : N) :
  n < 65536 ->
  (((n / 4096 mod 16) * 16 + n / 256 mod 16) * 16 + n / 16 mod 16) * 16
  + n mod 16 = n.
Proof.
  intros H. zify. Z.to_euclidean_division_equations. lia.
Qed.

Lemma decode_hex4 (n : N) :
  n < 65536 ->
  decode_uXXXX (hex_digit (n / 4096 mod 16)) (hex_digit (n / 256 mod 16))
    (hex_digit (n / 16 mod 16)) (hex_digit (n mod 16)) = Some n.
Proof.
  intros H. unfold decode_uXXXX.
  rewrite !hex_value_hex_digit by (apply N.mod_lt; discriminate).
  f_equal. apply hex4_value. exact H.
Qed.

Lemma lor_disjoint (a b : N) : N.land a b = 0 -> N.lor a b = a + b.
Proof.
  intros H. rewrite <- N.lxor_lor by exact H. symmetry.
  apply N.add_nocarry_lxor. exact H.
Qed.

Lemma land_above_10_bits (hi x : N) : x < 1024 -> N.land (hi * 1024) x = 0.
Proof.
  intros H. apply N.bits_inj. intros i. rewrite N.land_spec, N.bits_0.
  destruct (N.lt_ge_cases i 10) as [Hi | Hi].
  - replace (hi * 1024) with (N.shiftl hi 10)
      by (rewrite N.shiftl_mul_pow2; reflexivity).
    rewrite N.shiftl_spec_low by exact Hi. reflexivity.
  - replace (N.testbit x i) with false; [ apply andb_false_r | ].
    symmetry. destruct (N.eq_dec x 0) as [-> | Hx]; [ apply N.bits_0 | ].
    apply N.bits_above_log2. apply N.lt_le_trans with 10; [ | exact Hi ].
    apply N.log2_lt_pow2; [ lia | exact H ].
Qed.

(** The surrogate pair that the encoder writes for a code point above
    the basic plane, and the code point that the decoder makes of it. *)
Lemma surrogate_pair (c : N) :
  0x10000 <= c -> c < 0x110000 ->
  let n := c - 0x10000 in
  let s1 := N.lor 0xd800 (N.land (N.shiftr n 10) 0x3ff) in
  let s2 := N.lor 0xdc00 (N.land n 0x3ff) in
  s1 = 0xd800 + n / 1024 /\ s2 = 0xdc00 + n mod 1024 /\
  0x10000 + N.lor (N.shiftl (s1 - 0xd800) 10) (s2 - 0xdc00) = c.
Proof.
  intros Hlo Hhi n s1 s2.
  assert (n < 1048576) as Hn by (unfold n; lia).
  assert (n / 1024 < 1024) as Hq
    by (apply N.Div0.div_lt_upper_bound; lia).
  assert (n mod 1024 < 1024) as Hr by (apply N.mod_lt; discriminate).
  assert (s1 = 0xd800 + n / 1024) as H1.
  { unfold s1. rewrite N.shiftr_div_pow2.
    change 0x3ff with (N.ones 10). rewrite N.land_ones.
    change (2 ^ 10) with 1024. rewrite (N.mod_small (n / 1024)) by exact Hq.
    change 0xd800 with (54 * 1024). apply lor_disjoint.
    apply land_above_10_bits. exact Hq. }
  assert (s2 = 0xdc00 + n mod 1024) as H2.
  { unfold s2. change 0x3ff with (N.ones 10). rewrite N.land_ones.
    change (2 ^ 10) with 1024.
    change 0xdc00 with (55 * 1024). apply lor_disjoint.
    apply land_above_10_bits. exact Hr. }
  repeat split; [ exact H1 | exact H2 | ].
  rewrite H1, H2.
  rewrite (N.add_comm 0xd800), (N.add_comm 0xdc00), !N.add_sub.
  rewrite N.shiftl_mul_pow2. change (2 ^ 10) with 1024.
  rewrite lor_disjoint by (apply land_above_10_bits; exact Hr).
  pose proof (N.div_mod n 1024) as Hdiv.
  assert (n = c - 0x10000) as Hn' by reflexivity.
  clearbody n. clear s1 s2 H1 H2.
  generalize dependent (n / 1024). generalize dependent (n mod 1024).
  intros r Hr q Hq Hdiv. lia.
Qed.

Lemma scanstring_literal (c : N) (s : pystr) :
  (c =? QUOTE) = false -> (c =? BACKSLASH) = false -> (c <? 32) = false ->
  scanstring (c :: s) = prepend c (scanstring s).
Proof.
  intros H1 H2 H3. cbn [scanstring]. rewrite H1, H2, H3. reflexivity.
Qed.

Lemma scanstring_short (e x : N) (s : pystr) :
  (e =? 117) = false -> unescape e = Some x ->
  scanstring (BACKSLASH :: e :: s) = prepend x (scanstring s).
Proof.
  intros H1 H2. cbn [scanstring].
  change (BACKSLASH =? QUOTE) with false. change (BACKSLASH =? BACKSLASH) with true.
  cbv iota. rewrite H1, H2. reflexivity.
Qed.

Lemma scanstring_u (h1 h2 h3 h4 uni : N) (s : pystr) :
  decode_uXXXX h1 h2 h3 h4 = Some uni ->
  (0xd800 <=? uni) && (uni <=? 0xdbff) = false ->
  scanstring (BACKSLASH :: 117 :: h1 :: h2 :: h3 :: h4 :: s)
  = prepend uni (scanstring s).
Proof.
  intros H1 H2. cbn [scanstring].
  change (BACKSLASH =? QUOTE) with false. change (BACKSLASH =? BACKSLASH) with true.
  change (117 =? 117) with true. cbv iota. rewrite H1, H2. reflexivity.
Qed.

Lemma scanstring_pair (h1 h2 h3 h4 g1 g2 g3 g4 uni uni2 : N) (s : pystr) :
  decode_uXXXX h1 h2 h3 h4 = Some uni ->
  (0xd800 <=? uni) && (uni <=? 0xdbff) = true ->
  decode_uXXXX g1 g2 g3 g4 = Some uni2 ->
  (0xdc00 <=? uni2) && (uni2 <=? 0xdfff) = true ->
  scanstring (BACKSLASH :: 117 :: h1 :: h2 :: h3 :: h4
              :: BACKSLASH :: 117 :: g1 :: g2 :: g3 :: g4 :: s)
  = prepend (0x10000 + N.lor (N.shiftl (uni - 0xd800) 10) (uni2 - 0xdc00))
      (scanstring s).
Proof.
  intros H1 H2 H3 H4. cbn [scanstring].
  change (BACKSLASH =? QUOTE) with false. change (BACKSLASH =? BACKSLASH) with true.
  change (117 =? 117) with true. cbv iota. rewrite H1, H2.
  cbn [andb]. rewrite H3, H4. reflexivity.
Qed.

(** The decoder reads the escape of a scalar value back as the value. *)
Lemma scanstring_escape_char (c : N) (s : pystr) :
  is_scalar c = true ->
  scanstring (escape_char c ++ s) = prepend c (scanstring s).
Proof.
  intros Hc. unfold escape_char.
  destruct (c =? QUOTE) eqn:E1;
    [ apply N.eqb_eq in E1; subst c; apply scanstring_short; reflexivity | ].
  destruct (c =? BACKSLASH) eqn:E2;
    [ apply N.eqb_eq in E2; subst c; apply scanstring_short; reflexivity | ].
  destruct (c =? 10) eqn:E3;
    [ apply N.eqb_eq in E3; subst c; apply scanstring_short; reflexivity | ].
  destruct (c =? 13) eqn:E4;
    [ apply N.eqb_eq in E4; subst c; apply scanstring_short; reflexivity | ].
  destruct (c =? 9) eqn:E5;
    [ apply N.eqb_eq in E5; subst c; apply scanstring_short; reflexivity | ].
  destruct (c =? 8) eqn:E6;
    [ apply N.eqb_eq in E6; subst c; apply scanstring_short; reflexivity | ].
  destruct (c =? 12) eqn:E7;
    [ apply N.eqb_eq in E7; subst c; apply scanstring_short; reflexivity | ].
  destruct ((32 <=? c) && (c <=? 126)) eqn:E8.
  - apply andb_true_iff in E8. destruct E8 as [Hlo _]. apply N.leb_le in Hlo.
    apply scanstring_literal; [ exact E1 | exact E2 | apply N.ltb_ge; exact Hlo ].
  - unfold is_scalar in Hc.
    destruct (c <? 0x10000) eqn:E9.
    + apply N.ltb_lt in E9. cbn [app]. unfold hex4. cbn [app].
      apply scanstring_u; [ apply decode_hex4; exact E9 | ].
      apply orb_true_iff in Hc. destruct Hc as [Hc | Hc].
      * apply N.ltb_lt in Hc. apply andb_false_iff. left. apply N.leb_gt. exact Hc.
      * apply andb_true_iff in Hc. destruct Hc as [Hc _]. apply N.ltb_lt in Hc.
        apply andb_false_iff. right. apply N.leb_gt. lia.
    + apply N.ltb_ge in E9.
      assert (c < 0x110000) as Hhi.
      { apply orb_true_iff in Hc. destruct Hc as [Hc | Hc].
        - apply N.ltb_lt in Hc. lia.
        - apply andb_true_iff in Hc. destruct Hc as [_ Hc]. apply N.ltb_lt in Hc.
          exact Hc. }
      destruct (surrogate_pair E9 Hhi) as (H1 & H2 & Hjoin).
      cbv zeta in H1, H2, Hjoin |- *.
      assert ((c - 0x10000) / 1024 < 1024) as Hq
        by (apply N.Div0.div_lt_upper_bound; lia).
      assert ((c - 0x10000) mod 1024 < 1024) as Hr by (apply N.mod_lt; discriminate).
      set (s1 := N.lor 0xd800 (N.land (N.shiftr (c - 0x10000) 10) 0x3ff)) in *.
      set (s2 := N.lor 0xdc00 (N.land (c - 0x10000) 0x3ff)) in *.
      unfold hex4. cbn [app].
      rewrite (@scanstring_pair _ _ _ _ _ _ _ _ s1 s2 s).
      * rewrite Hjoin. reflexivity.
      * apply decode_hex4. rewrite H1. lia.
      * rewrite H1. clear - Hq. revert Hq.
        generalize ((c - 0x10000) / 1024). intros q Hq.
        apply andb_true_iff. split; apply N.leb_le; lia.
      * apply decode_hex4. rewrite H2. lia.
      * rewrite H2. clear - Hr. revert Hr.
        generalize ((c - 0x10000) mod 1024). intros r Hr.
        apply andb_true_iff. split; apply N.leb_le; lia.
Qed.

Lemma scanstring_encoded (s rest : pystr) :
  forallb is_scalar s = true ->
  scanstring (flat_map escape_char s ++ QUOTE :: rest) = Ok (s, rest).
Proof.
  induction s as [ | c s IH ]; intros Hs.
  - reflexivity.
  - cbn [forallb] in Hs. apply andb_true_iff in Hs. destruct Hs as [Hc Hs].
    cbn [flat_map]. rewrite <- app_assoc.
    rewrite scanstring_escape_char by exact Hc.
    rewrite IH by exact Hs. reflexivity.
Qed.

(* ================================================================= *)
(** * Reading back an encoded integer *)

Lemma scan_digits_uint (u : Decimal.uint) (rest : pystr) :
  match rest with c :: _ => is_digit c = false | [] => True end ->
  scan_digits (uint_digits u ++ rest) = (u, rest).
Proof.
  intros Hrest. induction u; cbn [uint_digits app scan_digits];
    try (rewrite IHu; reflexivity).
  destruct rest as [ | c rest ]; [ reflexivity | ].
  cbn [scan_digits]. rewrite Hrest. reflexivity.
Qed.

Lemma to_uint_head (n : N) :
  (n = 0 /\ N.to_uint n = Decimal.D0 Decimal.Nil) \/
  (exists c tl, uint_digits (N.to_uint n) = c :: tl /\
                is_digit c = true /\ (c =? 48) = false).
Proof.
  destruct n as [ | p ]; [ left; split; reflexivity | right ].
  pose proof (DecimalN.Unsigned.to_of (N.to_uint (N.pos p))) as Hnorm.
  rewrite DecimalN.Unsigned.of_to in Hnorm.
  assert (forall d', N.to_uint (N.pos p) <> Decimal.D0 d') as Hnz.
  { intros d' Hd. rewrite Hd in Hnorm. rewrite DecimalFacts.unorm_D0 in Hnorm.
    unfold Decimal.unorm in Hnorm.
    destruct (Decimal.nzhead d') eqn:Hh; try discriminate.
    - inversion Hnorm; subst d'.
      apply (DecimalPos.Unsigned.to_uint_nonzero p). exact Hd.
    - apply (DecimalFacts.nzhead_nonzero d' d'). congruence. }
  pose proof (DecimalPos.Unsigned.to_uint_nonnil p) as Hnn.
  change (N.to_uint (N.pos p)) with (Pos.to_uint p) in *.
  destruct (Pos.to_uint p) eqn:Hu; try congruence;
    try (eexists; eexists; split; [ reflexivity | split; reflexivity ]).
Qed.

Lemma match_natural_digits (n : N) (rest : pystr) :
  match rest with c :: _ => is_digit c = false | [] => True end ->
  match_natural (uint_digits (N.to_uint n) ++ rest) = Some (n, rest).
Proof.
  intros Hrest. destruct (to_uint_head n) as [[Hn Hu] | (c & tl & Hu & Hd & Hz)].
  - subst n. reflexivity.
  - pose proof (scan_digits_uint (N.to_uint n) rest Hrest) as Hscan.
    rewrite Hu in Hscan |- *. cbn [app] in Hscan |- *.
    unfold match_natural. rewrite Hz, Hd, Hscan.
    rewrite DecimalN.Unsigned.of_to. reflexivity.
Qed.

Lemma ends_number_digit (rest : pystr) :
  ends_number rest = true ->
  match rest with c :: _ => is_digit c = false | [] => True end.
Proof.
  destruct rest as [ | c rest ]; [ trivial | ].
  cbn [ends_number]. intros H. split_andb.
  apply negb_true_iff. assumption.
Qed.

Lemma ends_number_float (rest : pystr) :
  ends_number rest = true -> float_follows rest = false.
Proof.
  destruct rest as [ | c [ | d rest ] ]; try reflexivity.
  cbn [ends_number float_follows]. intros H. split_andb.
  repeat match goal with
         | Hn : negb _ = true |- _ => apply negb_true_iff in Hn; rewrite Hn
         end.
  reflexivity.
Qed.

Lemma uint_digits_head (n : N) :
  exists c tl, uint_digits (N.to_uint n) = c :: tl /\ is_digit c = true.
Proof.
  destruct (to_uint_head n) as [[Hn Hu] | (c & tl & Hu & Hd & _)].
  - rewrite Hu. exists 48, []. split; reflexivity.
  - exists c, tl. split; assumption.
Qed.

Lemma match_number_int_repr (z : Z) (rest : pystr) :
  ends_number rest = true ->
  match_number (int_repr z ++ rest) = Ok (JInt z, rest).
Proof.
  intros Hrest. unfold int_repr, match_number.
  pose proof (match_natural_digits (Z.abs_N z) rest (ends_number_digit _ Hrest))
    as Hnat.
  destruct (z <? 0)%Z eqn:Hz.
  - cbn [app]. change (MINUS =? MINUS) with true. cbn [fst snd].
    rewrite Hnat, (ends_number_float _ Hrest).
    apply Z.ltb_lt in Hz. do 2 f_equal. f_equal. lia.
  - destruct (uint_digits_head (Z.abs_N z)) as (c & tl & Hu & Hd).
    rewrite Hu in Hnat |- *. cbn [app] in Hnat |- *.
    assert ((c =? MINUS) = false) as ->.
    { unfold is_digit in Hd. apply andb_true_iff in Hd. destruct Hd as [Hlo _].
      apply N.leb_le in Hlo. apply N.eqb_neq. unfold MINUS. lia. }
    cbn [fst snd]. rewrite Hnat, (ends_number_float _ Hrest).
    apply Z.ltb_ge in Hz. do 2 f_equal. f_equal. lia.
Qed.

(** The first character of an encoded integer. *)
Lemma int_repr_head (z : Z) :
  exists c tl, int_repr z = c :: tl /\ (is_digit c = true \/ c = MINUS).
Proof.
  unfold int_repr. destruct (z <? 0)%Z.
  - eexists; eexists; split; [ reflexivity | right; reflexivity ].
  - destruct (uint_digits_head (Z.abs_N z)) as (c & tl & Hu & Hd).
    exists c, tl. split; [ exact Hu | left; exact Hd ].
Qed.

Lemma scan_once_number (depth : nat) (c : N) (s : pystr) :
  is_digit c = true \/ c = MINUS ->
  scan_once (S depth) (c :: s) = match_number (c :: s).
Proof.
  intros Hc.
  assert (45 <= c <= 57) as Hrange.
  { destruct Hc as [Hd | ->]; [ | unfold MINUS; lia ].
    unfold is_digit in Hd. apply andb_true_iff in Hd. destruct Hd as [Hlo Hhi].
    apply N.leb_le in Hlo, Hhi. lia. }
  cbn [scan_once].
  assert ((c =? QUOTE) = false) as -> by (apply N.eqb_neq; unfold QUOTE; lia).
  assert ((c =? LBRACE) = false) as -> by (apply N.eqb_neq; unfold LBRACE; lia).
  assert ((c =? LBRACKET) = false) as -> by (apply N.eqb_neq; unfold LBRACKET; lia).
  assert (is_prefix (str "null") (c :: s) = false) as ->.
  { cbn -[N.eqb]. assert ((110 =? c) = false) as -> by (apply N.eqb_neq; lia). reflexivity. }
  assert (is_prefix (str "true") (c :: s) = false) as ->.
  { cbn -[N.eqb]. assert ((116 =? c) = false) as -> by (apply N.eqb_neq; lia). reflexivity. }
  assert (is_prefix (str "false") (c :: s) = false) as ->.
  { cbn -[N.eqb]. assert ((102 =? c) = false) as -> by (apply N.eqb_neq; lia). reflexivity. }
  reflexivity.
Qed.

(* ================================================================= *)
(** * Reading back an encoded list or dict *)

Lemma skip_ws_token (s : pystr) : starts_token s = true -> skip_ws s = s.
Proof.
  destruct s as [ | c s ]; [ reflexivity | ].
  cbn [starts_token skip_ws]. intros H. split_andb.
  match goal with Hw : negb (is_ws c) = true |- _ =>
    apply negb_true_iff in Hw; rewrite Hw end.
  reflexivity.
Qed.

Lemma skip_ws_newline_indent (n level : nat) (s : pystr) :
  skip_ws (newline_indent (Some n) level ++ s) = skip_ws s.
Proof.
  unfold newline_indent. cbn [app skip_ws].
  change (is_ws NEWLINE) with true. cbv iota.
  induction (n * level)%nat as [ | m IH ]; [ reflexivity | ].
  cbn [repeat app skip_ws]. change (is_ws SPACE) with true. cbv iota. exact IH.
Qed.

Lemma ends_number_newline_indent (n level : nat) (s : pystr) :
  ends_number (newline_indent (Some n) level ++ s) = true.
Proof. reflexivity. Qed.

(** An encoded value starts with a character of its own. *)
Lemma iterencode_starts_token (sort_keys : bool) (indent : option nat)
  (level : nat) (v : json) (rest : pystr) :
  starts_token (iterencode sort_keys indent level v ++ rest) = true.
Proof.
  destruct v as [ | [ | ] | z | s | [ | x l ] | [ | kv d ] ]; try reflexivity.
  cbn [iterencode]. destruct (int_repr_head z) as (c & tl & Hz & Hc).
  rewrite Hz. cbn [app starts_token].
  assert (45 <= c <= 57) as Hrange.
  { destruct Hc as [Hd | ->]; [ | unfold MINUS; lia ].
    unfold is_digit in Hd. apply andb_true_iff in Hd. destruct Hd as [Hlo Hhi].
    apply N.leb_le in Hlo, Hhi. lia. }
  unfold is_ws, SPACE, NEWLINE, RBRACKET, RBRACE.
  repeat match goal with
         | |- context [c =? ?k] =>
             let E := fresh "E" in
             assert ((c =? k) = false) as E by (apply N.eqb_neq; lia);
             rewrite E; clear E
         end.
  reflexivity.
Qed.

Lemma iterencode_nonempty (sort_keys : bool) (indent : option nat)
  (level : nat) (v : json) :
  (1 <= length (iterencode sort_keys indent level v))%nat.
Proof.
  pose proof (iterencode_starts_token sort_keys indent level v []) as H.
  rewrite app_nil_r in H.
  destruct (iterencode sort_keys indent level v); [ discriminate | ].
  cbn [length]. apply le_n_S, Nat.le_0_l.
Qed.

Lemma join_length_ge (sep : pystr) (items : list pystr) (x : pystr) :
  In x items -> (length x <= length (join sep items))%nat.
Proof.
  induction items as [ | y items IH ]; [ contradiction | ].
  intros [-> | Hin].
  - destruct items; cbn [join]; [ apply Nat.le_refl | ].
    rewrite length_app. apply Nat.le_add_r.
  - destruct items as [ | y' items ]; [ contradiction | ].
    change (join sep (y :: y' :: items))
      with (y ++ sep ++ join sep (y' :: items)).
    rewrite !length_app. specialize (IH Hin). lia.
Qed.

Lemma join_length_items (sep : pystr) (items : list pystr) :
  Forall (fun x => (1 <= length x)%nat) items ->
  (length items <= length (join sep items))%nat.
Proof.
  induction 1 as [ | x items Hx _ IH ]; [ apply Nat.le_refl | ].
  destruct items as [ | y items ]; [ exact Hx | ].
  change (join sep (x :: y :: items)) with (x ++ sep ++ join sep (y :: items)).
  rewrite !length_app. cbn [length] in IH |- *. lia.
Qed.

Lemma join_cons (sep x : pystr) (items : list pystr) :
  items <> [] -> join sep (x :: items) = x ++ sep ++ join sep items.
Proof. destruct items; [ congruence | reflexivity ]. Qed.

Lemma join_cons_app (sep x : pystr) (items : list pystr) (rest : pystr) :
  exists tl, join sep (x :: items) ++ rest = x ++ tl.
Proof.
  destruct items as [ | y items ].
  - exists rest. reflexivity.
  - exists (sep ++ join sep (y :: items) ++ rest).
    change (join sep (x :: y :: items)) with (x ++ sep ++ join sep (y :: items)).
    rewrite <- !app_assoc. reflexivity.
Qed.

Lemma starts_token_join (sep x : pystr) (items : list pystr) (rest : pystr) :
  (forall r, starts_token (x ++ r) = true) ->
  starts_token (join sep (x :: items) ++ rest) = true.
Proof.
  intros Hx. destruct (join_cons_app sep x items rest) as [tl Htl].
  rewrite Htl. apply Hx.
Qed.

Section ContainerRuns.

Variable scan : pystr -> result (json * pystr).
Variable f : json -> pystr.
Variable n : nat.

Hypothesis f_starts : forall x rest, starts_token (f x ++ rest) = true.

Lemma array_items_run (inner outer : nat) (rest : pystr) (items : list json) :
  items <> [] ->
  (forall x, In x items -> forall rest',
     ends_number rest' = true -> scan (f x ++ rest') = Ok (x, rest')) ->
  forall fuel, (length items <= fuel)%nat ->
  array_items scan fuel
    (join ([COMMA] ++ newline_indent (Some n) inner) (map f items)
     ++ newline_indent (Some n) outer ++ RBRACKET :: rest)
  = Ok (items, rest).
Proof.
  induction items as [ | x items IH ]; [ congruence | ].
  intros _ Hscan fuel Hfuel.
  destruct fuel as [ | fuel ]; [ cbn in Hfuel; lia | ].
  destruct items as [ | y items ].
  - cbn [map join array_items].
    rewrite (Hscan x (or_introl eq_refl)) by apply ends_number_newline_indent.
    rewrite skip_ws_newline_indent. cbn [skip_ws].
    change (is_ws RBRACKET) with false. cbv iota.
    change (RBRACKET =? RBRACKET) with true. reflexivity.
  - change (map f (x :: y :: items)) with (f x :: map f (y :: items)).
    rewrite join_cons by discriminate.
    rewrite <- !app_assoc. cbn [app array_items].
    rewrite (Hscan x (or_introl eq_refl)) by reflexivity.
    cbn [skip_ws]. change (is_ws COMMA) with false. cbv iota.
    change (COMMA =? RBRACKET) with false. change (COMMA =? COMMA) with true.
    cbv iota. rewrite skip_ws_newline_indent.
    rewrite skip_ws_token.
    2:{ cbn [map]. apply starts_token_join. intros r. apply f_starts. }
    change (COMMA :: newline_indent (Some n) inner)
      with ([COMMA] ++ newline_indent (Some n) inner).
    rewrite IH.
    + reflexivity.
    + discriminate.
    + intros x' Hin. apply Hscan. right. exact Hin.
    + cbn [length] in Hfuel |- *. lia.
Qed.

Lemma object_members_run (inner outer : nat) (rest : pystr)
  (items : list (pystr * json)) :
  items <> [] ->
  (forall kv, In kv items -> forallb is_scalar (fst kv) = true) ->
  (forall kv, In kv items -> forall rest',
     ends_number rest' = true -> scan (f (snd kv) ++ rest') = Ok (snd kv, rest')) ->
  forall fuel, (length items <= fuel)%nat ->
  object_members scan fuel
    (join ([COMMA] ++ newline_indent (Some n) inner)
       (map (fun kv => encode_basestring_ascii (fst kv) ++ key_separator
                       ++ f (snd kv)) items)
     ++ newline_indent (Some n) outer ++ RBRACE :: rest)
  = Ok (items, rest).
Proof.
  induction items as [ | [k v] items IH ]; [ congruence | ].
  intros _ Hkeys Hscan fuel Hfuel.
  destruct fuel as [ | fuel ]; [ cbn in Hfuel; lia | ].
  pose proof (Hkeys _ (or_introl eq_refl)) as Hk.
  pose proof (Hscan _ (or_introl eq_refl)) as Hv. cbn [fst snd] in Hk, Hv.
  destruct items as [ | kv' items ].
  - cbn [map join fst snd]. unfold encode_basestring_ascii, key_separator.
    rewrite <- !app_assoc. cbn [app object_members expect].
    change (QUOTE =? QUOTE) with true. cbv iota.
    rewrite <- app_assoc. cbn [app].
    rewrite scanstring_encoded by exact Hk.
    cbn [skip_ws]. change (is_ws COLON) with false. cbv iota.
    cbn [expect]. change (COLON =? COLON) with true. cbv iota.
    cbn [skip_ws]. change (is_ws SPACE) with true. cbv iota.
    rewrite skip_ws_token by apply f_starts.
    rewrite Hv by apply ends_number_newline_indent.
    rewrite skip_ws_newline_indent. cbn [skip_ws].
    change (is_ws RBRACE) with false. cbv iota.
    change (RBRACE =? RBRACE) with true. reflexivity.
  - set (g := fun kv : pystr * json =>
                encode_basestring_ascii (fst kv) ++ key_separator ++ f (snd kv)).
    change (map g ((k, v) :: kv' :: items)) with (g (k, v) :: map g (kv' :: items)).
    rewrite join_cons by discriminate.
    unfold g at 1. cbn [fst snd].
    unfold encode_basestring_ascii at 1, key_separator at 1.
    rewrite <- !app_assoc. cbn [app object_members expect].
    change (QUOTE =? QUOTE) with true. cbv iota.
    rewrite <- app_assoc. cbn [app].
    rewrite scanstring_encoded by exact Hk.
    cbn [skip_ws]. change (is_ws COLON) with false. cbv iota.
    cbn [expect]. change (COLON =? COLON) with true. cbv iota.
    cbn [skip_ws]. change (is_ws SPACE) with true. cbv iota.
    rewrite skip_ws_token by apply f_starts.
    rewrite Hv by reflexivity.
    cbn [skip_ws]. change (is_ws COMMA) with false. cbv iota.
    change (COMMA =? RBRACE) with false. change (COMMA =? COMMA) with true.
    cbv iota. rewrite skip_ws_newline_indent.
    rewrite skip_ws_token.
    2:{ cbn [map]. apply starts_token_join. intros r. reflexivity. }
    change (COMMA :: newline_indent (Some n) inner)
      with ([COMMA] ++ newline_indent (Some n) inner).
    unfold g. rewrite IH.
    + reflexivity.
    + discriminate.
    + intros kv Hin. apply Hkeys. right. exact Hin.
    + intros kv Hin. apply Hscan. right. exact Hin.
    + cbn [length] in Hfuel |- *. lia.
Qed.

End ContainerRuns.

Lemma dict_set_fresh (k : pystr) (v : json) (d : list (pystr * json)) :
  ~ In k (dict_keys d) -> dict_set k v d = d ++ [(k, v)].
Proof.
  induction d as [ | [k' v'] d IH ]; cbn [dict_set dict_keys map fst app];
    intros Hnotin; [ reflexivity | ].
  destruct (pystr_eqb k k') eqn:Hk.
  - apply pystr_eqb_eq in Hk. subst k'. exfalso. apply Hnotin. left. reflexivity.
  - rewrite IH; [ reflexivity | ]. intros Hin. apply Hnotin. right. exact Hin.
Qed.

Lemma dict_of_pairs_fresh (pairs acc : list (pystr * json)) :
  NoDup (dict_keys (acc ++ pairs)) ->
  fold_left (fun d kv => dict_set (fst kv) (snd kv) d) pairs acc = acc ++ pairs.
Proof.
  revert acc. induction pairs as [ | [k v] pairs IH ]; intros acc Hnd.
  - rewrite app_nil_r. reflexivity.
  - cbn [fold_left fst snd].
    assert (acc ++ (k, v) :: pairs = (acc ++ [(k, v)]) ++ pairs) as Heq
      by (rewrite <- app_assoc; reflexivity).
    rewrite Heq in Hnd |- *.
    rewrite dict_set_fresh.
    + apply IH. exact Hnd.
    + unfold dict_keys in Hnd. rewrite !map_app in Hnd.
      apply NoDup_app_remove_r in Hnd. cbn [map fst] in Hnd.
      apply NoDup_remove_2 in Hnd. rewrite app_nil_r in Hnd. exact Hnd.
Qed.

Lemma dict_of_pairs_unique (d : list (pystr * json)) :
  NoDup (dict_keys d) -> dict_of_pairs d = d.
Proof. intros H. apply (dict_of_pairs_fresh d []). exact H. Qed.

Lemma starts_token_cons (s : pystr) :
  starts_token s = true ->
  exists c s', s = c :: s' /\ (c =? RBRACKET) = false /\ (c =? RBRACE) = false.
Proof.
  destruct s as [ | c s ]; [ discriminate | ].
  cbn [starts_token]. intros H. split_andb.
  exists c, s. repeat split; apply negb_true_iff; assumption.
Qed.

(** The decoder reads the text that the encoder writes for a value, in
    the order of its items and with an indent, back as the value. *)
Lemma scan_once_iterencode (n : nat) (v : json) :
  forall level rest depth,
    unique_keys v = true -> scalar_strings v = true ->
    ends_number rest = true ->
    (length (iterencode false (Some n) level v) < depth)%nat ->
    scan_once depth (iterencode false (Some n) level v ++ rest) = Ok (v, rest).
Proof.
  induction v as [ | b | z | s | l IH | d IH ] using json_induction;
    intros level rest depth Hu Hs Hrest Hdepth;
    (destruct depth as [ | depth ]; [ inversion Hdepth | ]).
  - reflexivity.
  - destruct b; reflexivity.
  - pose proof (match_number_int_repr z rest Hrest) as Hnum.
    cbn [iterencode]. destruct (int_repr_head z) as (c & tl & Hz & Hc).
    rewrite Hz in Hnum |- *. cbn [app] in Hnum |- *.
    rewrite scan_once_number by exact Hc. exact Hnum.
  - cbn [iterencode scalar_strings] in Hs |- *. unfold encode_basestring_ascii.
    cbn [app scan_once]. change (QUOTE =? QUOTE) with true. cbv iota.
    rewrite <- app_assoc. cbn [app].
    rewrite scanstring_encoded by exact Hs. reflexivity.
  - destruct l as [ | x l ]; [ reflexivity | ].
    rewrite iterencode_list in Hdepth |- * by discriminate.
    set (f := iterencode false (Some n) (S level)) in *.
    set (J := join (item_separator (Some n) ++ newline_indent (Some n) (S level))
                (map f (x :: l))) in *.
    rewrite <- !app_assoc. cbn [app scan_once].
    change (LBRACKET =? QUOTE) with false. change (LBRACKET =? LBRACE) with false.
    change (LBRACKET =? LBRACKET) with true. cbv iota.
    unfold JSONArray. rewrite skip_ws_newline_indent.
    assert (starts_token (J ++ newline_indent (Some n) level ++ RBRACKET :: rest)
            = true) as Hstart.
    { unfold J. cbn [map]. apply starts_token_join. intros r.
      apply iterencode_starts_token. }
    rewrite (skip_ws_token _ Hstart).
    destruct (starts_token_cons _ Hstart) as (c & s' & Hbody & Hc & _).
    rewrite Hbody, Hc. rewrite <- Hbody.
    cbn [unique_keys scalar_strings] in Hu, Hs.
    rewrite forallb_forall in Hu, Hs. rewrite Forall_forall in IH.
    rewrite !length_app in Hdepth. cbn [length] in Hdepth.
    unfold J, item_separator. rewrite array_items_run.
    + reflexivity.
    + intros y r. apply iterencode_starts_token.
    + discriminate.
    + intros y Hy rest' Hrest'. apply IH; auto.
      assert (length (f y) <= length J)%nat as Hle
        by (apply join_length_ge; apply in_map; exact Hy).
      unfold f in Hle. lia.
    + rewrite !length_app.
      assert (length (x :: l) <= length J)%nat as Hle.
      { unfold J. rewrite <- (length_map f (x :: l)). apply join_length_items.
        apply Forall_forall. intros t Ht. apply in_map_iff in Ht.
        destruct Ht as [y [<- _]]. apply iterencode_nonempty. }
      unfold J, item_separator in Hle. lia.
  - destruct d as [ | kv d ]; [ reflexivity | ].
    rewrite iterencode_dict in Hdepth |- * by discriminate.
    cbv zeta in Hdepth |- *. rewrite map_map in Hdepth |- *.
    cbn [fst snd] in Hdepth |- *.
    set (f := iterencode false (Some n) (S level)) in *.
    set (g := fun kv0 : pystr * json =>
                encode_basestring_ascii (fst kv0) ++ key_separator ++ f (snd kv0))
      in *.
    set (J := join (item_separator (Some n) ++ newline_indent (Some n) (S level))
                (map g (kv :: d))) in *.
    rewrite <- !app_assoc. cbn [app scan_once].
    change (LBRACE =? QUOTE) with false. change (LBRACE =? LBRACE) with true.
    cbv iota.
    unfold JSONObject. rewrite skip_ws_newline_indent.
    assert (starts_token (J ++ newline_indent (Some n) level ++ RBRACE :: rest)
            = true) as Hstart.
    { unfold J. cbn [map]. apply starts_token_join. intros r. reflexivity. }
    rewrite (skip_ws_token _ Hstart).
    destruct (starts_token_cons _ Hstart) as (c & s' & Hbody & _ & Hc).
    rewrite Hbody, Hc. rewrite <- Hbody.
    cbn [unique_keys scalar_strings] in Hu, Hs.
    apply andb_true_iff in Hu. destruct Hu as [Hkeys Hu].
    apply distinct_NoDup in Hkeys.
    rewrite forallb_forall in Hu, Hs. rewrite Forall_forall in IH.
    rewrite !length_app in Hdepth. cbn [length] in Hdepth.
    unfold J, item_separator, g. rewrite object_members_run.
    + rewrite dict_of_pairs_unique by exact Hkeys. reflexivity.
    + intros y r. apply iterencode_starts_token.
    + discriminate.
    + intros kv0 Hkv. specialize (Hs _ Hkv). apply andb_true_iff in Hs.
      destruct Hs as [Hk _]. exact Hk.
    + intros kv0 Hkv rest' Hrest'. apply IH; auto.
      * specialize (Hs _ Hkv). apply andb_true_iff in Hs.
        destruct Hs as [_ Hv]. exact Hv.
      * assert (length (g kv0) <= length J)%nat as Hle
          by (apply join_length_ge; apply in_map; exact Hkv).
        unfold g in Hle. rewrite !length_app in Hle. unfold f in Hle. lia.
    + rewrite !length_app.
      assert (length (kv :: d) <= length J)%nat as Hle.
      { unfold J. rewrite <- (length_map g (kv :: d)). apply join_length_items.
        apply Forall_forall. intros t Ht. apply in_map_iff in Ht.
        destruct Ht as [y [<- _]]. unfold g, encode_basestring_ascii.
        cbn [app length]. lia. }
      unfold J, item_separator, g in Hle. lia.
Qed.

(* ================================================================= *)
(** * The canonical form of a value *)

Lemma NoDup_distinct (l : list pystr) : NoDup l -> distinct l = true.
Proof.
  induction 1 as [ | k l Hnotin _ IH ]; [ reflexivity | ].
  cbn [distinct]. rewrite IH, andb_true_r. apply negb_true_iff.
  destruct (existsb (pystr_eqb k) l) eqn:Hex; [ | reflexivity ].
  apply existsb_exists in Hex. destruct Hex as [k' [Hin Heq]].
  apply pystr_eqb_eq in Heq. subst k'. contradiction.
Qed.

Lemma insert_item_map {A B} (h : A -> B) (kv : pystr * A) (l : list (pystr * A)) :
  insert_item (fst kv, h (snd kv)) (map (fun x => (fst x, h (snd x))) l)
  = map (fun x => (fst x, h (snd x))) (insert_item kv l).
Proof.
  induction l as [ | kv' l IH ]; [ reflexivity | ].
  cbn [map insert_item fst]. destruct (pystr_leb (fst kv) (fst kv')).
  - reflexivity.
  - cbn [map]. rewrite <- IH. reflexivity.
Qed.

Lemma sorted_items_map {A B} (h : A -> B) (l : list (pystr * A)) :
  sorted_items (map (fun x => (fst x, h (snd x))) l)
  = map (fun x => (fst x, h (snd x))) (sorted_items l).
Proof.
  induction l as [ | kv l IH ]; [ reflexivity | ].
  cbn [map sorted_items fold_right].
  change (fold_right insert_item [] (map (fun x => (fst x, h (snd x))) l))
    with (sorted_items (map (fun x => (fst x, h (snd x))) l)).
  change (fold_right insert_item [] l) with (sorted_items l).
  rewrite IH. apply insert_item_map.
Qed.

Lemma sorted_items_nonempty {A} (l : list (pystr * A)) :
  l <> [] -> sorted_items l <> [].
Proof.
  intros Hl Hs. apply Hl. apply Permutation_nil.
  rewrite <- Hs. apply sorted_items_perm.
Qed.

Lemma sorted_items_keys (d : list (pystr * json)) :
  Permutation (dict_keys (sorted_items d)) (dict_keys d).
Proof. unfold dict_keys. apply Permutation_map, sorted_items_perm. Qed.

(** With sorted keys, the encoder writes a value as it writes the
    canonical form of the value in the order of its items. *)
Lemma iterencode_canonical (indent : option nat) (v : json) :
  forall level,
    iterencode true indent level v = iterencode false indent level (canonical v).
Proof.
  induction v as [ | b | z | s | l IH | d IH ] using json_induction; intros level;
    try reflexivity.
  - destruct l as [ | x l ]; [ reflexivity | ].
    cbn [canonical]. rewrite !iterencode_list by discriminate.
    assert (map (iterencode false indent (S level)) (map canonical (x :: l))
            = map (iterencode true indent (S level)) (x :: l)) as ->.
    { rewrite map_map. apply map_ext_in. intros y Hy.
      rewrite Forall_forall in IH. symmetry. apply IH. exact Hy. }
    reflexivity.
  - destruct d as [ | kv d ]; [ reflexivity | ].
    cbn [canonical].
    rewrite !iterencode_dict
      by (try apply sorted_items_nonempty; discriminate).
    cbv zeta.
    assert (map (fun kv0 : pystr * json =>
                   (fst kv0, iterencode false indent (S level) (snd kv0)))
              (sorted_items
                 (map (fun kv0 : pystr * json => (fst kv0, canonical (snd kv0)))
                    (kv :: d)))
            = sorted_items
                (map (fun kv0 : pystr * json =>
                        (fst kv0, iterencode true indent (S level) (snd kv0)))
                   (kv :: d))) as ->.
    { rewrite <- (sorted_items_map (iterencode false indent (S level))).
      rewrite map_map. cbn [fst snd]. f_equal.
      apply map_ext_in. intros y Hy. rewrite Forall_forall in IH.
      f_equal. symmetry. apply IH. exact Hy. }
    reflexivity.
Qed.

Lemma canonical_unique_keys (v : json) :
  unique_keys v = true -> unique_keys (canonical v) = true.
Proof.
  induction v as [ | b | z | s | l IH | d IH ] using json_induction;
    try (intros; reflexivity).
  - cbn [canonical unique_keys]. rewrite !forallb_forall, Forall_forall in *.
    intros Hu y Hy. apply in_map_iff in Hy. destruct Hy as [x [<- Hx]].
    apply IH; [ exact Hx | apply Hu; exact Hx ].
  - cbn [canonical unique_keys]. intros Hu. apply andb_true_iff in Hu.
    destruct Hu as [Hkeys Hu]. apply distinct_NoDup in Hkeys.
    rewrite forallb_forall in Hu. rewrite Forall_forall in IH.
    apply andb_true_iff. split.
    + apply NoDup_distinct.
      eapply Permutation_NoDup; [ apply Permutation_sym, sorted_items_keys | ].
      unfold dict_keys. rewrite map_map. exact Hkeys.
    + apply forallb_forall. intros y Hy.
      eapply Permutation_in in Hy; [ | apply sorted_items_perm ].
      apply in_map_iff in Hy. destruct Hy as [x [<- Hx]]. cbn [snd].
      apply IH; [ exact Hx | apply Hu; exact Hx ].
Qed.

Lemma canonical_scalar_strings (v : json) :
  scalar_strings v = true -> scalar_strings (canonical v) = true.
Proof.
  induction v as [ | b | z | s | l IH | d IH ] using json_induction;
    try (intros H; exact H).
  - cbn [canonical scalar_strings]. rewrite !forallb_forall, Forall_forall in *.
    intros Hs y Hy. apply in_map_iff in Hy. destruct Hy as [x [<- Hx]].
    apply IH; [ exact Hx | apply Hs; exact Hx ].
  - cbn [canonical scalar_strings]. rewrite !forallb_forall, Forall_forall in *.
    intros Hs y Hy.
    eapply Permutation_in in Hy; [ | apply sorted_items_perm ].
    apply in_map_iff in Hy. destruct Hy as [x [<- Hx]]. cbn [fst snd].
    specialize (Hs _ Hx). apply andb_true_iff in Hs. destruct Hs as [Hk Hv].
    apply andb_true_iff. split; [ exact Hk | apply IH; assumption ].
Qed.

Lemma strongly_sorted_ordered (d : list (pystr * json)) :
  StronglySorted (@key_le json) d -> ordered (dict_keys d) = true.
Proof.
  induction 1 as [ | kv d Hd IH Hall ]; [ reflexivity | ].
  destruct d as [ | kv' d ]; [ reflexivity | ].
  cbn [dict_keys map ordered] in IH |- *.
  inversion Hall as [ | ? ? Hle _ ]; subst. unfold key_le in Hle.
  rewrite Hle. exact IH.
Qed.

(** The keys of every dict of a canonical form are in order. *)
Lemma canonical_keys_ordered (v : json) : keys_ordered (canonical v) = true.
Proof.
  induction v as [ | b | z | s | l IH | d IH ] using json_induction;
    try reflexivity.
  - cbn [canonical keys_ordered]. rewrite forallb_forall. rewrite Forall_forall in IH.
    intros y Hy. apply in_map_iff in Hy. destruct Hy as [x [<- Hx]].
    apply IH. exact Hx.
  - cbn [canonical keys_ordered]. apply andb_true_iff. split.
    + apply strongly_sorted_ordered, sorted_items_sorted.
    + rewrite forallb_forall. rewrite Forall_forall in IH. intros y Hy.
      eapply Permutation_in in Hy; [ | apply sorted_items_perm ].
      apply in_map_iff in Hy. destruct Hy as [x [<- Hx]]. cbn [snd].
      apply IH. exact Hx.
Qed.

(* ================================================================= *)
(** * [json.loads] after [json.dumps] *)

Lemma json_loads_iterencode (n : nat) (v : json) :
  unique_keys v = true -> scalar_strings v = true ->
  json_loads (json_dumps false (Some n) v) = Ok v.
Proof.
  intros Hu Hs. unfold json_loads, json_dumps.
  set (text := iterencode false (Some n) 0 v).
  assert (skip_ws text = text ++ []) as ->.
  { rewrite app_nil_r. apply skip_ws_token.
    rewrite <- (app_nil_r text). apply iterencode_starts_token. }
  unfold text. rewrite scan_once_iterencode; auto.
Qed.

(** The text written with sorted keys is read back as the canonical
    form of the value. *)
Lemma json_loads_dumps (n : nat) (v : json) :
  unique_keys v = true -> scalar_strings v = true ->
  json_loads (json_dumps true (Some n) v) = Ok (canonical v).
Proof.
  intros Hu Hs. unfold json_dumps. rewrite iterencode_canonical.
  apply json_loads_iterencode.
  - apply canonical_unique_keys. exact Hu.
  - apply canonical_scalar_strings. exact Hs.
Qed.

(* ================================================================= *)
(** * A value and its canonical form are equal *)

Lemma value_eqb_list_intro (coerce : bool) (x y : list json) :
  Forall2 (fun a b => value_eqb coerce a b = true) x y ->
  value_eqb coerce (JList x) (JList y) = true.
Proof.
  induction 1 as [ | a b x y Hab _ IH ]; [ reflexivity | ].
  cbn [value_eqb] in IH |- *. rewrite Hab. exact IH.
Qed.

Lemma value_eqb_dict_intro (coerce : bool) (x y : list (pystr * json)) :
  length x = length y ->
  Forall (fun kv => exists v', dict_lookup (fst kv) y = Some v' /\
                               value_eqb coerce (snd kv) v' = true) x ->
  value_eqb coerce (JDict x) (JDict y) = true.
Proof.
  intros Hlen Hall. cbn [value_eqb]. apply andb_true_iff. split.
  - apply Nat.eqb_eq. exact Hlen.
  - clear Hlen. induction Hall as [ | [k v] x (v' & Hk & Hv) _ IH ];
      [ reflexivity | ].
    cbn [fst snd] in Hk, Hv. rewrite Hk, Hv. exact IH.
Qed.

Lemma same_value_canonical (v : json) :
  unique_keys v = true ->
  same_value (canonical v) v = true /\ same_value v (canonical v) = true.
Proof.
  unfold same_value.
  induction v as [ | b | z | s | l IH | d IH ] using json_induction; intros Hu.
  - split; reflexivity.
  - split; cbn [canonical value_eqb]; apply eqb_reflx.
  - split; cbn [canonical value_eqb]; apply Z.eqb_refl.
  - split; cbn [canonical value_eqb]; apply pystr_eqb_refl.
  - cbn [canonical unique_keys] in Hu |- *. rewrite forallb_forall in Hu.
    assert (Forall (fun x => value_eqb false (canonical x) x = true /\
                             value_eqb false x (canonical x) = true) l) as Hall.
    { rewrite Forall_forall in IH |- *. intros x Hx.
      apply IH; [ exact Hx | apply Hu; exact Hx ]. }
    clear IH Hu. split; apply value_eqb_list_intro.
    + induction Hall as [ | x l [Hx _] _ IHl ]; constructor; assumption.
    + induction Hall as [ | x l [_ Hx] _ IHl ]; constructor; assumption.
  - cbn [canonical unique_keys] in Hu |- *.
    apply andb_true_iff in Hu. destruct Hu as [Hkeys Hu].
    apply distinct_NoDup in Hkeys. rewrite forallb_forall in Hu.
    rewrite Forall_forall in IH.
    set (c := fun kv : pystr * json => (fst kv, canonical (snd kv))).
    assert (Permutation (sorted_items (map c d)) (map c d)) as Hperm
      by apply sorted_items_perm.
    assert (length (sorted_items (map c d)) = length d) as Hlen
      by (rewrite (Permutation_length Hperm); apply length_map).
    assert (NoDup (dict_keys (sorted_items (map c d)))) as Hkeys'.
    { eapply Permutation_NoDup; [ apply Permutation_sym, sorted_items_keys | ].
      unfold dict_keys, c. rewrite map_map. exact Hkeys. }
    split; apply value_eqb_dict_intro; try congruence.
    + apply Forall_forall. intros kv' Hin.
      eapply Permutation_in in Hin; [ | exact Hperm ].
      apply in_map_iff in Hin. destruct Hin as [[k v] [<- Hin]].
      exists v. cbn [c fst snd]. split.
      * apply dict_lookup_NoDup; assumption.
      * apply (IH _ Hin). apply (Hu _ Hin).
    + apply Forall_forall. intros [k v] Hin.
      exists (canonical v). cbn [fst snd]. split.
      * apply dict_lookup_NoDup; [ exact Hkeys' | ].
        eapply Permutation_in; [ apply Permutation_sym; exact Hperm | ].
        apply (in_map c) in Hin. exact Hin.
      * apply (IH _ Hin). apply (Hu _ Hin).
Qed.

(* ================================================================= *)
(** * Construct, render, decode *)

Lemma from_values_run (open_read : json -> result pystr) (now : Z)
  (v1 v2 v4 v5 v6 v7 v8 v9 v10 v11 v12 v13 v14 v15 : json) (st : state) :
  from_values open_read now v1 v2 v4 v5 v6 v7 v8 v9 v10 v11 v12 v13 v14 v15 st
  = (Ok tt,
     mkState (mkTRC v1 v2 (JInt now) v4 v5 v6 v7 v8 v9 v10 v11 v12 v13 v14 v15)
       (logged st) (opened st)).
Proof. reflexivity. Qed.

Lemma get_trc_dict_scalar_strings (t : TRC) (with_signatures : bool) :
  scalar_strings (JList (fields t)) = true ->
  scalar_strings (get_trc_dict t with_signatures) = true.
Proof.
  destruct t. intros H. simpl in H. split_andb.
  destruct with_signatures; simpl;
    repeat match goal with
           | Hv : scalar_strings _ = true |- _ => rewrite Hv; clear Hv
           end;
    reflexivity.
Qed.

(** The value that each key of the canonical form of the rendered dict
    holds. *)
Lemma canonical_trc_dict_items (t : TRC) :
  let trc := canonical (get_trc_dict t true) in
  py_getitem trc (JStr (str "isd_id")) = Ok (canonical (isd_id t)) /\
  py_getitem trc (JStr (str "version")) = Ok (canonical (version t)) /\
  py_getitem trc (JStr (str "time")) = Ok (canonical (time t)) /\
  py_getitem trc (JStr (str "core_quorum")) = Ok (canonical (core_quorum t)) /\
  py_getitem trc (JStr (str "trc_quorum")) = Ok (canonical (trc_quorum t)) /\
  py_getitem trc (JStr (str "core_isps")) = Ok (canonical (core_isps t)) /\
  py_getitem trc (JStr (str "root_cas")) = Ok (canonical (root_cas t)) /\
  py_getitem trc (JStr (str "core_ads")) = Ok (canonical (core_ads t)) /\
  py_getitem trc (JStr (str "policies")) = Ok (canonical (policies t)) /\
  py_getitem trc (JStr (str "registry_server_addr"))
  = Ok (canonical (registry_server_addr t)) /\
  py_getitem trc (JStr (str "registry_server_cert"))
  = Ok (canonical (registry_server_cert t)) /\
  py_getitem trc (JStr (str "root_dns_server_addr"))
  = Ok (canonical (root_dns_server_addr t)) /\
  py_getitem trc (JStr (str "root_dns_server_cert"))
  = Ok (canonical (root_dns_server_cert t)) /\
  py_getitem trc (JStr (str "trc_server_addr"))
  = Ok (canonical (trc_server_addr t)) /\
  py_getitem trc (JStr (str "signatures")) = Ok (canonical (signatures t)).
Proof. destruct t. repeat split; reflexivity. Qed.

Ltac parse_step H :=
  rewrite bind_run; unfold lift at 1; rewrite H;
  rewrite bind_run; unfold assign at 1; cbn [self logged opened].

(** [parse] on a file whose text loads to an object that has all the
    keys: every attribute is assigned, nothing is logged or raised. *)
Lemma parse_complete (open_read : json -> result pystr) (trc_file : json)
  (text : pystr) (trc : json)
  (v1 v2 v3 v4 v5 v6 v7 v8 v9 v10 v11 v12 v13 v14 v15 : json) (st : state) :
  open_read trc_file = Ok text ->
  json_load text = Ok trc ->
  py_getitem trc (JStr (str "isd_id")) = Ok v1 ->
  py_getitem trc (JStr (str "version")) = Ok v2 ->
  py_getitem trc (JStr (str "time")) = Ok v3 ->
  py_getitem trc (JStr (str "core_quorum")) = Ok v4 ->
  py_getitem trc (JStr (str "trc_quorum")) = Ok v5 ->
  py_getitem trc (JStr (str "core_isps")) = Ok v6 ->
  py_getitem trc (JStr (str "root_cas")) = Ok v7 ->
  py_getitem trc (JStr (str "core_ads")) = Ok v8 ->
  py_getitem trc (JStr (str "policies")) = Ok v9 ->
  py_getitem trc (JStr (str "registry_server_addr")) = Ok v10 ->
  py_getitem trc (JStr (str "registry_server_cert")) = Ok v11 ->
  py_getitem trc (JStr (str "root_dns_server_addr")) = Ok v12 ->
  py_getitem trc (JStr (str "root_dns_server_cert")) = Ok v13 ->
  py_getitem trc (JStr (str "trc_server_addr")) = Ok v14 ->
  py_getitem trc (JStr (str "signatures")) = Ok v15 ->
  parse open_read trc_file st
  = (Ok tt,
     mkState (mkTRC v1 v2 v3 v4 v5 v6 v7 v8 v9 v10 v11 v12 v13 v14 v15)
       (logged st) (opened st)).
Proof.
  intros Hopen Hload H1 H2 H3 H4 H5 H6 H7 H8 H9 H10 H11 H12 H13 H14 H15.
  unfold parse. rewrite bind_run. unfold try_except.
  rewrite bind_run. unfold lift at 1. rewrite Hopen.
  rewrite bind_run. unfold lift at 1. rewrite Hload.
  unfold ret at 1.
  parse_step H1. parse_step H2. parse_step H3. parse_step H4. parse_step H5.
  parse_step H6. parse_step H7. parse_step H8. parse_step H9. parse_step H10.
  parse_step H11. parse_step H12. parse_step H13. parse_step H14.
  rewrite bind_run. unfold lift at 1. rewrite H15. unfold assign.
  cbn [self logged opened]. destruct (self st). reflexivity.
Qed.

Lemma same_document_canonical (t : TRC) :
  unique_keys (JList (fields t)) = true ->
  same_document
    (mkTRC (canonical (isd_id t)) (canonical (version t)) (canonical (time t))
       (canonical (core_quorum t)) (canonical (trc_quorum t))
       (canonical (core_isps t)) (canonical (root_cas t))
       (canonical (core_ads t)) (canonical (policies t))
       (canonical (registry_server_addr t)) (canonical (registry_server_cert t))
       (canonical (root_dns_server_addr t)) (canonical (root_dns_server_cert t))
       (canonical (trc_server_addr t)) (canonical (signatures t))) t = true.
Proof.
  destruct t. intros H. simpl in H. split_andb.
  unfold same_document, same_value. simpl.
  repeat match goal with
         | Hu : unique_keys ?v = true |- _ =>
             let Hv := fresh "Hv" in
             pose proof (proj1 (same_value_canonical v Hu)) as Hv;
             unfold same_value in Hv; rewrite Hv; clear Hv Hu
         end.
  reflexivity.
Qed.

Ltac init_step :=
  rewrite bind_run; unfold assign at 1; cbn [self logged opened fst snd].

(** [TRC(trc_file)] on a file that holds the rendering of a document
    [t]. *)
Lemma init_parse_rendered (open_read : json -> result pystr) (trc_file : json)
  (t : TRC) (st : state) :
  unique_keys (JList (fields t)) = true ->
  scalar_strings (JList (fields t)) = true ->
  py_truth trc_file = true ->
  open_read trc_file = Ok (__str__ t) ->
  __init__ open_read trc_file st
  = (Ok tt,
     mkState
       (mkTRC (canonical (isd_id t)) (canonical (version t)) (canonical (time t))
          (canonical (core_quorum t)) (canonical (trc_quorum t))
          (canonical (core_isps t)) (canonical (root_cas t))
          (canonical (core_ads t)) (canonical (policies t))
          (canonical (registry_server_addr t))
          (canonical (registry_server_cert t))
          (canonical (root_dns_server_addr t))
          (canonical (root_dns_server_cert t))
          (canonical (trc_server_addr t)) (canonical (signatures t)))
       (logged st) (opened st)).
Proof.
  intros Hut Hst Htruth Hopen.
  assert (json_load (__str__ t) = Ok (canonical (get_trc_dict t true))) as Hload.
  { unfold json_load, __str__. apply json_loads_dumps.
    - apply get_trc_dict_unique_keys. exact Hut.
    - apply get_trc_dict_scalar_strings. exact Hst. }
  destruct (canonical_trc_dict_items t)
    as (H1 & H2 & H3 & H4 & H5 & H6 & H7 & H8 & H9 & H10 & H11 & H12 & H13
        & H14 & H15).
  cbv zeta in H1, H2, H3, H4, H5, H6, H7, H8, H9, H10, H11, H12, H13, H14, H15.
  unfold __init__.
  do 15 init_step.
  rewrite Htruth.
  erewrite parse_complete; try eassumption.
  reflexivity.
Qed.

(** C9: a document is constructed from field values ([from_values]),
    rendered with its signatures ([__str__]), the text is stored in a
    file and decoded from it ([TRC(trc_file)], which runs [parse]).
    When the dicts of the values have distinct keys and their strings
    are made of Unicode scalar values, the decoding raises and logs
    nothing, and the decoded document has in every field the value of
    the constructed one, with the items of each dict in the order of
    their keys: the two documents are equal field by field. *)
Theorem from_values_str_parse_round_trip
  (open_read : json -> result pystr) (now : Z)
  (isd_id version core_quorum trc_quorum core_isps root_cas core_ads policies
     registry_server_addr registry_server_cert root_dns_server_addr
     root_dns_server_cert trc_server_addr signatures : json)
  (trc_file : json) (st st' : state) :
  let values :=
    [isd_id; version; core_quorum; trc_quorum; core_isps; root_cas; core_ads;
     policies; registry_server_addr; registry_server_cert; root_dns_server_addr;
     root_dns_server_cert; trc_server_addr; signatures] in
  let constructed :=
    from_values open_read now isd_id version core_quorum trc_quorum core_isps
      root_cas core_ads policies registry_server_addr registry_server_cert
      root_dns_server_addr root_dns_server_cert trc_server_addr signatures st in
  let decoded := __init__ open_read trc_file st' in
  unique_keys (JList values) = true ->
  scalar_strings (JList values) = true ->
  py_truth trc_file = true ->
  open_read trc_file = Ok (__str__ (self (snd constructed))) ->
  fst constructed = Ok tt /\
  fields (self (snd constructed))
  = [isd_id; version; JInt now; core_quorum; trc_quorum; core_isps; root_cas;
     core_ads; policies; registry_server_addr; registry_server_cert;
     root_dns_server_addr; root_dns_server_cert; trc_server_addr; signatures] /\
  fst decoded = Ok tt /\
  logged (snd decoded) = logged st' /\
  fields (self (snd decoded)) = map canonical (fields (self (snd constructed))) /\
  same_document (self (snd decoded)) (self (snd constructed)) = true.
Proof.
  intros values constructed decoded Hu Hs Htruth Hopen.
  unfold constructed in *. rewrite from_values_run in *. cbn [fst snd self] in *.
  set (t := mkTRC isd_id version (JInt now) core_quorum trc_quorum core_isps
              root_cas core_ads policies registry_server_addr
              registry_server_cert root_dns_server_addr root_dns_server_cert
              trc_server_addr signatures) in *.
  assert (unique_keys (JList (fields t)) = true) as Hut.
  { unfold values in Hu. simpl in Hu. split_andb. simpl.
    repeat match goal with
           | Hv : unique_keys _ = true |- _ => rewrite Hv; clear Hv
           end.
    reflexivity. }
  assert (scalar_strings (JList (fields t)) = true) as Hst.
  { unfold values in Hs. simpl in Hs. split_andb. simpl.
    repeat match goal with
           | Hv : scalar_strings _ = true |- _ => rewrite Hv; clear Hv
           end.
    reflexivity. }
  assert (fields t = [isd_id; version; JInt now; core_quorum; trc_quorum;
                       core_isps; root_cas; core_ads; policies;
                       registry_server_addr; registry_server_cert;
                       root_dns_server_addr; root_dns_server_cert;
                       trc_server_addr; signatures]) as Hfields by reflexivity.
  unfold decoded.
  rewrite (@init_parse_rendered open_read trc_file t st' Hut Hst Htruth Hopen).
  cbn [fst snd self logged].
  split; [ reflexivity | ]. split; [ exact Hfields | ].
  split; [ reflexivity | ]. split; [ reflexivity | ].
  split; [ reflexivity | ].
  apply (@same_document_canonical t Hut).
Qed.

Lemma from_values_str_parse_round_trip_witness :
  same_document
    (self (snd (__init__ Sample.files (JStr (str "trc.json"))
                  (Sample.initial Sample.blank))))
    (self (snd (Sample.construct Sample.files))) = true.
Proof.
  pose proof (@from_values_str_parse_round_trip Sample.files 1400000000
           (JInt 1) (JInt 2) (JInt 2) (JInt 1) (JDict []) (JDict [])
           (JDict [(str "AD2", Sample.cert2); (str "AD1", Sample.cert1)])
           (JDict [(str "b", JList [JInt (-1); JBool true; JNull]);
                   (str "a", JStr [233; 0x1F600; 10])])
           (JStr (str "192.0.2.1")) (JStr []) (JStr (str "192.0.2.2")) (JStr [])
           (JStr (str "192.0.2.3"))
           (JDict [(str "AD1", Sample.sig1)])
           (JStr (str "trc.json"))
           (Sample.initial Sample.blank) (Sample.initial Sample.blank)) as H.
  cbv zeta in H.
  lapply H; [ clear H; intros H | vm_compute; reflexivity ].
  lapply H; [ clear H; intros H | vm_compute; reflexivity ].
  lapply H; [ clear H; intros H | vm_compute; reflexivity ].
  lapply H; [ clear H; intros H | vm_compute; reflexivity ].
  destruct H as (_ & _ & _ & _ & _ & H). exact H.
Defined.

(* ================================================================= *)
(** * The bytes that [verify] submits *)

Section SubmittedBytes.

Variable crypto_sign_ed25519_open : pybytes -> str_or_bytes -> result pybytes.
Variable standard_b64decode : pybytes -> result pybytes.

Local Abbreviation certificate_key := (certificate_key standard_b64decode).
Local Abbreviation signature_bytes := (signature_bytes standard_b64decode).
Local Abbreviation signature_valid :=
  (signature_valid crypto_sign_ed25519_open standard_b64decode).
Local Abbreviation loop_run := (loop_run crypto_sign_ed25519_open standard_b64decode).
Local Abbreviation get_public_key := (get_public_key standard_b64decode).
Local Abbreviation verify := (verify crypto_sign_ed25519_open standard_b64decode).

(** A run that returns [True] has called the primitive for every
    signer. *)
Lemma loop_run_true_calls (t : TRC) (data : pybytes) signers r calls logs :
  loop_run t data signers r calls logs ->
  r = Ok true -> length calls = length signers.
Proof.
  induction 1; intros Hr; try discriminate; cbn [length]; auto.
Qed.

Lemma signature_bytes_steps (t : TRC) (signer : json) (raw : pybytes) :
  signature_bytes t signer = Ok raw ->
  exists sig64 sig_ascii,
    py_getitem (signatures t) signer = Ok sig64 /\
    py_encode_ascii sig64 = Ok sig_ascii /\
    standard_b64decode sig_ascii = Ok raw.
Proof.
  unfold signature_bytes.
  destruct (py_getitem (signatures t) signer) as [sig64 | e] eqn:H1;
    cbn [and_then]; [ | discriminate ].
  destruct (py_encode_ascii sig64) as [sig_ascii | e] eqn:H2; cbn [and_then];
    [ | discriminate ].
  intros H3. exists sig64, sig_ascii. repeat split; assumption.
Qed.

(** A result of [get_public_key] that is a key was computed from the
    certificate of a subject of [core_ads]. *)
Lemma get_public_key_bytes (subject : json) (st : state) (public_key : pybytes) :
  get_public_key subject st = (Ok (IsBytes public_key), st) ->
  py_contains (core_ads (self st)) subject = Ok true /\
  certificate_key (self st) subject = Ok public_key.
Proof.
  destruct (py_contains (core_ads (self st)) subject) as [[ | ] | e] eqn:Hc.
  - rewrite (get_public_key_present _ _ _ Hc).
    destruct (certificate_key (self st) subject) as [k | e]; cbn [and_then];
      intros H; [ | discriminate ].
    injection H as ->. split; reflexivity.
  - rewrite (get_public_key_absent _ _ _ Hc). discriminate.
  - rewrite (get_public_key_raises_contains _ _ _ Hc). discriminate.
Qed.

(** A signer whose checks pass is submitted, when the signers before
    it were accepted: its call is the one at its position. *)
Lemma loop_run_submits (t : TRC) (data : pybytes) signers r calls logs :
  loop_run t data signers r calls logs ->
  forall before signer after public_key sig_to_verify,
    signers = before ++ signer :: after ->
    Forall (signature_valid t data) before ->
    py_contains (core_ads t) signer = Ok true ->
    certificate_key t signer = Ok public_key ->
    signature_bytes t signer = Ok sig_to_verify ->
    nth_error calls (length before)
    = Some (sig_to_verify ++ data, IsBytes public_key).
Proof.
  induction 1 as [ | signer0 rest e Hc | signer0 rest Hc | signer0 rest e Hc Hk
                 | signer0 rest pk e Hc Hk Hs | signer0 rest pk raw e Hc Hk Hs Hv
                 | signer0 rest pk raw m r calls logs Hc Hk Hs Hv Hrun IH ];
    intros before signer after public_key sig_to_verify Heq Hvalid Hc' Hk' Hs';
    destruct before as [ | b before ]; cbn [app] in Heq; try discriminate;
    injection Heq as Hhead Htail; subst signer0;
    try (inversion Hvalid
           as [ | ? ? [Hcb (pkb & rawb & mb & Hkb & Hsb & Hvb)] Hrest ]; subst);
    try congruence.
  - rewrite Hk in Hk'. rewrite Hs in Hs'.
    injection Hk' as ->. injection Hs' as ->. reflexivity.
  - rewrite Hk in Hk'. rewrite Hs in Hs'.
    injection Hk' as ->. injection Hs' as ->. reflexivity.
  - cbn [length nth_error]. apply (IH before signer after); try assumption.
    reflexivity.
Qed.

(** C1: the canonical message of a document is the dict of its
    fourteen attributes other than [signatures], serialized with
    sorted keys and an indent of 4 -- the text that is written, in the
    order of its items, for the canonical form of the dict, whose keys
    are in order at every level, and from which that canonical form is
    read back -- and encoded as ASCII, which never fails.  Every call
    of the primitive that [verify] makes is, in the order of the
    [signatures] map, for a signer: the base64-decoded signature of
    the signer followed by this message, with the key that
    [get_public_key] returns for the signer.  Every signer for which
    [get_public_key] returns a key and whose signature decodes is
    submitted in this way, at its position, when the signers before it
    were accepted; when [verify] returns [True], every signer has been
    submitted. *)
Theorem verify_submits_signature_then_message (st : state) :
  exists data calls,
    get_trc_dict (self st) false
    = JDict [ (str "isd_id", isd_id (self st));
              (str "version", version (self st));
              (str "time", time (self st));
              (str "core_quorum", core_quorum (self st));
              (str "trc_quorum", trc_quorum (self st));
              (str "core_isps", core_isps (self st));
              (str "root_cas", root_cas (self st));
              (str "core_ads", core_ads (self st));
              (str "policies", policies (self st));
              (str "registry_server_addr", registry_server_addr (self st));
              (str "registry_server_cert", registry_server_cert (self st));
              (str "root_dns_server_addr", root_dns_server_addr (self st));
              (str "root_dns_server_cert", root_dns_server_cert (self st));
              (str "trc_server_addr", trc_server_addr (self st)) ] /\
    encode_ascii (json_dumps true (Some 4%nat) (get_trc_dict (self st) false))
    = Ok data /\
    map Byte.to_N data
    = json_dumps true (Some 4%nat) (get_trc_dict (self st) false) /\
    Forall (fun b => Byte.to_N b < 128) data /\
    json_dumps true (Some 4%nat) (get_trc_dict (self st) false)
    = json_dumps false (Some 4%nat) (canonical (get_trc_dict (self st) false)) /\
    keys_ordered (canonical (get_trc_dict (self st) false)) = true /\
    (unique_keys (JList (fields (self st))) = true ->
     scalar_strings (JList (fields (self st))) = true ->
     json_loads (map Byte.to_N data)
     = Ok (canonical (get_trc_dict (self st) false))) /\
    (forall v,
       get_trc_dict (set_signatures v (self st)) false
       = get_trc_dict (self st) false) /\
    py_getitem (get_trc_dict (self st) false) (JStr (str "signatures"))
    = Raise (KeyError (JStr (str "signatures"))) /\
    opened (snd (verify st)) = opened st ++ calls /\
    match py_iter (signatures (self st)) with
    | Raise _ => calls = []
    | Ok signers =>
        (exists checked rest,
           signers = checked ++ rest /\
           (fst (verify st) = Ok true -> rest = []) /\
           Forall2
             (fun signer call =>
                exists sig64 sig_ascii sig_to_verify public_key,
                  py_getitem (signatures (self st)) signer = Ok sig64 /\
                  py_encode_ascii sig64 = Ok sig_ascii /\
                  standard_b64decode sig_ascii = Ok sig_to_verify /\
                  get_public_key signer st = (Ok (IsBytes public_key), st) /\
                  call = (sig_to_verify ++ data, IsBytes public_key))
             checked calls) /\
        (forall before signer after sig64 sig_ascii sig_to_verify public_key,
           signers = before ++ signer :: after ->
           Forall (signature_valid (self st) data) before ->
           get_public_key signer st = (Ok (IsBytes public_key), st) ->
           py_getitem (signatures (self st)) signer = Ok sig64 ->
           py_encode_ascii sig64 = Ok sig_ascii ->
           standard_b64decode sig_ascii = Ok sig_to_verify ->
           nth_error calls (length before)
           = Some (sig_to_verify ++ data, IsBytes public_key))
    end.
Proof.
  destruct (verify_outcome crypto_sign_ed25519_open standard_b64decode st)
    as [data [Hdata Hrun]].
  destruct (encode_ascii_bytes _ Hdata) as [Hbytes Hascii].
  assert (exists calls,
            opened (snd (verify st)) = opened st ++ calls /\
            match py_iter (signatures (self st)) with
            | Raise _ => calls = []
            | Ok signers =>
                (exists checked rest,
                   signers = checked ++ rest /\
                   (fst (verify st) = Ok true -> rest = []) /\
                   Forall2
                     (fun signer call =>
                        exists sig64 sig_ascii sig_to_verify public_key,
                          py_getitem (signatures (self st)) signer = Ok sig64 /\
                          py_encode_ascii sig64 = Ok sig_ascii /\
                          standard_b64decode sig_ascii = Ok sig_to_verify /\
                          get_public_key signer st = (Ok (IsBytes public_key), st) /\
                          call = (sig_to_verify ++ data, IsBytes public_key))
                     checked calls) /\
                (forall before signer after sig64 sig_ascii sig_to_verify
                        public_key,
                   signers = before ++ signer :: after ->
                   Forall (signature_valid (self st) data) before ->
                   get_public_key signer st = (Ok (IsBytes public_key), st) ->
                   py_getitem (signatures (self st)) signer = Ok sig64 ->
                   py_encode_ascii sig64 = Ok sig_ascii ->
                   standard_b64decode sig_ascii = Ok sig_to_verify ->
                   nth_error calls (length before)
                   = Some (sig_to_verify ++ data, IsBytes public_key))
            end) as [calls [Hopened Hcalls]].
  { destruct Hrun as [(e & Hiter & Hv) | Hrun].
    - exists []. rewrite Hv, Hiter, app_nil_r. split; reflexivity.
    - destruct Hrun as (signers & r & calls & logs & Hiter & Hv & Hloop).
      exists calls. rewrite Hv, Hiter. cbn [fst snd opened].
      split; [ reflexivity | ]. split.
      + destruct (loop_run_calls Hloop) as (checked & rest & Heq & Hall).
        exists checked, rest. split; [ exact Heq | ]. split.
        * intros Hr. pose proof (loop_run_true_calls Hloop Hr) as Hlen.
          pose proof (Forall2_length Hall) as Hlen'.
          rewrite Heq, length_app in Hlen.
          destruct rest; [ reflexivity | ]. cbn [length] in Hlen. exfalso.
          unfold pybytes in *. lia.
        * eapply Forall2_impl; [ | exact Hall ].
          intros signer call (Hc & pk & raw & Hk & Hs & Hcall).
          destruct (signature_bytes_steps _ _ Hs)
            as (sig64 & sig_ascii & H1 & H2 & H3).
          exists sig64, sig_ascii, raw, pk. repeat split; try assumption.
          rewrite (get_public_key_present _ _ _ Hc). rewrite Hk. reflexivity.
      + intros before signer after sig64 sig_ascii raw pk Heq Hvalid Hkey
               H1 H2 H3.
        destruct (@get_public_key_bytes _ _ _ Hkey) as [Hc Hk].
        apply (@loop_run_submits _ _ _ _ _ _ Hloop before signer after);
          try assumption.
        unfold signature_bytes. rewrite H1. cbn [and_then]. rewrite H2.
        cbn [and_then]. exact H3. }
  exists data, calls.
  split; [ destruct (self st); reflexivity | ].
  split; [ exact Hdata | ]. split; [ exact Hbytes | ].
  split.
  { rewrite <- Hbytes in Hascii. unfold ascii_only in Hascii.
    rewrite Forall_map in Hascii. exact Hascii. }
  split; [ apply iterencode_canonical | ].
  split; [ apply canonical_keys_ordered | ].
  split.
  { intros Hu Hs. rewrite Hbytes. apply json_loads_dumps.
    - apply get_trc_dict_unique_keys, Hu.
    - apply get_trc_dict_scalar_strings, Hs. }
  split; [ intros v; destruct (self st); reflexivity | ].
  split; [ destruct (self st); reflexivity | ].
  split; [ exact Hopened | exact Hcalls ].
Qed.

End SubmittedBytes.

(** On the sample document signed by its two core ADs, [verify]
    submits for each the four bytes of its signature followed by the
    canonical message. *)
Example verify_submits_sample :
  exists message,
    encode_ascii (json_dumps true (Some 4%nat)
                    (get_trc_dict Sample.signed_by_two false)) = Ok message /\
    opened (snd (Sample.verify (Sample.initial Sample.signed_by_two)))
    = [(["K"; "E"; "Y"; "1"]%byte ++ message, IsBytes ["K"; "E"; "Y"; "1"]%byte);
       (["K"; "E"; "Y"; "2"]%byte ++ message, IsBytes ["K"; "E"; "Y"; "2"]%byte)].
Proof.
  eexists. split; vm_compute; reflexivity.
Qed.

(* ================================================================= *)
(** * What [verify] and [get_public_key] leave behind *)

Section Effects.

Variable crypto_sign_ed25519_open : pybytes -> str_or_bytes -> result pybytes.
Variable standard_b64decode : pybytes -> result pybytes.

Local Abbreviation certificate_key := (certificate_key standard_b64decode).
Local Abbreviation loop_run := (loop_run crypto_sign_ed25519_open standard_b64decode).
Local Abbreviation get_public_key := (get_public_key standard_b64decode).
Local Abbreviation verify := (verify crypto_sign_ed25519_open standard_b64decode).

Lemma loop_run_outcome_logs (t : TRC) (data : pybytes) signers r calls logs :
  loop_run t data signers r calls logs ->
  match r with
  | Ok true => logs = []
  | Ok false => logs = [could_not_be_verified] \/ logs = [is_not_valid]
  | Raise _ => logs = []
  end.
Proof.
  induction 1; try reflexivity; try assumption; [ left | right ]; reflexivity.
Qed.

(** X1: [verify] never changes the document.  It logs nothing when it
    returns [True] or raises, and exactly one warning, one of its own
    two, when it returns [False]. *)
Theorem verify_keeps_document (st : state) :
  self (snd (verify st)) = self st /\
  (fst (verify st) = Ok true -> logged (snd (verify st)) = logged st) /\
  (fst (verify st) = Ok false ->
   logged (snd (verify st)) = logged st ++ [could_not_be_verified] \/
   logged (snd (verify st)) = logged st ++ [is_not_valid]) /\
  (forall e, fst (verify st) = Raise e -> logged (snd (verify st)) = logged st).
Proof.
  destruct (verify_outcome crypto_sign_ed25519_open standard_b64decode st)
    as [data [_ [(e & _ & Hv) | Hrun]]].
  - rewrite Hv. cbn [fst snd]. split; [ reflexivity | ].
    split; [ discriminate | ]. split; [ discriminate | ]. reflexivity.
  - destruct Hrun as (signers & r & calls & logs & _ & Hv & Hloop).
    rewrite Hv. cbn [fst snd self logged].
    pose proof (loop_run_outcome_logs Hloop) as Hlogs.
    split; [ reflexivity | ]. repeat split.
    + intros ->. rewrite Hlogs. apply app_nil_r.
    + intros ->. destruct Hlogs as [-> | ->]; [ left | right ]; reflexivity.
    + intros e ->. rewrite Hlogs. apply app_nil_r.
Qed.

(** X2: [get_public_key] never changes the document and never calls
    the signature primitive.  It returns the empty string, with its
    warning logged, exactly for a subject that is not in [core_ads];
    for a subject of [core_ads] it logs nothing and returns the bytes
    decoded from the certificate or raises the error of the decoding;
    and it raises the error of the membership test when the subject
    cannot be looked up. *)
Theorem get_public_key_result (subject : json) (st : state) :
  self (snd (get_public_key subject st)) = self st /\
  opened (snd (get_public_key subject st)) = opened st /\
  match py_contains (core_ads (self st)) subject with
  | Ok false =>
      get_public_key subject st = (Ok (IsStr []), add_log WARNING (snd could_not_be_found) st)
  | Ok true =>
      match certificate_key (self st) subject with
      | Ok public_key => get_public_key subject st = (Ok (IsBytes public_key), st)
      | Raise e => get_public_key subject st = (Raise e, st)
      end
  | Raise e => get_public_key subject st = (Raise e, st)
  end.
Proof.
  destruct (py_contains (core_ads (self st)) subject) as [[ | ] | e] eqn:Hc.
  - rewrite (get_public_key_present _ _ _ Hc).
    destruct (certificate_key (self st) subject); repeat split; reflexivity.
  - rewrite (get_public_key_absent _ _ _ Hc). repeat split; reflexivity.
  - rewrite (get_public_key_raises_contains _ _ _ Hc). repeat split; reflexivity.
Qed.

(** X3: [parse] checks no types, so [signatures] can hold [None], a
    [bool] or an [int]; [verify] then raises [TypeError] from its
    [for] statement: it returns no verdict, logs nothing and calls the
    primitive for nothing. *)
Theorem verify_signatures_not_iterable (st : state) :
  match signatures (self st) with
  | JNull | JBool _ | JInt _ => True
  | _ => False
  end ->
  verify st = (Raise TypeError, st).
Proof.
  intros Htype.
  destruct (verify_outcome crypto_sign_ed25519_open standard_b64decode st)
    as [data [_ [(e & Hiter & Hv) | Hrun]]].
  - rewrite Hv. destruct (signatures (self st)); try contradiction;
      inversion Hiter; reflexivity.
  - destruct Hrun as (signers & r & calls & logs & Hiter & _).
    destruct (signatures (self st)); try contradiction; discriminate.
Qed.

End Effects.

Lemma verify_signatures_not_iterable_witness :
  Sample.verify (Sample.initial (set_signatures JNull Sample.signed_by_two))
  = (Raise TypeError, Sample.initial (set_signatures JNull Sample.signed_by_two)).
Proof.
  apply (@verify_signatures_not_iterable Sample.crypto_sign_ed25519_open
           Sample.standard_b64decode
           (Sample.initial (set_signatures JNull Sample.signed_by_two))).
  exact I.
Defined.

(* ================================================================= *)
(** * How [parse] and the constructor end *)

Section ParseOutcomes.

Variable open_read : json -> result pystr.

(** After the file is loaded, [parse] is the assignment of the
    attributes in their order. *)
Lemma parse_loaded (trc_file : json) (text : pystr) (trc : json) (st : state) :
  open_read trc_file = Ok text ->
  json_load text = Ok trc ->
  parse open_read trc_file st = assign_items trc attribute_order st.
Proof.
  intros Hopen Hload.
  unfold parse. rewrite bind_run. unfold try_except.
  rewrite bind_run. unfold lift at 1. rewrite Hopen.
  rewrite bind_run. unfold lift at 1. rewrite Hload.
  reflexivity.
Qed.

Lemma parse_not_loaded (trc_file : json) (e : exn) (st : state) :
  open_read trc_file = Raise e \/
  (exists text, open_read trc_file = Ok text /\ json_load text = Raise e) ->
  parse open_read trc_file st
  = if existsb (isinstance e) [CValueError; CKeyError; CTypeError]
    then (Ok tt, add_log ERROR (str "TRC: JSON format error.") st)
    else (Raise e, st).
Proof.
  intros [Hopen | (text & Hopen & Hload)];
    unfold parse; rewrite bind_run; unfold try_except;
    rewrite bind_run; unfold lift at 1; rewrite Hopen.
  - destruct (existsb (isinstance e) [CValueError; CKeyError; CTypeError]);
      reflexivity.
  - rewrite bind_run. unfold lift at 1. rewrite Hload.
    destruct (existsb (isinstance e) [CValueError; CKeyError; CTypeError]);
      reflexivity.
Qed.

Lemma init_run (trc_file : json) (st : state) :
  __init__ open_read trc_file st
  = if py_truth trc_file
    then parse open_read trc_file (mkState defaults (logged st) (opened st))
    else (Ok tt, mkState defaults (logged st) (opened st)).
Proof.
  unfold __init__. do 15 init_step.
  destruct (self st). destruct (py_truth trc_file); reflexivity.
Qed.

Lemma assign_items_missing (items : list (pystr * json))
  (name : pystr) (setter : json -> TRC -> TRC)
  (after : list (pystr * (json -> TRC -> TRC))) :
  dict_lookup name items = None ->
  forall before st,
    Forall (fun a => dict_lookup (fst a) items <> None) before ->
    assign_items (JDict items) (before ++ (name, setter) :: after) st
    = (Raise (KeyError (JStr name)),
       mkState (assigned items before (self st)) (logged st) (opened st)).
Proof.
  intros Hmissing. induction before as [ | [n s] before IH ]; intros st Hall.
  - cbn [app assign_items]. rewrite bind_run. unfold lift at 1.
    unfold py_getitem. rewrite Hmissing. cbn [assigned fold_left].
    rewrite state_eta. reflexivity.
  - inversion Hall as [ | ? ? Hn Hall' ]; subst. cbn [fst] in Hn.
    cbn [app assign_items]. rewrite bind_run. unfold lift at 1.
    unfold py_getitem at 1.
    destruct (dict_lookup n items) as [v | ] eqn:Hv; [ | congruence ].
    destruct (before ++ (name, setter) :: after) eqn:Hrest;
      [ destruct before; discriminate | ].
    cbv iota. rewrite <- Hrest in *. rewrite bind_run. unfold assign at 1.
    rewrite IH by exact Hall'.
    cbn [self logged opened assigned fold_left fst snd]. rewrite Hv. reflexivity.
Qed.

(** X4: when the file cannot be opened or its text cannot be loaded,
    [parse] assigns nothing.  An error of the classes in its [except]
    clause ([ValueError] and its subclasses, [KeyError], [TypeError])
    is logged as a format error and [parse] returns normally; any other
    error, such as the [OSError] of a missing file, is raised to the
    caller and nothing is logged. *)
Theorem parse_load_failure (trc_file : json) (e : exn) (st : state) :
  open_read trc_file = Raise e \/
  (exists text, open_read trc_file = Ok text /\ json_load text = Raise e) ->
  self (snd (parse open_read trc_file st)) = self st /\
  (existsb (isinstance e) [CValueError; CKeyError; CTypeError] = true ->
   parse open_read trc_file st
   = (Ok tt, add_log ERROR (str "TRC: JSON format error.") st)) /\
  (existsb (isinstance e) [CValueError; CKeyError; CTypeError] = false ->
   parse open_read trc_file st = (Raise e, st)).
Proof.
  intros Hfail. rewrite (@parse_not_loaded trc_file e st Hfail).
  destruct (existsb (isinstance e) [CValueError; CKeyError; CTypeError]);
    repeat split; try discriminate; reflexivity.
Qed.

(** X5: when the text of the file is JSON but not an object (a list, a
    string, a number, [true], [false] or [null]), [parse] raises the
    [TypeError] of its first lookup to the caller, which its [except]
    clause does not cover; nothing is assigned or logged. *)
Theorem parse_not_an_object (trc_file : json) (text : pystr) (trc : json)
  (st : state) :
  open_read trc_file = Ok text ->
  json_load text = Ok trc ->
  match trc with JDict _ => False | _ => True end ->
  parse open_read trc_file st = (Raise TypeError, st).
Proof.
  intros Hopen Hload Hshape. rewrite (@parse_loaded trc_file text _ st Hopen Hload).
  cbn [attribute_order assign_items]. rewrite bind_run. unfold lift at 1.
  destruct trc; try contradiction; reflexivity.
Qed.

(** X6: when the object loaded from the file lacks a key, [parse]
    raises the [KeyError] of the first missing key in its order of
    assignment, logs nothing, and leaves the instance with exactly the
    attributes before that key assigned from the file and the others
    as they were. *)
Theorem parse_first_missing_key (trc_file : json) (text : pystr)
  (items : list (pystr * json))
  (before : list (pystr * (json -> TRC -> TRC)))
  (name : pystr) (setter : json -> TRC -> TRC)
  (after : list (pystr * (json -> TRC -> TRC))) (st : state) :
  open_read trc_file = Ok text ->
  json_load text = Ok (JDict items) ->
  attribute_order = before ++ (name, setter) :: after ->
  Forall (fun a => dict_lookup (fst a) items <> None) before ->
  dict_lookup name items = None ->
  parse open_read trc_file st
  = (Raise (KeyError (JStr name)),
     mkState (assigned items before (self st)) (logged st) (opened st)).
Proof.
  intros Hopen Hload Horder Hbefore Hmissing.
  rewrite (@parse_loaded trc_file text _ st Hopen Hload). rewrite Horder.
  apply assign_items_missing; assumption.
Qed.

End ParseOutcomes.

Lemma parse_load_failure_witness :
  self (snd (parse Sample.open_read (JStr (str "missing")) (Sample.initial Sample.signed_by_two)))
  = self (Sample.initial Sample.signed_by_two) /\
  (existsb (isinstance OSError) [CValueError; CKeyError; CTypeError] = true ->
   parse Sample.open_read (JStr (str "missing")) (Sample.initial Sample.signed_by_two)
   = (Ok tt, add_log ERROR (str "TRC: JSON format error.")
               (Sample.initial Sample.signed_by_two))) /\
  (existsb (isinstance OSError) [CValueError; CKeyError; CTypeError] = false ->
   parse Sample.open_read (JStr (str "missing")) (Sample.initial Sample.signed_by_two)
   = (Raise OSError, Sample.initial Sample.signed_by_two)).
Proof.
  apply (@parse_load_failure Sample.open_read (JStr (str "missing")) OSError
           (Sample.initial Sample.signed_by_two)).
  left. reflexivity.
Defined.

Lemma parse_not_an_object_witness :
  parse (Sample.always (str "[1, 2]")) (JStr (str "list.trc"))
    (Sample.initial Sample.signed_by_two)
  = (Raise TypeError, Sample.initial Sample.signed_by_two).
Proof.
  apply (@parse_not_an_object (Sample.always (str "[1, 2]"))
           (JStr (str "list.trc")) (str "[1, 2]") (JList [JInt 1; JInt 2])
           (Sample.initial Sample.signed_by_two)).
  - reflexivity.
  - vm_compute. reflexivity.
  - exact I.
Defined.

Lemma parse_first_missing_key_witness :
  parse
    (Sample.always
       (json_dumps false None
          (JDict [(str "version", JInt 7); (str "isd_id", JInt 3);
                  (str "time", JInt 5)])))
    (JStr (str "short.trc")) (Sample.initial Sample.signed_by_two)
  = (Raise (KeyError (JStr (str "core_quorum"))),
     mkState
       (set_time (JInt 5)
          (set_version (JInt 7) (set_isd_id (JInt 3) Sample.signed_by_two)))
       [] []).
Proof.
  apply (@parse_first_missing_key
           (Sample.always
              (json_dumps false None
                (JDict [(str "version", JInt 7); (str "isd_id", JInt 3);
                        (str "time", JInt 5)])))
           (JStr (str "short.trc"))
           (json_dumps false None
              (JDict [(str "version", JInt 7); (str "isd_id", JInt 3);
                      (str "time", JInt 5)]))
           [(str "version", JInt 7); (str "isd_id", JInt 3); (str "time", JInt 5)]
           [(str "isd_id", set_isd_id); (str "version", set_version);
            (str "time", set_time)]
           (str "core_quorum") set_core_quorum
           (skipn 4 attribute_order)
           (Sample.initial Sample.signed_by_two)).
  - reflexivity.
  - vm_compute. reflexivity.
  - reflexivity.
  - repeat constructor; vm_compute; discriminate.
  - vm_compute. reflexivity.
Defined.

(* ================================================================= *)
(** * A file that cannot be decoded *)

Section Undecodable.

Variable crypto_sign_ed25519_open : pybytes -> str_or_bytes -> result pybytes.
Variable standard_b64decode : pybytes -> result pybytes.
Variable open_read : json -> result pystr.

Local Abbreviation verify := (verify crypto_sign_ed25519_open standard_b64decode).

Lemma verify_no_signers (st : state) :
  py_iter (signatures (self st)) = Ok [] ->
  verify st = (Ok true, st).
Proof.
  intros Hiter.
  destruct (verify_outcome crypto_sign_ed25519_open standard_b64decode st)
    as (data & _ & [ (e & He & _) | (signers & r & calls & logs & Hs & Hv & Hloop) ]).
  - rewrite Hiter in He. discriminate.
  - rewrite Hiter in Hs. injection Hs as <-.
    inversion Hloop; subst. rewrite Hv, !app_nil_r. apply f_equal, state_eta.
Qed.

(** X7: a document constructed from a file whose content cannot be
    decoded verifies.  When the load fails with an error of the
    classes that [parse] catches (malformed JSON is one), the
    constructor returns normally with one error logged and every
    attribute at its default; [verify] on that instance returns
    [True] and calls the signature primitive not once. *)
Theorem undecodable_file_verifies (trc_file : json) (e : exn) (st : state) :
  py_truth trc_file = true ->
  open_read trc_file = Raise e \/
  (exists text, open_read trc_file = Ok text /\ json_load text = Raise e) ->
  existsb (isinstance e) [CValueError; CKeyError; CTypeError] = true ->
  __init__ open_read trc_file st
  = (Ok tt,
     mkState defaults
       (logged st ++ [(ERROR, str "TRC: JSON format error.")]) (opened st)) /\
  verify (snd (__init__ open_read trc_file st))
  = (Ok true, snd (__init__ open_read trc_file st)).
Proof.
  intros Htruth Hfail Hcaught.
  assert (__init__ open_read trc_file st
          = (Ok tt,
             mkState defaults
               (logged st ++ [(ERROR, str "TRC: JSON format error.")])
               (opened st))) as Hinit.
  { rewrite init_run, Htruth.
    rewrite (@parse_not_loaded open_read trc_file e _ Hfail), Hcaught.
    reflexivity. }
  split; [ exact Hinit | ].
  rewrite Hinit. apply verify_no_signers. reflexivity.
Qed.

End Undecodable.

Lemma undecodable_file_verifies_witness :
  __init__ (Sample.always (str "{")) (JStr (str "cut.trc"))
    (Sample.initial Sample.blank)
  = (Ok tt, mkState defaults [(ERROR, str "TRC: JSON format error.")] []) /\
  Sample.verify
    (snd (__init__ (Sample.always (str "{")) (JStr (str "cut.trc"))
            (Sample.initial Sample.blank)))
  = (Ok true,
     snd (__init__ (Sample.always (str "{")) (JStr (str "cut.trc"))
            (Sample.initial Sample.blank))).
Proof.
  apply (@undecodable_file_verifies Sample.crypto_sign_ed25519_open
           Sample.standard_b64decode (Sample.always (str "{"))
           (JStr (str "cut.trc")) JSONDecodeError (Sample.initial Sample.blank)).
  - reflexivity.
  - right. exists (str "{"). split; [ reflexivity | vm_compute; reflexivity ].
  - reflexivity.
Defined.

(* ================================================================= *)
(** * Documents with the same content *)

Lemma dict_lookup_absent (k : pystr) (d : list (pystr * json)) :
  dict_lookup k d = None <-> ~ In k (dict_keys d).
Proof.
  induction d as [ | [k' v] d IH ]; cbn [dict_lookup dict_keys map fst In].
  - split; [ intros _ [] | reflexivity ].
  - destruct (pystr_eqb k k') eqn:Hk.
    + apply pystr_eqb_eq in Hk. subst.
      split; [ discriminate | intros H; exfalso; apply H; left; reflexivity ].
    + apply pystr_eqb_neq in Hk. rewrite IH. unfold dict_keys. split.
      * intros H [Heq | Hin]; [ congruence | exact (H Hin) ].
      * intros H Hin. apply H. right. exact Hin.
Qed.

Lemma same_value_dict_present (d1 d2 : list (pystr * json)) (k : pystr)
  (v1 : json) :
  same_value (JDict d1) (JDict d2) = true ->
  dict_lookup k d1 = Some v1 ->
  exists v2, dict_lookup k d2 = Some v2 /\ same_value v1 v2 = true.
Proof.
  intros Hsame Hk. apply same_value_dict in Hsame. destruct Hsame as [_ Hall].
  rewrite Forall_forall in Hall. apply dict_lookup_In in Hk.
  exact (Hall _ Hk).
Qed.

Lemma same_value_dict_keys (d1 d2 : list (pystr * json)) :
  same_value (JDict d1) (JDict d2) = true ->
  NoDup (dict_keys d1) ->
  forall k, In k (dict_keys d1) <-> In k (dict_keys d2).
Proof.
  intros Hsame Hnodup.
  pose proof (@same_value_dict _ _ _ Hsame) as [Hlen Hall].
  rewrite Forall_forall in Hall.
  assert (incl (dict_keys d1) (dict_keys d2)) as Hincl.
  { intros k Hin. unfold dict_keys in Hin. apply in_map_iff in Hin.
    destruct Hin as [[k' v] [<- Hin]].
    destruct (Hall _ Hin) as [v' [Hlookup _]].
    apply dict_lookup_In in Hlookup. cbn [fst] in *.
    unfold dict_keys. apply in_map_iff. exists (k', v'). split; [ reflexivity | exact Hlookup ]. }
  intros k. split; [ apply Hincl | ].
  apply (NoDup_length_incl Hnodup); [ | exact Hincl ].
  unfold dict_keys. rewrite !length_map, Hlen. apply Nat.le_refl.
Qed.

Lemma same_value_dict_missing (d1 d2 : list (pystr * json)) (k : pystr) :
  same_value (JDict d1) (JDict d2) = true ->
  NoDup (dict_keys d1) ->
  dict_lookup k d1 = None -> dict_lookup k d2 = None.
Proof.
  intros Hsame Hnodup Hk. apply dict_lookup_absent.
  rewrite <- (@same_value_dict_keys _ _ Hsame Hnodup). apply dict_lookup_absent, Hk.
Qed.

Lemma same_value_contains (d1 d2 : list (pystr * json)) (x : json) :
  same_value (JDict d1) (JDict d2) = true ->
  NoDup (dict_keys d1) ->
  py_contains (JDict d1) x = py_contains (JDict d2) x.
Proof.
  intros Hsame Hnodup. destruct x as [ | | | k | | ]; try reflexivity.
  cbn [py_contains]. destruct (dict_lookup k d1) as [v1 | ] eqn:Hk.
  - destruct (@same_value_dict_present _ _ _ _ Hsame Hk) as [v2 [-> _]]. reflexivity.
  - rewrite (@same_value_dict_missing _ _ _ Hsame Hnodup Hk). reflexivity.
Qed.

Lemma same_value_encode (v1 v2 : json) :
  same_value v1 v2 = true -> py_encode_ascii v1 = py_encode_ascii v2.
Proof.
  unfold same_value.
  destruct v1, v2; cbn [value_eqb andb]; try discriminate; try reflexivity.
  intros H. apply pystr_eqb_eq in H. subst. reflexivity.
Qed.

(** In two dicts with the same content, an item and what follows from
    its ASCII encoding are the same. *)
Lemma same_value_item (B : Type) (d1 d2 : list (pystr * json)) (x : json)
  (k : pybytes -> result B) :
  same_value (JDict d1) (JDict d2) = true ->
  NoDup (dict_keys d1) ->
  and_then (py_getitem (JDict d1) x) (fun v => and_then (py_encode_ascii v) k)
  = and_then (py_getitem (JDict d2) x) (fun v => and_then (py_encode_ascii v) k).
Proof.
  intros Hsame Hnodup. destruct x as [ | | | s | | ]; try reflexivity.
  cbn [py_getitem]. destruct (dict_lookup s d1) as [v1 | ] eqn:Hk.
  - destruct (@same_value_dict_present _ _ _ _ Hsame Hk) as [v2 [-> Hv]].
    cbn [and_then]. rewrite (@same_value_encode _ _ Hv). reflexivity.
  - rewrite (@same_value_dict_missing _ _ _ Hsame Hnodup Hk). reflexivity.
Qed.

Lemma fields_unique_keys (t : TRC) :
  unique_keys (JList (fields t)) = true ->
  unique_keys (core_ads t) = true /\ unique_keys (signatures t) = true.
Proof.
  destruct t. intros H. simpl in H. split_andb. split; assumption.
Qed.

Lemma same_document_maps (t1 t2 : TRC) :
  same_document t1 t2 = true ->
  same_value (core_ads t1) (core_ads t2) = true /\
  same_value (signatures t1) (signatures t2) = true.
Proof.
  unfold same_document, same_value. destruct t1, t2.
  intros H. simpl in H. split_andb. split; assumption.
Qed.

Lemma same_value_is_dict (d1 : list (pystr * json)) (v2 : json) :
  same_value (JDict d1) v2 = true -> exists d2, v2 = JDict d2.
Proof.
  destruct v2 as [ | | | | | d2 ]; try discriminate. exists d2. reflexivity.
Qed.

Lemma unique_keys_dict (d : list (pystr * json)) :
  unique_keys (JDict d) = true -> NoDup (dict_keys d).
Proof.
  cbn [unique_keys]. intros H. apply andb_true_iff in H.
  apply distinct_NoDup, H.
Qed.

Section SameContent.

Variable crypto_sign_ed25519_open : pybytes -> str_or_bytes -> result pybytes.
Variable standard_b64decode : pybytes -> result pybytes.

Local Abbreviation certificate_key := (certificate_key standard_b64decode).
Local Abbreviation signature_bytes := (signature_bytes standard_b64decode).
Local Abbreviation signature_valid :=
  (signature_valid crypto_sign_ed25519_open standard_b64decode).
Local Abbreviation checks_without_error :=
  (checks_without_error standard_b64decode).
Local Abbreviation loop_run := (loop_run crypto_sign_ed25519_open standard_b64decode).
Local Abbreviation verify := (verify crypto_sign_ed25519_open standard_b64decode).

(** A loop in which no check raises an error ends with a verdict. *)
Lemma loop_run_verdict (t : TRC) (data : pybytes) signers r calls logs :
  loop_run t data signers r calls logs ->
  Forall (checks_without_error t) signers ->
  exists b, r = Ok b.
Proof.
  induction 1 as [ | signer rest e Hc | signer rest Hc | signer rest e Hc Hk
                 | signer rest pk e Hc Hk Hs | signer rest pk raw e Hc Hk Hs Hv
                 | signer rest pk raw m r calls logs Hc Hk Hs Hv Hrun IH ];
    intros Hall.
  - exists true. reflexivity.
  - inversion Hall as [ | ? ? [Hc' | [Hc' _]] _ ]; subst; congruence.
  - exists false. reflexivity.
  - inversion Hall as [ | ? ? [Hc' | [_ [[pk Hk'] _]]] _ ]; subst; congruence.
  - inversion Hall as [ | ? ? [Hc' | [_ [_ [raw Hs']]]] _ ]; subst; congruence.
  - exists false. reflexivity.
  - apply IH. inversion Hall; assumption.
Qed.

(** The checks of a signer read two documents with the same content
    alike. *)
Lemma same_document_signer (t1 t2 : TRC) (a1 s1 : list (pystr * json))
  (signer : json) :
  same_document t1 t2 = true ->
  unique_keys (JList (fields t1)) = true ->
  core_ads t1 = JDict a1 ->
  signatures t1 = JDict s1 ->
  py_contains (core_ads t1) signer = py_contains (core_ads t2) signer /\
  certificate_key t1 signer = certificate_key t2 signer /\
  signature_bytes t1 signer = signature_bytes t2 signer.
Proof.
  intros Hsame Hu Ha Hs.
  destruct (@same_document_maps _ _ Hsame) as [Hads Hsigs].
  destruct (@fields_unique_keys _ Hu) as [Hua Hus].
  rewrite Ha in Hads, Hua. rewrite Hs in Hsigs, Hus.
  destruct (@same_value_is_dict _ _ Hads) as [a2 Ha2].
  destruct (@same_value_is_dict _ _ Hsigs) as [s2 Hs2].
  rewrite Ha2 in Hads. rewrite Hs2 in Hsigs.
  apply unique_keys_dict in Hua, Hus.
  unfold certificate_key, signature_bytes.
  rewrite Ha, Ha2, Hs, Hs2.
  split; [ apply same_value_contains; assumption | ].
  split; apply same_value_item; assumption.
Qed.

(** [verify] gives two documents with the same content the same
    verdict, when no check of the first raises an error. *)
Lemma verify_verdict_same (st1 st2 : state) (a1 s1 : list (pystr * json)) :
  same_document (self st1) (self st2) = true ->
  unique_keys (JList (fields (self st1))) = true ->
  unique_keys (JList (fields (self st2))) = true ->
  core_ads (self st1) = JDict a1 ->
  signatures (self st1) = JDict s1 ->
  Forall (checks_without_error (self st1)) (map JStr (dict_keys s1)) ->
  exists b, fst (verify st1) = Ok b /\ fst (verify st2) = Ok b.
Proof.
  intros Hsame Hu1 Hu2 Ha Hs Hall.
  assert (forall signer,
            py_contains (core_ads (self st1)) signer
            = py_contains (core_ads (self st2)) signer /\
            certificate_key (self st1) signer
            = certificate_key (self st2) signer /\
            signature_bytes (self st1) signer
            = signature_bytes (self st2) signer) as Hsigner
    by (intros signer; apply (@same_document_signer _ _ a1 s1); assumption).
  destruct (@same_document_maps _ _ Hsame) as [_ Hsigs].
  destruct (@fields_unique_keys _ Hu1) as [_ Hus].
  rewrite Hs in Hsigs, Hus.
  destruct (@same_value_is_dict _ _ Hsigs) as [s2 Hs2]. rewrite Hs2 in Hsigs.
  apply unique_keys_dict in Hus.
  pose proof (@same_value_dict_keys _ _ Hsigs Hus) as Hkeys.
  assert (forall x, In x (map JStr (dict_keys s1))
                    <-> In x (map JStr (dict_keys s2))) as Hin.
  { intros x. rewrite !in_map_iff.
    split; intros [k [<- Hk]]; exists k;
      (split; [ reflexivity | apply Hkeys; exact Hk ]). }
  assert (json_dumps true (Some 4%nat) (get_trc_dict (self st1) false)
          = json_dumps true (Some 4%nat) (get_trc_dict (self st2) false))
    as Hdumps.
  { unfold json_dumps. apply iterencode_same_value.
    - apply get_trc_dict_same_value; exact Hsame.
    - apply get_trc_dict_unique_keys; exact Hu1.
    - apply get_trc_dict_unique_keys; exact Hu2. }
  destruct (verify_outcome crypto_sign_ed25519_open standard_b64decode st1)
    as (data & Hd1 & [ (e & He & _)
                     | (signers1 & r1 & calls1 & logs1 & Hi1 & Hv1 & Hl1) ]);
    [ rewrite Hs in He; discriminate | ].
  destruct (verify_outcome crypto_sign_ed25519_open standard_b64decode st2)
    as (data2 & Hd2 & [ (e & He & _)
                      | (signers2 & r2 & calls2 & logs2 & Hi2 & Hv2 & Hl2) ]);
    [ rewrite Hs2 in He; discriminate | ].
  rewrite Hdumps, Hd2 in Hd1. injection Hd1 as ->.
  rewrite Hs in Hi1. rewrite Hs2 in Hi2. cbn [py_iter] in Hi1, Hi2.
  injection Hi1 as <-. injection Hi2 as <-.
  assert (Forall (checks_without_error (self st2)) (map JStr (dict_keys s2)))
    as Hall2.
  { rewrite Forall_forall in Hall |- *. intros x Hx. apply Hin in Hx.
    specialize (Hall x Hx). destruct (Hsigner x) as (Hc & Hk & Hg).
    unfold checks_without_error in *. rewrite <- Hc, <- Hk, <- Hg. exact Hall. }
  destruct (loop_run_verdict Hl1 Hall) as [b1 ->].
  destruct (loop_run_verdict Hl2 Hall2) as [b2 ->].
  pose proof (@loop_run_true _ _ _ _ _ _ _ _ Hl1) as Ht1.
  pose proof (@loop_run_true _ _ _ _ _ _ _ _ Hl2) as Ht2.
  assert (Forall (signature_valid (self st1) data) (map JStr (dict_keys s1))
          <-> Forall (signature_valid (self st2) data) (map JStr (dict_keys s2)))
    as Hvalid.
  { rewrite !Forall_forall.
    split; intros H x Hx; apply Hin in Hx; specialize (H x Hx);
      destruct (Hsigner x) as (Hc & Hk & Hg); unfold signature_valid in *;
      [ rewrite <- Hc, <- Hk, <- Hg | rewrite Hc, Hk, Hg ]; exact H. }
  exists b1. rewrite Hv1, Hv2. cbn [fst]. split; [ reflexivity | ].
  destruct b1, b2; try reflexivity.
  - apply Ht2, Hvalid, Ht1. reflexivity.
  - symmetry. apply Ht1, Hvalid, Ht2. reflexivity.
Qed.

(** X8: the verdict of [verify] does not depend on the order in which
    the dicts of a document hold their items.  For two documents with
    the same content whose [core_ads] and [signatures] are dicts,
    [verify] returns the same boolean, provided that no signer's check
    raises an error in the first document. *)
Theorem verify_same_document (st1 st2 : state) (a1 s1 : list (pystr * json)) :
  same_document (self st1) (self st2) = true ->
  unique_keys (JList (fields (self st1))) = true ->
  unique_keys (JList (fields (self st2))) = true ->
  core_ads (self st1) = JDict a1 ->
  signatures (self st1) = JDict s1 ->
  Forall (checks_without_error (self st1)) (map JStr (dict_keys s1)) ->
  fst (verify st1) = fst (verify st2).
Proof.
  intros Hsame Hu1 Hu2 Ha Hs Hall.
  destruct (verify_verdict_same st1 st2 Hsame Hu1 Hu2 Ha Hs Hall)
    as [b [-> ->]].
  reflexivity.
Qed.

End SameContent.

Lemma verify_same_document_witness :
  fst (Sample.verify (Sample.initial Sample.signed_by_two))
  = fst (Sample.verify (Sample.initial Sample.signed_by_two_reordered)).
Proof.
  apply (@verify_same_document Sample.crypto_sign_ed25519_open
           Sample.standard_b64decode
           (Sample.initial Sample.signed_by_two)
           (Sample.initial Sample.signed_by_two_reordered)
           [(str "AD1", Sample.cert1); (str "AD2", Sample.cert2)]
           [(str "AD1", Sample.sig1); (str "AD2", Sample.sig2)]).
  - vm_compute. reflexivity.
  - vm_compute. reflexivity.
  - vm_compute. reflexivity.
  - reflexivity.
  - reflexivity.
  - repeat (apply Forall_cons;
            [ right; split;
              [ reflexivity | split; eexists; vm_compute; reflexivity ] | ]).
    apply Forall_nil.
Defined.

(* ================================================================= *)
(** * A document written to a file and read back *)

Lemma same_document_canonical_document (t : TRC) :
  unique_keys (JList (fields t)) = true ->
  same_document t (canonical_document t) = true.
Proof.
  destruct t. intros H. simpl in H. split_andb.
  unfold same_document, same_value, canonical_document. simpl.
  repeat match goal with
         | Hu : unique_keys ?v = true |- _ =>
             let Hv := fresh "Hv" in
             pose proof (proj2 (same_value_canonical v Hu)) as Hv;
             unfold same_value in Hv; rewrite Hv; clear Hv Hu
         end.
  reflexivity.
Qed.

Lemma canonical_document_unique_keys (t : TRC) :
  unique_keys (JList (fields t)) = true ->
  unique_keys (JList (fields (canonical_document t))) = true.
Proof.
  destruct t. intros H. simpl in H. split_andb.
  unfold canonical_document. simpl.
  repeat match goal with
         | Hu : unique_keys ?v = true |- _ =>
             rewrite (canonical_unique_keys v Hu); clear Hu
         end.
  reflexivity.
Qed.

Section Reload.

Variable crypto_sign_ed25519_open : pybytes -> str_or_bytes -> result pybytes.
Variable standard_b64decode : pybytes -> result pybytes.
Variable open_read : json -> result pystr.

Local Abbreviation checks_without_error :=
  (checks_without_error standard_b64decode).
Local Abbreviation verify := (verify crypto_sign_ed25519_open standard_b64decode).

(** X9: writing a document to a file and constructing a new instance
    from that file keeps the verdict.  For a document whose dicts have
    distinct keys, whose strings hold scalar values, whose [core_ads]
    and [signatures] are dicts and in which no signer's check raises
    an error, [verify] on the instance read from the rendering returns
    the same boolean as on the document itself. *)
Theorem verify_after_reload (trc_file : json) (st st0 : state)
  (a1 s1 : list (pystr * json)) :
  unique_keys (JList (fields (self st))) = true ->
  scalar_strings (JList (fields (self st))) = true ->
  core_ads (self st) = JDict a1 ->
  signatures (self st) = JDict s1 ->
  Forall (checks_without_error (self st)) (map JStr (dict_keys s1)) ->
  py_truth trc_file = true ->
  open_read trc_file = Ok (__str__ (self st)) ->
  fst (__init__ open_read trc_file st0) = Ok tt /\
  fst (verify (snd (__init__ open_read trc_file st0))) = fst (verify st).
Proof.
  intros Hu Hscalar Ha Hs Hall Htruth Hopen.
  rewrite (@init_parse_rendered open_read trc_file (self st) st0
             Hu Hscalar Htruth Hopen).
  cbn [fst snd]. split; [ reflexivity | ].
  destruct (@verify_verdict_same crypto_sign_ed25519_open standard_b64decode
              st (mkState (canonical_document (self st)) (logged st0) (opened st0))
              a1 s1) as [b [-> Hb]]; try assumption.
  - cbn [self]. apply same_document_canonical_document, Hu.
  - cbn [self]. apply canonical_document_unique_keys, Hu.
Qed.

(** X10: rendering is stable under a reload.  An instance constructed
    from a file that holds the rendering of a document renders to the
    same text, and the message that [verify] checks signatures against
    is the same for both. *)
Theorem render_after_reload (trc_file : json) (t : TRC) (st : state) :
  unique_keys (JList (fields t)) = true ->
  scalar_strings (JList (fields t)) = true ->
  py_truth trc_file = true ->
  open_read trc_file = Ok (__str__ t) ->
  __str__ (self (snd (__init__ open_read trc_file st))) = __str__ t /\
  json_dumps true (Some 4%nat)
    (get_trc_dict (self (snd (__init__ open_read trc_file st))) false)
  = json_dumps true (Some 4%nat) (get_trc_dict t false).
Proof.
  intros Hu Hscalar Htruth Hopen.
  rewrite (@init_parse_rendered open_read trc_file t st Hu Hscalar Htruth Hopen).
  cbn [snd self]. unfold __str__, json_dumps.
  split; symmetry; apply iterencode_same_value;
    try (apply get_trc_dict_same_value;
         apply same_document_canonical_document, Hu);
    try (apply get_trc_dict_unique_keys; exact Hu);
    apply get_trc_dict_unique_keys;
    apply canonical_document_unique_keys, Hu.
Qed.

End Reload.

Lemma verify_after_reload_witness :
  fst (__init__ Sample.files (JStr (str "ISD1.trc")) (Sample.initial Sample.blank))
  = Ok tt /\
  fst (Sample.verify
         (snd (__init__ Sample.files (JStr (str "ISD1.trc"))
                 (Sample.initial Sample.blank))))
  = fst (Sample.verify (snd (Sample.construct Sample.open_read))).
Proof.
  apply (@verify_after_reload Sample.crypto_sign_ed25519_open
           Sample.standard_b64decode Sample.files (JStr (str "ISD1.trc"))
           (snd (Sample.construct Sample.open_read))
           (Sample.initial Sample.blank)
           [(str "AD2", Sample.cert2); (str "AD1", Sample.cert1)]
           [(str "AD1", Sample.sig1)]).
  - vm_compute. reflexivity.
  - vm_compute. reflexivity.
  - reflexivity.
  - reflexivity.
  - repeat (apply Forall_cons;
            [ right; split;
              [ reflexivity | split; eexists; vm_compute; reflexivity ] | ]).
    apply Forall_nil.
  - reflexivity.
  - reflexivity.
Defined.

Lemma render_after_reload_witness :
  __str__ (self (snd (__init__ Sample.files (JStr (str "ISD1.trc"))
                        (Sample.initial Sample.blank))))
  = __str__ (self (snd (Sample.construct Sample.open_read))) /\
  json_dumps true (Some 4%nat)
    (get_trc_dict (self (snd (__init__ Sample.files (JStr (str "ISD1.trc"))
                               (Sample.initial Sample.blank)))) false)
  = json_dumps true (Some 4%nat)
      (get_trc_dict (self (snd (Sample.construct Sample.open_read))) false).
Proof.
  apply (@render_after_reload Sample.files (JStr (str "ISD1.trc"))
           (self (snd (Sample.construct Sample.open_read)))
           (Sample.initial Sample.blank)).
  - vm_compute. reflexivity.
  - vm_compute. reflexivity.
  - reflexivity.
  - reflexivity.
Defined.

(* ================================================================= *)
(** * Documents with the same rendering *)

(** Two values with the same canonical form have the same content. *)
Lemma canonical_same_value (v1 : json) :
  forall v2,
    canonical v1 = canonical v2 ->
    unique_keys v1 = true -> unique_keys v2 = true ->
    same_value v1 v2 = true.
Proof.
  unfold same_value.
  induction v1 as [ | b | z | s | l IH | d IH ] using json_induction;
    intros v2 Heq Hu1 Hu2.
  - destruct v2; try discriminate. reflexivity.
  - destruct v2; try discriminate. injection Heq as <-.
    cbn [value_eqb]. apply eqb_reflx.
  - destruct v2; try discriminate. injection Heq as <-.
    cbn [value_eqb]. apply Z.eqb_refl.
  - destruct v2; try discriminate. injection Heq as <-.
    cbn [value_eqb]. apply pystr_eqb_refl.
  - destruct v2 as [ | | | | l2 | ]; try discriminate.
    cbn [canonical] in Heq. injection Heq as Heq.
    cbn [unique_keys] in Hu1, Hu2. rewrite forallb_forall in Hu1, Hu2.
    apply value_eqb_list_intro.
    revert l2 Heq Hu2.
    induction l as [ | a l IHl ]; intros [ | b l2 ] Heq Hu2;
      try discriminate; [ constructor | ].
    cbn [map] in Heq. injection Heq as Hab Hrest.
    inversion IH as [ | ? ? IHa IHrest ]; subst.
    constructor.
    + apply IHa; [ exact Hab | apply Hu1; left; reflexivity
                 | apply Hu2; left; reflexivity ].
    + apply IHl; [ exact IHrest | intros x Hx; apply Hu1; right; exact Hx
                 | exact Hrest | intros x Hx; apply Hu2; right; exact Hx ].
  - destruct v2 as [ | | | | | d2 ]; try discriminate.
    cbn [canonical] in Heq. injection Heq as Heq.
    cbn [unique_keys] in Hu1, Hu2.
    apply andb_true_iff in Hu1, Hu2.
    destruct Hu1 as [Hd1 Hu1], Hu2 as [Hd2 Hu2].
    rewrite forallb_forall in Hu1, Hu2.
    apply distinct_NoDup in Hd1, Hd2.
    rewrite Forall_forall in IH.
    set (c := fun kv : pystr * json => (fst kv, canonical (snd kv))) in *.
    assert (Permutation (map c d) (map c d2)) as Hperm.
    { eapply Permutation_trans; [ apply Permutation_sym, sorted_items_perm | ].
      rewrite Heq. apply sorted_items_perm. }
    apply value_eqb_dict_intro.
    + apply Permutation_length in Hperm. rewrite !length_map in Hperm.
      exact Hperm.
    + apply Forall_forall. intros [k v] Hin.
      assert (In (c (k, v)) (map c d2)) as Hin2
        by (eapply Permutation_in; [ exact Hperm | apply in_map; exact Hin ]).
      apply in_map_iff in Hin2. destruct Hin2 as [[k' v'] [Hc Hin2]].
      unfold c in Hc. cbn [fst snd] in Hc. injection Hc as -> Hv.
      exists v'. cbn [fst snd]. split.
      * apply dict_lookup_NoDup; assumption.
      * apply (IH _ Hin);
          [ symmetry; exact Hv | apply (Hu1 _ Hin) | apply (Hu2 _ Hin2) ].
Qed.

Lemma get_trc_dict_same_document (t1 t2 : TRC) :
  same_value (get_trc_dict t1 true) (get_trc_dict t2 true) = true ->
  same_document t1 t2 = true.
Proof.
  unfold same_document, same_value. destruct t1, t2.
  intros H. simpl in H. split_andb. simpl.
  repeat match goal with
         | Hv : value_eqb _ _ _ = true |- _ => rewrite Hv; clear Hv
         end.
  reflexivity.
Qed.

Lemma get_trc_dict_same_unsigned (t1 t2 : TRC) :
  same_value (get_trc_dict t1 false) (get_trc_dict t2 false) = true ->
  same_document (set_signatures (JDict []) t1) (set_signatures (JDict []) t2)
  = true.
Proof.
  unfold same_document, same_value. destruct t1, t2.
  intros H. simpl in H. split_andb. simpl.
  repeat match goal with
         | Hv : value_eqb _ _ _ = true |- _ => rewrite Hv; clear Hv
         end.
  reflexivity.
Qed.

(** X11: the rendering determines the content.  Two documents whose
    dicts have distinct keys and whose strings hold scalar values have
    the same content when [__str__] gives them the same text; and when
    the message that [verify] checks signatures against is the same
    for both, they have the same content apart from [signatures]. *)
Theorem rendering_determines_content (t1 t2 : TRC) :
  unique_keys (JList (fields t1)) = true ->
  scalar_strings (JList (fields t1)) = true ->
  unique_keys (JList (fields t2)) = true ->
  scalar_strings (JList (fields t2)) = true ->
  (__str__ t1 = __str__ t2 -> same_document t1 t2 = true) /\
  (json_dumps true (Some 4%nat) (get_trc_dict t1 false)
   = json_dumps true (Some 4%nat) (get_trc_dict t2 false) ->
   same_document (set_signatures (JDict []) t1) (set_signatures (JDict []) t2)
   = true).
Proof.
  intros Hu1 Hs1 Hu2 Hs2.
  assert (forall with_signatures,
            json_dumps true (Some 4%nat) (get_trc_dict t1 with_signatures)
            = json_dumps true (Some 4%nat) (get_trc_dict t2 with_signatures) ->
            same_value (get_trc_dict t1 with_signatures)
              (get_trc_dict t2 with_signatures) = true) as Hsame.
  { intros with_signatures Heq.
    pose proof (get_trc_dict_unique_keys t1 with_signatures Hu1) as Hd1.
    pose proof (get_trc_dict_unique_keys t2 with_signatures Hu2) as Hd2.
    apply (f_equal json_loads) in Heq.
    rewrite !json_loads_dumps in Heq
      by (assumption || (apply get_trc_dict_scalar_strings; assumption)).
    injection Heq as Heq.
    apply canonical_same_value; assumption. }
  split; intros Heq.
  - apply get_trc_dict_same_document, Hsame, Heq.
  - apply get_trc_dict_same_unsigned, Hsame, Heq.
Qed.

Lemma rendering_determines_content_witness :
  (__str__ Sample.signed_by_two = __str__ Sample.signed_by_two_reordered ->
   same_document Sample.signed_by_two Sample.signed_by_two_reordered = true) /\
  (json_dumps true (Some 4%nat) (get_trc_dict Sample.signed_by_two false)
   = json_dumps true (Some 4%nat)
       (get_trc_dict Sample.signed_by_two_reordered false) ->
   same_document (set_signatures (JDict []) Sample.signed_by_two)
     (set_signatures (JDict []) Sample.signed_by_two_reordered) = true).
Proof.
  apply (@rendering_determines_content Sample.signed_by_two
           Sample.signed_by_two_reordered); vm_compute; reflexivity.
Defined.

(* ================================================================= *)
(** * What the decoder and [parse] produce *)

Lemma dict_set_keys (k : pystr) (v : json) (d : list (pystr * json)) :
  forall x, In x (dict_keys (dict_set k v d)) -> x = k \/ In x (dict_keys d).
Proof.
  induction d as [ | [k' v'] d IH ]; cbn [dict_set dict_keys map fst In];
    intros x Hin.
  - destruct Hin as [<- | []]. left. reflexivity.
  - destruct (pystr_eqb k k'); cbn [map fst In] in Hin.
    + right. exact Hin.
    + destruct Hin as [<- | Hin]; [ right; left; reflexivity | ].
      destruct (IH x Hin) as [-> | Hx]; [ left; reflexivity | right; right; exact Hx ].
Qed.

Lemma dict_set_items (k : pystr) (v : json) (d : list (pystr * json)) :
  forall x w, In (x, w) (dict_set k v d) -> w = v \/ In (x, w) d.
Proof.
  induction d as [ | [k' v'] d IH ]; cbn [dict_set In]; intros x w Hin.
  - destruct Hin as [Heq | []]. injection Heq as _ <-. left. reflexivity.
  - destruct (pystr_eqb k k'); cbn [In] in Hin.
    + destruct Hin as [Heq | Hin].
      * injection Heq as _ <-. left. reflexivity.
      * right. right. exact Hin.
    + destruct Hin as [Heq | Hin]; [ right; left; exact Heq | ].
      destruct (IH x w Hin) as [-> | Hx]; [ left; reflexivity | right; right; exact Hx ].
Qed.

Lemma dict_set_NoDup (k : pystr) (v : json) (d : list (pystr * json)) :
  NoDup (dict_keys d) -> NoDup (dict_keys (dict_set k v d)).
Proof.
  induction d as [ | [k' v'] d IH ]; cbn [dict_set dict_keys map fst];
    intros Hnodup.
  - constructor; [ intros [] | constructor ].
  - destruct (pystr_eqb k k') eqn:Hk; cbn [map fst].
    + exact Hnodup.
    + apply pystr_eqb_neq in Hk.
      inversion Hnodup as [ | ? ? Hnotin Hrest ]; subst.
      constructor; [ | apply IH; exact Hrest ].
      intros Hin. destruct (dict_set_keys _ _ _ _ Hin) as [-> | Hin'];
        [ congruence | exact (Hnotin Hin') ].
Qed.

Lemma unique_keys_dict_intro (d : list (pystr * json)) :
  NoDup (dict_keys d) ->
  (forall k v, In (k, v) d -> unique_keys v = true) ->
  unique_keys (JDict d) = true.
Proof.
  intros Hnodup Hall. cbn [unique_keys]. apply andb_true_iff. split.
  - apply NoDup_distinct, Hnodup.
  - apply forallb_forall. intros [k v] Hin. apply (Hall k v Hin).
Qed.

Lemma unique_keys_dict_items (d : list (pystr * json)) :
  unique_keys (JDict d) = true ->
  forall k v, In (k, v) d -> unique_keys v = true.
Proof.
  cbn [unique_keys]. intros H k v Hin. apply andb_true_iff in H.
  destruct H as [_ H]. rewrite forallb_forall in H. apply (H _ Hin).
Qed.

Lemma dict_of_pairs_unique_keys (pairs : list (pystr * json)) :
  Forall (fun kv => unique_keys (snd kv) = true) pairs ->
  unique_keys (JDict (dict_of_pairs pairs)) = true.
Proof.
  unfold dict_of_pairs.
  assert (forall d, unique_keys (JDict d) = true ->
                    Forall (fun kv => unique_keys (snd kv) = true) pairs ->
                    unique_keys
                      (JDict (fold_left (fun d kv => dict_set (fst kv) (snd kv) d)
                                pairs d)) = true) as Hfold.
  { induction pairs as [ | [k v] pairs IH ]; intros d Hd Hall; [ exact Hd | ].
    inversion Hall as [ | ? ? Hv Hrest ]; subst. cbn [fold_left fst snd] in *.
    apply IH; [ | exact Hrest ].
    apply unique_keys_dict_intro.
    - apply dict_set_NoDup, unique_keys_dict, Hd.
    - intros x w Hin. destruct (dict_set_items _ _ _ _ _ Hin) as [-> | Hin'];
        [ exact Hv | apply (unique_keys_dict_items _ Hd _ _ Hin') ]. }
  apply Hfold. reflexivity.
Qed.

Section DecodedContainers.

Variable scan_once : pystr -> result (json * pystr).
Hypothesis scan_once_unique_keys :
  forall s v rest, scan_once s = Ok (v, rest) -> unique_keys v = true.

Lemma array_items_unique_keys (n : nat) :
  forall s l rest,
    array_items scan_once n s = Ok (l, rest) ->
    forallb unique_keys l = true.
Proof.
  induction n as [ | n IH ]; intros s l rest; cbn [array_items];
    [ discriminate | ].
  destruct (scan_once s) as [[value s2] | e] eqn:Hscan; [ | discriminate ].
  apply scan_once_unique_keys in Hscan.
  destruct (skip_ws s2) as [ | d s3 ]; [ discriminate | ].
  destruct (d =? RBRACKET).
  - intros H. injection H as <- _. cbn [forallb]. rewrite Hscan. reflexivity.
  - destruct (d =? COMMA); [ | discriminate ].
    destruct (array_items scan_once n (skip_ws s3)) as [[l' rest'] | e] eqn:Hitems;
      cbn [prepend]; [ | discriminate ].
    intros H. injection H as <- _. cbn [forallb]. rewrite Hscan.
    apply (IH _ _ _ Hitems).
Qed.

Lemma object_members_unique_keys (n : nat) :
  forall s pairs rest,
    object_members scan_once n s = Ok (pairs, rest) ->
    Forall (fun kv => unique_keys (snd kv) = true) pairs.
Proof.
  induction n as [ | n IH ]; intros s pairs rest; cbn [object_members];
    [ discriminate | ].
  destruct (expect QUOTE s) as [s2 | e]; [ | discriminate ].
  destruct (scanstring s2) as [[key s3] | e]; [ | discriminate ].
  destruct (expect COLON (skip_ws s3)) as [s4 | e]; [ | discriminate ].
  destruct (scan_once (skip_ws s4)) as [[value s5] | e] eqn:Hscan;
    [ | discriminate ].
  apply scan_once_unique_keys in Hscan.
  destruct (skip_ws s5) as [ | d s6 ]; [ discriminate | ].
  destruct (d =? RBRACE).
  - intros H. injection H as <- _. constructor; [ exact Hscan | constructor ].
  - destruct (d =? COMMA); [ | discriminate ].
    destruct (object_members scan_once n (skip_ws s6)) as [[l' rest'] | e] eqn:Hitems;
      cbn [prepend]; [ | discriminate ].
    intros H. injection H as <- _.
    constructor; [ exact Hscan | apply (IH _ _ _ Hitems) ].
Qed.

Lemma JSONArray_unique_keys (s : pystr) (v : json) (rest : pystr) :
  JSONArray scan_once s = Ok (v, rest) -> unique_keys v = true.
Proof.
  unfold JSONArray. destruct (skip_ws s) as [ | c s1 ]; [ discriminate | ].
  destruct (c =? RBRACKET).
  - intros H. injection H as <- _. reflexivity.
  - destruct (array_items scan_once (length s) (c :: s1)) as [[l r] | e] eqn:Hitems;
      [ | discriminate ].
    intros H. injection H as <- _. cbn [unique_keys].
    apply (array_items_unique_keys _ _ Hitems).
Qed.

Lemma JSONObject_unique_keys (s : pystr) (v : json) (rest : pystr) :
  JSONObject scan_once s = Ok (v, rest) -> unique_keys v = true.
Proof.
  unfold JSONObject. destruct (skip_ws s) as [ | c s1 ]; [ discriminate | ].
  destruct (c =? RBRACE).
  - intros H. injection H as <- _. reflexivity.
  - destruct (object_members scan_once (length s) (c :: s1)) as [[l r] | e] eqn:Hitems;
      [ | discriminate ].
    intros H. injection H as <- _.
    apply dict_of_pairs_unique_keys, (object_members_unique_keys _ _ Hitems).
Qed.

End DecodedContainers.

Lemma scan_once_unique_keys (depth : nat) :
  forall s v rest, scan_once depth s = Ok (v, rest) -> unique_keys v = true.
Proof.
  induction depth as [ | depth IH ]; intros s v rest; cbn [scan_once];
    [ discriminate | ].
  destruct s as [ | c s' ]; [ discriminate | ].
  destruct (c =? QUOTE).
  { destruct (scanstring s') as [[x r] | e]; [ | discriminate ].
    intros H. injection H as <- _. reflexivity. }
  destruct (c =? LBRACE); [ apply JSONObject_unique_keys, IH | ].
  destruct (c =? LBRACKET); [ apply JSONArray_unique_keys, IH | ].
  destruct (is_prefix (str "null") (c :: s'));
    [ intros H; injection H as <- _; reflexivity | ].
  destruct (is_prefix (str "true") (c :: s'));
    [ intros H; injection H as <- _; reflexivity | ].
  destruct (is_prefix (str "false") (c :: s'));
    [ intros H; injection H as <- _; reflexivity | ].
  unfold match_number.
  destruct (match_natural _) as [[n r] | ].
  - destruct (float_follows r); [ discriminate | ].
    intros H. injection H as <- _. reflexivity.
  - destruct (_ || _); discriminate.
Qed.

Lemma json_loads_unique_keys (s : pystr) (v : json) :
  json_loads s = Ok v -> unique_keys v = true.
Proof.
  unfold json_loads.
  destruct (scan_once (S (length s)) (skip_ws s)) as [[obj rest] | e] eqn:Hscan;
    [ | discriminate ].
  destruct (skip_ws rest); [ | discriminate ].
  intros H. injection H as <-. apply (scan_once_unique_keys _ _ Hscan).
Qed.

Lemma assign_items_done (items : list (pystr * json))
  (l : list (pystr * (json -> TRC -> TRC))) :
  forall st st',
    assign_items (JDict items) l st = (Ok tt, st') ->
    st' = mkState (assigned items l (self st)) (logged st) (opened st) /\
    exists values,
      Forall2 (fun a v => dict_lookup (fst a) items = Some v) l values.
Proof.
  induction l as [ | [n s] l IH ]; intros st st'.
  - cbn [assign_items assigned fold_left]. unfold ret. intros H.
    injection H as <-. rewrite state_eta. split; [ reflexivity | ].
    exists []. constructor.
  - cbn [assign_items]. rewrite bind_run. unfold lift at 1.
    cbn [py_getitem].
    destruct (dict_lookup n items) as [v | ] eqn:Hv; [ | discriminate ].
    destruct l as [ | a l ].
    + unfold assign. intros H. injection H as <-.
      cbn [assigned fold_left fst snd]. rewrite Hv.
      split; [ reflexivity | ].
      exists [v]. constructor; [ exact Hv | constructor ].
    + rewrite bind_run. unfold assign at 1. intros H.
      destruct (IH _ _ H) as [-> [values Hvalues]].
      cbn [self logged opened]. split.
      * unfold assigned at 2. cbn [fold_left fst snd]. rewrite Hv. reflexivity.
      * exists (v :: values). constructor; [ exact Hv | exact Hvalues ].
Qed.

Lemma fields_of_setters (v1 v2 v3 v4 v5 v6 v7 v8 v9 v10 v11 v12 v13 v14 v15 : json)
  (t : TRC) :
  fields
    (set_signatures v15 (set_trc_server_addr v14
       (set_root_dns_server_cert v13 (set_root_dns_server_addr v12
          (set_registry_server_cert v11 (set_registry_server_addr v10
             (set_policies v9 (set_core_ads v8 (set_root_cas v7
                (set_core_isps v6 (set_trc_quorum v5 (set_core_quorum v4
                   (set_time v3 (set_version v2 (set_isd_id v1 t)))))))))))))))
  = [v1; v2; v3; v4; v5; v6; v7; v8; v9; v10; v11; v12; v13; v14; v15].
Proof. reflexivity. Qed.

Section Populated.

Variable open_read : json -> result pystr.

(** X12: when [parse] returns normally from a file whose text was
    loaded, the text was an object with all fifteen keys, every
    attribute holds the value of its key, nothing was logged, and in
    the resulting document the keys of every dict are distinct. *)
Theorem parse_populates (trc_file : json) (text : pystr) (trc : json)
  (st st' : state) :
  open_read trc_file = Ok text ->
  json_load text = Ok trc ->
  parse open_read trc_file st = (Ok tt, st') ->
  Forall2 (fun a v => py_getitem trc (JStr (fst a)) = Ok v)
    attribute_order (fields (self st')) /\
  unique_keys (JList (fields (self st'))) = true /\
  logged st' = logged st /\ opened st' = opened st.
Proof.
  intros Hopen Hload Hparse.
  rewrite (@parse_loaded open_read trc_file text trc st Hopen Hload) in Hparse.
  pose proof (json_loads_unique_keys _ Hload) as Hu.
  destruct trc as [ | | | | | items ];
    try (cbn [attribute_order assign_items] in Hparse;
         rewrite bind_run in Hparse; discriminate).
  destruct (assign_items_done _ _ _ Hparse) as [-> [values Hvalues]].
  cbn [self logged opened].
  assert (forall k v, dict_lookup k items = Some v -> unique_keys v = true)
    as Hitem.
  { intros k v Hk. apply dict_lookup_In in Hk.
    apply (unique_keys_dict_items _ Hu _ _ Hk). }
  unfold attribute_order in *.
  repeat match goal with
         | H : Forall2 _ (_ :: _) _ |- _ => inversion H; subst; clear H
         | H : Forall2 _ [] _ |- _ => inversion H; subst; clear H
         end.
  cbn [fst] in *. cbn [assigned fold_left fst snd].
  repeat match goal with
         | H : dict_lookup ?k items = Some _ |- context [dict_lookup ?k items] =>
             rewrite H
         end.
  cbv beta iota. rewrite fields_of_setters.
  split; [ | split; [ | split; reflexivity ] ].
  - repeat (apply Forall2_cons;
            [ cbn [py_getitem fst];
              match goal with
              | H : dict_lookup ?k items = Some _
                |- context [dict_lookup ?k items] => rewrite H
              end; reflexivity | ]).
    apply Forall2_nil.
  - cbn [unique_keys forallb].
    repeat match goal with
           | H : dict_lookup _ items = Some ?v |- _ =>
               rewrite (Hitem _ _ H); clear H
           end.
    reflexivity.
Qed.

End Populated.

Lemma parse_populates_witness :
  Forall2 (fun a v =>
             py_getitem
               (canonical
                  (get_trc_dict (self (snd (Sample.construct Sample.open_read)))
                     true))
               (JStr (fst a)) = Ok v)
    attribute_order
    (fields (self (snd (parse Sample.files (JStr (str "ISD1.trc"))
                          (Sample.initial Sample.blank))))) /\
  unique_keys
    (JList (fields (self (snd (parse Sample.files (JStr (str "ISD1.trc"))
                                 (Sample.initial Sample.blank)))))) = true /\
  logged (snd (parse Sample.files (JStr (str "ISD1.trc"))
                 (Sample.initial Sample.blank)))
  = logged (Sample.initial Sample.blank) /\
  opened (snd (parse Sample.files (JStr (str "ISD1.trc"))
                 (Sample.initial Sample.blank)))
  = opened (Sample.initial Sample.blank).
Proof.
  apply (@parse_populates Sample.files (JStr (str "ISD1.trc")) Sample.rendered
           (canonical
              (get_trc_dict (self (snd (Sample.construct Sample.open_read)))
                 true))
           (Sample.initial Sample.blank)
           (snd (parse Sample.files (JStr (str "ISD1.trc"))
                   (Sample.initial Sample.blank)))).
  - reflexivity.
  - vm_compute. reflexivity.
  - vm_compute. reflexivity.
Defined.

(* ================================================================= *)
(** * Where [verify] stops and what it raises *)

Section Stops.

Variable crypto_sign_ed25519_open : pybytes -> str_or_bytes -> result pybytes.
Variable standard_b64decode : pybytes -> result pybytes.

Local Abbreviation certificate_key := (certificate_key standard_b64decode).
Local Abbreviation signature_bytes := (signature_bytes standard_b64decode).
Local Abbreviation loop_run := (loop_run crypto_sign_ed25519_open standard_b64decode).
Local Abbreviation verify := (verify crypto_sign_ed25519_open standard_b64decode).

Lemma loop_run_rejected_last (t : TRC) (data : pybytes) signers r calls logs :
  loop_run t data signers r calls logs ->
  forall call,
    In call calls ->
    (exists message,
       crypto_sign_ed25519_open (fst call) (snd call) = Ok message) \/
    (exists e before,
       crypto_sign_ed25519_open (fst call) (snd call) = Raise e /\
       calls = before ++ [call] /\ r = Ok false /\ logs = [is_not_valid]).
Proof.
  induction 1 as [ | signer rest e Hc | signer rest Hc | signer rest e Hc Hk
                 | signer rest pk e Hc Hk Hs | signer rest pk raw e Hc Hk Hs Hv
                 | signer rest pk raw m r calls logs Hc Hk Hs Hv Hrun IH ];
    intros call Hin; try contradiction.
  - destruct Hin as [<- | []]. right. exists e, [].
    split; [ exact Hv | repeat split ].
  - destruct Hin as [<- | Hin].
    + left. exists m. exact Hv.
    + destruct (IH call Hin) as [Hok | (e & before & He & -> & -> & ->)].
      * left. exact Hok.
      * right. exists e, ((raw ++ data, IsBytes pk) :: before).
        split; [ exact He | repeat split ].
Qed.

(** X13: [verify] stops at the first signature that the primitive
    rejects.  Every call of the primitive that [verify] makes is
    accepted, except that the last one may be rejected; [verify] then
    returns [False] and logs that a signature is not valid. *)
Theorem verify_stops_at_rejection (st : state) :
  exists calls,
    opened (snd (verify st)) = opened st ++ calls /\
    forall call,
      In call calls ->
      (exists message,
         crypto_sign_ed25519_open (fst call) (snd call) = Ok message) \/
      (exists e before,
         crypto_sign_ed25519_open (fst call) (snd call) = Raise e /\
         calls = before ++ [call] /\
         fst (verify st) = Ok false /\
         logged (snd (verify st)) = logged st ++ [is_not_valid]).
Proof.
  destruct (verify_outcome crypto_sign_ed25519_open standard_b64decode st)
    as (data & _ & [ (e & _ & Hv)
                   | (signers & r & calls & logs & _ & Hv & Hloop) ]).
  - exists []. rewrite Hv, app_nil_r. split; [ reflexivity | intros call [] ].
  - exists calls. rewrite Hv. cbn [fst snd opened logged].
    split; [ reflexivity | ].
    intros call Hin.
    destruct (loop_run_rejected_last Hloop call Hin)
      as [Hok | (e & before & He & Hcalls & -> & ->)].
    + left. exact Hok.
    + right. exists e, before. repeat split; assumption.
Qed.

(** X14: an error that [verify] raises comes from the iteration over
    [signatures], or from a signer: from the test whether the signer is
    in [core_ads], from the decoding of the signer's certificate, or
    from the decoding of the signer's signature.  It is never an error
    of the signature primitive. *)
Theorem verify_raise_origin (st : state) (e : exn) :
  fst (verify st) = Raise e ->
  py_iter (signatures (self st)) = Raise e \/
  exists signers signer,
    py_iter (signatures (self st)) = Ok signers /\
    In signer signers /\
    (py_contains (core_ads (self st)) signer = Raise e \/
     certificate_key (self st) signer = Raise e \/
     signature_bytes (self st) signer = Raise e).
Proof.
  intros Hraise.
  destruct (verify_outcome crypto_sign_ed25519_open standard_b64decode st)
    as (data & _ & [ (e' & Hiter & Hv)
                   | (signers & r & calls & logs & Hiter & Hv & Hloop) ]).
  - rewrite Hv in Hraise. cbn [fst] in Hraise. injection Hraise as ->.
    left. exact Hiter.
  - rewrite Hv in Hraise. cbn [fst] in Hraise. right.
    destruct (@loop_run_raises _ _ _ _ _ _ _ _ Hloop e Hraise)
      as (signer & Hin & Horigin).
    exists signers, signer. repeat split; assumption.
Qed.

End Stops.

Lemma verify_raise_origin_witness :
  py_iter (signatures (self (Sample.initial Sample.unpadded_signature)))
  = Raise BinasciiError \/
  exists signers signer,
    py_iter (signatures (self (Sample.initial Sample.unpadded_signature)))
    = Ok signers /\
    In signer signers /\
    (py_contains (core_ads (self (Sample.initial Sample.unpadded_signature)))
       signer = Raise BinasciiError \/
     certificate_key Sample.standard_b64decode
       (self (Sample.initial Sample.unpadded_signature)) signer
     = Raise BinasciiError \/
     signature_bytes Sample.standard_b64decode
       (self (Sample.initial Sample.unpadded_signature)) signer
     = Raise BinasciiError).
Proof.
  apply (@verify_raise_origin Sample.crypto_sign_ed25519_open
           Sample.standard_b64decode
           (Sample.initial Sample.unpadded_signature) BinasciiError).
  vm_compute. reflexivity.
Defined.

(* ================================================================= *)
(** * Characters above the basic plane *)

Lemma escape_char_escaped (x : N) :
  127 <= x -> x < 0x10000 -> escape_char x = BACKSLASH :: 117 :: hex4 x.
Proof.
  intros Hlo Hhi. unfold escape_char, QUOTE, BACKSLASH.
  repeat match goal with
         | |- context [x =? ?k] =>
             replace (x =? k) with false by (symmetry; apply N.eqb_neq; lia)
         end.
  replace (x <=? 126) with false by (symmetry; apply N.leb_gt; lia).
  rewrite andb_false_r.
  replace (x <? 65536) with true by (symmetry; apply N.ltb_lt; lia).
  reflexivity.
Qed.

Lemma escape_char_surrogates (c : N) :
  0x10000 <= c -> c < 0x110000 ->
  escape_char c
  = escape_char (high_surrogate c) ++ escape_char (low_surrogate c).
Proof.
  intros Hlo Hhi.
  destruct (@surrogate_pair c Hlo Hhi) as (H1 & H2 & _). cbv zeta in H1, H2.
  fold (high_surrogate c) in H1. fold (low_surrogate c) in H2.
  assert ((c - 0x10000) / 1024 < 1024) as Hq
    by (apply N.Div0.div_lt_upper_bound; lia).
  assert ((c - 0x10000) mod 1024 < 1024) as Hr
    by (apply N.mod_lt; discriminate).
  assert (127 <= high_surrogate c < 0x10000 /\
          127 <= low_surrogate c < 0x10000) as [[Ha Hb] [Hc Hd]].
  { rewrite H1, H2. clear H1 H2.
    generalize dependent ((c - 0x10000) / 1024).
    generalize dependent ((c - 0x10000) mod 1024).
    intros r Hr q Hq. lia. }
  rewrite (@escape_char_escaped (high_surrogate c) Ha Hb).
  rewrite (@escape_char_escaped (low_surrogate c) Hc Hd).
  unfold escape_char, QUOTE, BACKSLASH.
  repeat match goal with
         | |- context [c =? ?k] =>
             replace (c =? k) with false by (symmetry; apply N.eqb_neq; lia)
         end.
  replace (c <=? 126) with false by (symmetry; apply N.leb_gt; lia).
  rewrite andb_false_r.
  replace (c <? 65536) with false by (symmetry; apply N.ltb_ge; lia).
  reflexivity.
Qed.

Lemma encode_basestring_ascii_surrogates (a b : pystr) (c : N) :
  0x10000 <= c -> c < 0x110000 ->
  encode_basestring_ascii (a ++ c :: b)
  = encode_basestring_ascii (a ++ high_surrogate c :: low_surrogate c :: b).
Proof.
  intros Hlo Hhi. unfold encode_basestring_ascii.
  rewrite !flat_map_app. cbn [flat_map].
  rewrite (@escape_char_surrogates c Hlo Hhi), <- !app_assoc. reflexivity.
Qed.

Lemma get_trc_dict_rendering (sort_keys : bool) (indent : option nat)
  (t1 t2 : TRC) (with_signatures : bool) :
  Forall2 (fun x y => forall level,
             iterencode sort_keys indent level x
             = iterencode sort_keys indent level y) (fields t1) (fields t2) ->
  json_dumps sort_keys indent (get_trc_dict t1 with_signatures)
  = json_dumps sort_keys indent (get_trc_dict t2 with_signatures).
Proof.
  unfold fields. intros H.
  repeat match goal with
         | H : Forall2 _ (_ :: _) (_ :: _) |- _ => inversion H; subst; clear H
         end.
  unfold json_dumps, get_trc_dict.
  destruct with_signatures.
  - repeat match goal with
           | |- context [dict_set ?k ?v ?d] =>
               let r := eval vm_compute in (dict_set k v d) in
               change (dict_set k v d) with r
           end.
    rewrite !iterencode_dict by discriminate. cbn [map fst snd].
    repeat match goal with
           | H : forall level : nat, _ = _ |- _ => rewrite ?H; clear H
           end.
    reflexivity.
  - rewrite !iterencode_dict by discriminate. cbn [map fst snd].
    repeat match goal with
           | H : forall level : nat, _ = _ |- _ => rewrite ?H; clear H
           end.
    reflexivity.
Qed.

(** X15: the rendering cannot tell a character above the basic plane
    from its surrogate pair.  For every attribute, a document that
    holds a string with such a character and the document that holds
    the string with the two surrogates in its place, a different
    string, have the same [__str__] text and the same message for
    [verify]. *)
Theorem surrogate_pair_renders_alike (t : TRC) (name : pystr)
  (setter : json -> TRC -> TRC) (a b : pystr) (c : N) :
  In (name, setter) attribute_order ->
  0x10000 <= c -> c < 0x110000 ->
  a ++ c :: b <> a ++ high_surrogate c :: low_surrogate c :: b /\
  __str__ (setter (JStr (a ++ c :: b)) t)
  = __str__ (setter (JStr (a ++ high_surrogate c :: low_surrogate c :: b)) t) /\
  json_dumps true (Some 4%nat)
    (get_trc_dict (setter (JStr (a ++ c :: b)) t) false)
  = json_dumps true (Some 4%nat)
      (get_trc_dict
         (setter (JStr (a ++ high_surrogate c :: low_surrogate c :: b)) t) false).
Proof.
  intros Hin Hlo Hhi.
  assert (Forall2 (fun x y => forall level,
                     iterencode true (Some 4%nat) level x
                     = iterencode true (Some 4%nat) level y)
            (fields (setter (JStr (a ++ c :: b)) t))
            (fields (setter (JStr (a ++ high_surrogate c :: low_surrogate c :: b)) t)))
    as Hfields.
  { unfold attribute_order in Hin. cbn [In] in Hin.
    repeat match type of Hin with
           | _ \/ _ => destruct Hin as [Heq | Hin]; [ injection Heq as _ <- | ]
           end; try contradiction;
      cbv [fields set_isd_id set_version set_time set_core_quorum set_trc_quorum
           set_core_isps set_root_cas set_core_ads set_policies
           set_registry_server_addr set_registry_server_cert
           set_root_dns_server_addr set_root_dns_server_cert
           set_trc_server_addr set_signatures];
      repeat (apply Forall2_cons;
              [ intros level;
                first [ reflexivity
                      | cbn [iterencode];
                        apply encode_basestring_ascii_surrogates; assumption ]
              | ]);
      apply Forall2_nil. }
  split; [ | split; [ unfold __str__ | ]; apply get_trc_dict_rendering, Hfields ].
  intros Heq. apply app_inv_head in Heq. injection Heq as Hc _.
  destruct (@surrogate_pair c Hlo Hhi) as (H1 & _ & _). cbv zeta in H1.
  fold (high_surrogate c) in H1.
  assert ((c - 0x10000) / 1024 < 1024) as Hq
    by (apply N.Div0.div_lt_upper_bound; lia).
  rewrite <- Hc in H1. clear Hc.
  generalize dependent ((c - 0x10000) / 1024). intros q Hq H1. lia.
Qed.

Lemma surrogate_pair_renders_alike_witness :
  [233; 0x1F600; 10] <> [233; high_surrogate 0x1F600; low_surrogate 0x1F600; 10] /\
  __str__ (set_trc_server_addr (JStr [233; 0x1F600; 10]) Sample.signed_by_two)
  = __str__
      (set_trc_server_addr
         (JStr [233; high_surrogate 0x1F600; low_surrogate 0x1F600; 10])
         Sample.signed_by_two) /\
  json_dumps true (Some 4%nat)
    (get_trc_dict
       (set_trc_server_addr (JStr [233; 0x1F600; 10]) Sample.signed_by_two) false)
  = json_dumps true (Some 4%nat)
      (get_trc_dict
         (set_trc_server_addr
            (JStr [233; high_surrogate 0x1F600; low_surrogate 0x1F600; 10])
            Sample.signed_by_two) false).
Proof.
  apply (@surrogate_pair_renders_alike Sample.signed_by_two
           (str "trc_server_addr") set_trc_server_addr [233] [10] 0x1F600).
  - do 13 right. left. reflexivity.
  - discriminate.
  - reflexivity.
Defined.
